(** * Pension regulatory-base simulator: shallow embedding of
      [services/simulator.py] (class [SimuladorPeriodos]) and of the models
      it uses ([models/bases_cotizacion.py], [models/configuraciones.py]).

    Modelling conventions.

    - Python [float] amounts are modelled twice.  The properties about
      orders, counts, dates, tags and bounds are stated on exact rationals
      ([Q]), with [round(x, 2)] as [round2], rounding the exact value
      half-to-even to a multiple of 1/100.  The properties about the value
      of a computed amount are stated on the module [Binary64], where an
      amount is a binary64 number and the sum, the product, the quotient,
      the comparisons and [round(x, 2)] are those of Python.
    - A [datetime] built by [strptime(s, "%m/%Y")] always is the first day of
      a month at midnight; it is represented by its month ordinal
      [12 * year + (month - 1)].  [relativedelta(months=k)] is addition on
      ordinals and fails, as [datetime.replace] does, when the year leaves
      [1 .. 9999].
    - [strftime("%m/%Y")] writes the year with four digits.
    - Python exceptions are the error side of [resultado]; every function
      that can raise returns a [resultado].
    - The global [config] object is the record [ConfigManager], handed to
      the constructor. *)

From Stdlib Require Import ZArith QArith Qround Qabs String Ascii List Lia Lqa.
From Stdlib Require Import DecimalString Permutation Sorted.
From Stdlib Require Import SpecFloat.
From stdpp Require Import gmap strings.

Open Scope string_scope.
Open Scope list_scope.
Open Scope Z_scope.

(** ** Input records *)

(** One element of [bases_extraidas["bases"]]: a dictionary with the keys
    "mes_anyo", "base", "empresa" and "regimen" (all present). *)
Record base_data := {
  mes_anyo_d : string;
  base_d : Q;
  empresa_d : string;
  regimen_d : string
}.

(** The shapes of [bases_extraidas] that the validation tells apart. *)
Inductive bases_extraidas :=
| NoEsDict                         (* not a dictionary *)
| SinClaveBases                    (* a dictionary without the key "bases" *)
| BasesNoLista                     (* "bases" is not a list *)
| Bases (l : list base_data).

(** ** Exceptions *)

(** The messages of the [ValueError]s raised by the simulator and by the
    library calls it makes. *)
Inductive mensaje :=
| DebeSerDiccionario            (* bases_extraidas debe ser un diccionario *)
| DebeContenerClaveBases        (* bases_extraidas debe contener la clave 'bases' *)
| BasesDebeSerLista             (* bases debe ser una lista *)
| ListaBasesVacia               (* La lista de bases no puede estar vacia *)
| FormatoFechaInvalido (fecha : string)
| RegimenInvalido (regimen : string)
| ErrorProcesandoBase (dato : base_data) (causa : mensaje)
| BaseNegativaEncontrada (valor : Q)
| CombinacionRegimenesInvalida (mes : string)
| TimeDataDoesNotMatch (dato : string)   (* datetime.strptime *)
| YearOutOfRange                          (* datetime.replace, via relativedelta *)
| EmptySequence                           (* min() / max() of an empty sequence *)
| InvalidLiteralForInt (dato : string).  (* int() *)

Inductive excepcion :=
| ValueError (m : mensaje)
| KeyError (clave : string)
| KeyErrorInt (clave : Z)
| IndexError
| TypeError
| ZeroDivisionError.

Inductive resultado (A : Type) :=
| Ok (a : A)
| Err (e : excepcion).
Arguments Ok {A} a.
Arguments Err {A} e.

Definition bind {A B} (m : resultado A) (k : A -> resultado B) : resultado B :=
  match m with
  | Ok a => k a
  | Err e => Err e
  end.

Notation "'let*' x ':=' m 'in' k" := (bind m (fun x => k))
  (at level 10, x name, m at level 100, k at level 200, only parsing).

Fixpoint mapM {A B} (f : A -> resultado B) (l : list A) : resultado (list B) :=
  match l with
  | [] => Ok []
  | x :: r =>
      let* y := f x in
      let* ys := mapM f r in
      Ok (y :: ys)
  end.

(** ** Numbers *)

(** Rounding of an exact rational to the nearest integer, ties to even. *)
Definition redondeo_par (q : Q) : Z :=
  let f := Qfloor q in
  match Qcompare (q - inject_Z f) (1 # 2) with
  | Lt => f
  | Gt => f + 1
  | Eq => if Z.even f then f else f + 1
  end.

(** [round(x, 2)]. *)
Definition round2 (x : Q) : Q := inject_Z (redondeo_par (x * 100)) / 100.

(** A two-decimal currency amount. *)
Definition dos_decimales (x : Q) : Prop := exists z : Z, (x == z # 100)%Q.

Definition Qlt_bool (a b : Q) : bool := negb (Qle_bool b a).

(** [sum(...)]: starts at 0 and adds from the left. *)
Definition py_sum (l : list Q) : Q := fold_left Qplus l 0%Q.

(** [min(l, key=key)]: the first element whose key is minimal. *)
Definition py_min {A} (key : A -> Z) (l : list A) : resultado A :=
  match l with
  | [] => Err (ValueError EmptySequence)
  | x :: r => Ok (fold_left (fun best y => if key y <? key best then y else best) r x)
  end.

(** [max(l, key=key)] with an integer key: the first element whose key is
    maximal. *)
Definition py_max {A} (key : A -> Z) (l : list A) : resultado A :=
  match l with
  | [] => Err (ValueError EmptySequence)
  | x :: r => Ok (fold_left (fun best y => if key best <? key y then y else best) r x)
  end.

(** [max(l, key=key)] with an amount as key. *)
Definition py_max_Q {A} (key : A -> Q) (l : list A) : resultado A :=
  match l with
  | [] => Err (ValueError EmptySequence)
  | x :: r => Ok (fold_left (fun best y => if Qlt_bool (key best) (key y) then y else best) r x)
  end.

(** [sorted(l)] on integers. *)
Fixpoint insertar (x : Z) (l : list Z) : list Z :=
  match l with
  | [] => [x]
  | y :: r => if x <=? y then x :: l else y :: insertar x r
  end.

Definition sorted (l : list Z) : list Z := fold_right insertar [] l.

(** [l.sort(key=..., reverse=True)] on elements already paired with their
    keys.  The sort is stable, also with [reverse=True]: elements with equal
    keys keep their order. *)
Fixpoint insertar_desc {A} (x : Z * A) (l : list (Z * A)) : list (Z * A) :=
  match l with
  | [] => [x]
  | y :: r => if fst y <=? fst x then x :: l else y :: insertar_desc x r
  end.

Definition sort_reverse {A} (l : list (Z * A)) : list (Z * A) :=
  fold_right insertar_desc [] l.

(** ** Strings and dates *)

Definition upper_ascii (c : ascii) : ascii :=
  let n := nat_of_ascii c in
  if (97 <=? n)%nat && (n <=? 122)%nat then ascii_of_nat (n - 32) else c.

(** [str.upper()] on a text of ASCII characters: the letters a to z become
    capitals and every other character is kept.  The characters outside
    ASCII, which [str.upper()] may change, are kept as well. *)
Fixpoint upper (s : string) : string :=
  match s with
  | EmptyString => EmptyString
  | String c r => String (upper_ascii c) (upper r)
  end.

Definition digito (n : Z) : ascii := ascii_of_nat (Z.to_nat (48 + n)).

Definition valor_digito (c : ascii) : option Z :=
  let n := Z.of_nat (nat_of_ascii c) in
  if (48 <=? n) && (n <=? 57) then Some (n - 48) else None.

(** [str(n)] for a length. *)
Definition str_nat (n : nat) : string := NilZero.string_of_uint (Nat.to_uint n).

Abbreviation datetime := Z (only parsing).

Definition year (d : datetime) : Z := d / 12.
Definition month (d : datetime) : Z := d mod 12 + 1.

Definition MINYEAR : Z := 1.
Definition MAXYEAR : Z := 9999.

Definition en_rango (d : datetime) : bool :=
  (MINYEAR <=? year d) && (year d <=? MAXYEAR).

(** [d + relativedelta(months=k)]; [k] is negative for a subtraction. *)
Definition relativedelta (d : datetime) (k : Z) : resultado datetime :=
  if en_rango (d + k) then Ok (d + k) else Err (ValueError YearOutOfRange).

(** [d.strftime("%m/%Y")]. *)
Definition strftime (d : datetime) : string :=
  let m := month d in
  let y := year d in
  String (digito (m / 10)) (String (digito (m mod 10)) (String "/"
    (String (digito (y / 1000)) (String (digito (y / 100 mod 10))
      (String (digito (y / 10 mod 10)) (String (digito (y mod 10)) EmptyString)))))).

(** The month directive [%m] of [strptime]: the regular expression
    [1[0-2]|0[1-9]|[1-9]]. *)
Definition leer_mes (s : string) : option (Z * string) :=
  match s with
  | EmptyString => None
  | String c1 r1 =>
      match valor_digito c1 with
      | None => None
      | Some d1 =>
          let dos :=
            match r1 with
            | EmptyString => None
            | String c2 r2 =>
                match valor_digito c2 with
                | None => None
                | Some d2 =>
                    if ((d1 =? 1) && (d2 <=? 2)) || ((d1 =? 0) && (1 <=? d2))
                    then Some (10 * d1 + d2, r2)
                    else None
                end
            end in
          match dos with
          | Some r => Some r
          | None => if 1 <=? d1 then Some (d1, r1) else None
          end
      end
  end.

(** The year directive [%Y]: exactly four digits, up to the end of the
    string. *)
Definition leer_anyo (s : string) : option Z :=
  match s with
  | String a (String b (String c (String d EmptyString))) =>
      match valor_digito a, valor_digito b, valor_digito c, valor_digito d with
      | Some a, Some b, Some c, Some d => Some (1000 * a + 100 * b + 10 * c + d)
      | _, _, _, _ => None
      end
  | _ => None
  end.

(** [datetime.strptime(s, "%m/%Y")]. *)
Definition strptime (s : string) : resultado datetime :=
  match leer_mes s with
  | Some (m, String "/" r) =>
      match leer_anyo r with
      | Some y =>
          if MINYEAR <=? y then Ok (12 * y + (m - 1))
          else Err (ValueError YearOutOfRange)
      | None => Err (ValueError (TimeDataDoesNotMatch s))
      end
  | _ => Err (ValueError (TimeDataDoesNotMatch s))
  end.

(** [s.split("/")]. *)
Fixpoint split_barra (s : string) : list string :=
  match s with
  | EmptyString => [EmptyString]
  | String c r =>
      if Ascii.eqb c "/" then EmptyString :: split_barra r
      else match split_barra r with
           | [] => [String c EmptyString]
           | p :: ps => String c p :: ps
           end
  end.

Fixpoint leer_digitos (s : string) (acc : Z) : option Z :=
  match s with
  | EmptyString => Some acc
  | String c r =>
      match valor_digito c with
      | Some d => leer_digitos r (10 * acc + d)
      | None => None
      end
  end.

(** [int(s)] on a plain string of decimal digits (signs, blanks and
    underscores, which [int] also accepts, are not modelled: no month-year
    that the constructor accepts has them). *)
Definition py_int (s : string) : resultado Z :=
  match s with
  | EmptyString => Err (ValueError (InvalidLiteralForInt s))
  | _ => match leer_digitos s 0 with
         | Some n => Ok n
         | None => Err (ValueError (InvalidLiteralForInt s))
         end
  end.

(** ** Data model *)

(** The value of [metadatos_pluriactividad]. *)
Record metadatos := {
  es_pluriactividad : bool;
  bases_individuales : list base_data;
  base_bruta : Q;
  tope_aplicado : string;
  empresas_detalle : list string
}.

(** [models.bases_cotizacion.BaseCotizacion]. *)
Record BaseCotizacion := {
  mes_anyo : string;
  base : Q;
  empresa : string;
  regimen : string;
  metadatos_pluriactividad : option metadatos
}.

(** The constructor: the field validator [convertir_base_a_float] stores
    [round(float(v), 2)]. *)
Definition nueva_BaseCotizacion (m : string) (b : Q) (e r : string) : BaseCotizacion :=
  {| mes_anyo := m; base := round2 b; empresa := e; regimen := r;
     metadatos_pluriactividad := None |}.

(** The assignment [b.metadatos_pluriactividad = md]. *)
Definition asignar_metadatos (b : BaseCotizacion) (md : metadatos) : BaseCotizacion :=
  {| mes_anyo := mes_anyo b; base := base b; empresa := empresa b;
     regimen := regimen b; metadatos_pluriactividad := Some md |}.

(** One entry of [topes_cotizacion]. *)
Record topes := {
  base_minima_mensual : Q;
  base_maxima_mensual : Q
}.

(** [models.configuraciones.ParametrosComputo]. *)
Record parametros := {
  bases_incluidas : Z;
  periodo_meses : Z;
  divisor_base_reguladora : Q
}.

(** A dictionary with integer keys whose order of insertion matters
    ([list(d.keys())]). *)
Definition dict (V : Type) := list (Z * V).

Fixpoint dict_get {V} (d : dict V) (k : Z) : option V :=
  match d with
  | [] => None
  | (k', v) :: r => if k =? k' then Some v else dict_get r k
  end.

Definition keys {V} (d : dict V) : list Z := map fst d.

(** [d[k]]. *)
Definition getitem {V} (d : dict V) (k : Z) : resultado V :=
  match dict_get d k with
  | Some v => Ok v
  | None => Err (KeyErrorInt k)
  end.

(** [core.config.config_manager.ConfigManager], after loading. *)
Record ConfigManager := {
  cargar_parametros_computo : dict parametros;
  cargar_indices_revalorizacion : gmap string Q;
  cargar_topes_cotizacion : dict topes
}.

(** The dictionaries built by [añadir_periodo] and completed by
    [revalorizar_bases]; the three optional keys are absent when [None]. *)
Record base_dict := {
  mes_anyo_p : string;
  base_p : Q;
  empresa_p : string;
  regimen_p : string;
  periodo : string;
  pluriactividad : option metadatos;
  base_original : option Q;
  indice_revalorizacion : option Q
}.

(** The dictionary returned by [_calcular_estadisticas_para_bases]. *)
Record estadisticas := {
  total_bases : nat;
  bases_revalorizadas : nat;
  bases_no_revalorizadas : nat;
  suma_periodo_revalorizado : Q;
  suma_periodo_no_revalorizado : Q;
  suma_total : Q;
  base_reguladora : Q
}.

(** The dictionary returned by [_agregar_bases_mes]. *)
Record agregacion := {
  mes_anyo_a : string;
  bases_individuales_a : list base_data;
  base_agregada_bruta : Q;
  base_agregada_final : Q;
  aplicado_tope : string;
  regimen_principal : string;
  empresa_agregada : string;
  empresas_detalle_a : list string
}.

(** The instance attributes of [SimuladorPeriodos]. *)
Record SimuladorPeriodos := {
  regimen_acceso : string;
  sexo : string;
  contador_lagunas : Z;
  cumple_condiciones_hombre : bool;
  parametros_computo : dict parametros;
  indices_revalorizacion : gmap string Q;
  topes_cotizacion : dict topes;
  fecha_jubilacion : datetime;
  bases : list BaseCotizacion;
  parametros_año_jubilacion : parametros;
  bases_procesadas : list base_dict
}.

(** ** The methods of [SimuladorPeriodos] *)

Definition en_lista (x : string) (l : list string) : bool :=
  existsb (String.eqb x) l.

Definition _validar_datos_entrada (self : SimuladorPeriodos)
    (bases_extraidas : bases_extraidas) (fecha_jubilacion : string) : resultado unit :=
  match bases_extraidas with
  | NoEsDict => Err (ValueError DebeSerDiccionario)
  | SinClaveBases => Err (ValueError DebeContenerClaveBases)
  | BasesNoLista => Err (ValueError BasesDebeSerLista)
  | Bases [] => Err (ValueError ListaBasesVacia)
  | Bases (_ :: _) =>
      match strptime fecha_jubilacion with
      | Err _ => Err (ValueError (FormatoFechaInvalido fecha_jubilacion))
      | Ok _ =>
          if negb (en_lista (regimen_acceso self) ["GENERAL"; "AUTONOMO"])
          then Err (ValueError (RegimenInvalido (regimen_acceso self)))
          else Ok tt
      end
  end.

Definition _procesar_fecha_jubilacion (fecha_jubilacion : string) : resultado datetime :=
  strptime fecha_jubilacion.

Definition _obtener_topes_año (self : SimuladorPeriodos) (año : Z) : resultado topes :=
  match dict_get (topes_cotizacion self) año with
  | Some t => Ok t
  | None =>
      let años_disponibles := keys (topes_cotizacion self) in
      let* año_mas_cercano := py_min (fun x => Z.abs (x - año)) años_disponibles in
      getitem (topes_cotizacion self) año_mas_cercano
  end.

Definition _obtener_base_minima_año (self : SimuladorPeriodos) (año : Z) : resultado Q :=
  let* topes := _obtener_topes_año self año in
  Ok (base_minima_mensual topes).

(** [int(fecha.split("/")[1])]. *)
Definition año_de_fecha (fecha : string) : resultado Z :=
  match split_barra fecha with
  | _ :: a :: _ => py_int a
  | _ => Err IndexError
  end.

Definition _agregar_bases_mes (self : SimuladorPeriodos)
    (bases_mes : list base_data) (fecha : string) : resultado agregacion :=
  let suma_bruta := py_sum (map base_d bases_mes) in
  let* año := año_de_fecha fecha in
  let* tope_minimo := _obtener_base_minima_año self año in
  let* topes := _obtener_topes_año self año in
  let tope_maximo := base_maxima_mensual topes in
  let '(base_final, tope_aplicado) :=
    if Qlt_bool suma_bruta tope_minimo then (tope_minimo, "minimo")
    else if Qlt_bool tope_maximo suma_bruta then (tope_maximo, "maximo")
    else (suma_bruta, "ninguno") in
  let* principal := py_max_Q base_d bases_mes in
  let regimen_principal := regimen_d principal in
  let empresas := map empresa_d bases_mes in
  let empresa_agregada :=
    String.append "PLURIACTIVIDAD_"
      (String.append (str_nat (length bases_mes)) "_EMPRESAS") in
  Ok {| mes_anyo_a := fecha;
        bases_individuales_a := bases_mes;
        base_agregada_bruta := round2 suma_bruta;
        base_agregada_final := round2 base_final;
        aplicado_tope := tope_aplicado;
        regimen_principal := regimen_principal;
        empresa_agregada := empresa_agregada;
        empresas_detalle_a := empresas |}.

Definition _validar_coherencia_pluriactividad (self : SimuladorPeriodos)
    (bases_mes : list base_data) : bool := true.

(** [bases_por_mes[mes_anyo].append(base_data)], creating the entry at the
    end of the dictionary when the key is new. *)
Fixpoint agrupar_base (bases_por_mes : list (string * list base_data))
    (dato : base_data) : list (string * list base_data) :=
  match bases_por_mes with
  | [] => [(mes_anyo_d dato, [dato])]
  | (m, l) :: r =>
      if String.eqb (mes_anyo_d dato) m then (m, l ++ [dato]) :: r
      else (m, l) :: agrupar_base r dato
  end.

(** Step 1 of [_procesar_bases_extraidas]: validate and group by month. *)
Fixpoint agrupar_bases (bases : list base_data)
    (bases_por_mes : list (string * list base_data))
    : resultado (list (string * list base_data)) :=
  match bases with
  | [] => Ok bases_por_mes
  | dato :: r =>
      if Qlt_bool (base_d dato) 0
      then Err (ValueError (ErrorProcesandoBase dato
                             (BaseNegativaEncontrada (base_d dato))))
      else agrupar_bases r (agrupar_base bases_por_mes dato)
  end.

(** Step 2: one month, with or without several employers. *)
Definition procesar_mes (self : SimuladorPeriodos)
    (entrada : string * list base_data) : resultado BaseCotizacion :=
  let '(mes_anyo, bases_mes) := entrada in
  match bases_mes with
  | [dato] =>
      Ok (nueva_BaseCotizacion (mes_anyo_d dato) (base_d dato)
            (empresa_d dato) (regimen_d dato))
  | _ =>
      if negb (_validar_coherencia_pluriactividad self bases_mes)
      then Err (ValueError (CombinacionRegimenesInvalida mes_anyo))
      else
        let* resultado_agregacion := _agregar_bases_mes self bases_mes mes_anyo in
        let base_agregada :=
          nueva_BaseCotizacion mes_anyo (base_agregada_final resultado_agregacion)
            (empresa_agregada resultado_agregacion)
            (regimen_principal resultado_agregacion) in
        Ok (asignar_metadatos base_agregada
              {| es_pluriactividad := true;
                 bases_individuales := bases_individuales_a resultado_agregacion;
                 base_bruta := base_agregada_bruta resultado_agregacion;
                 tope_aplicado := aplicado_tope resultado_agregacion;
                 empresas_detalle := empresas_detalle_a resultado_agregacion |})
  end.

(** The sort key [datetime.strptime(x.mes_anyo, "%m/%Y")], computed once per
    element before sorting. *)
Definition con_clave {A} (mes : A -> string) (x : A) : resultado (Z * A) :=
  let* k := strptime (mes x) in Ok (k, x).

(** [l.sort(key=lambda x: datetime.strptime(x.mes_anyo, "%m/%Y"), reverse=True)]. *)
Definition ordenar_por_fecha {A} (mes : A -> string) (l : list A) : resultado (list A) :=
  let* claves := mapM (con_clave mes) l in
  Ok (map snd (sort_reverse claves)).

Definition bases_de (bases_extraidas : bases_extraidas) : resultado (list base_data) :=
  match bases_extraidas with
  | Bases l => Ok l
  | SinClaveBases => Err (KeyError "bases")
  | _ => Err TypeError
  end.

Definition _procesar_bases_extraidas (self : SimuladorPeriodos)
    (bases_extraidas : bases_extraidas) : resultado (list BaseCotizacion) :=
  let* lista := bases_de bases_extraidas in
  let* bases_por_mes := agrupar_bases lista [] in
  let* bases_procesadas := mapM (procesar_mes self) bases_por_mes in
  ordenar_por_fecha mes_anyo bases_procesadas.

Definition get_parametros_computo (self : SimuladorPeriodos) : resultado parametros :=
  let año_jubilacion := year (fecha_jubilacion self) in
  let* parametros :=
    match dict_get (parametros_computo self) año_jubilacion with
    | None =>
        let años_disponibles := sorted (keys (parametros_computo self)) in
        let* año_mas_cercano :=
          py_min (fun x => Z.abs (x - año_jubilacion)) años_disponibles in
        getitem (parametros_computo self) año_mas_cercano
    | Some p => Ok p
    end in
  Ok {| bases_incluidas := bases_incluidas parametros;
        periodo_meses := periodo_meses parametros;
        divisor_base_reguladora := divisor_base_reguladora parametros |}.

(** The loop over [self.bases] that collects the amounts of the last six
    months; the bound [fecha_ultima_base - relativedelta(months=5)] is
    evaluated at every iteration. *)
Fixpoint recoger_recientes (bases : list BaseCotizacion)
    (fecha_ultima_base : datetime) (bases_recientes : list Q) : resultado (list Q) :=
  match bases with
  | [] => Ok bases_recientes
  | b :: r =>
      let* fecha_base := strptime (mes_anyo b) in
      let* limite := relativedelta fecha_ultima_base (-5) in
      if limite <=? fecha_base
      then recoger_recientes r fecha_ultima_base (bases_recientes ++ [base b])
      else recoger_recientes r fecha_ultima_base bases_recientes
  end.

(** The [while fecha_actual <= fecha_limite_simulacion] loop.  [pasos] bounds
    the number of iterations; the caller passes the number of months from
    [fecha_actual] to the limit, which the loop never exceeds. *)
Fixpoint bucle_simulacion (self : SimuladorPeriodos) (promedio : Q) (pasos : nat)
    (fecha_actual fecha_limite_simulacion : datetime)
    (bases_simuladas : list BaseCotizacion) : resultado (list BaseCotizacion) :=
  match pasos with
  | O => Ok bases_simuladas
  | S pasos' =>
      if fecha_actual <=? fecha_limite_simulacion then
        let base_simulada :=
          nueva_BaseCotizacion (strftime fecha_actual) (round2 promedio)
            "SIMULADA" (regimen_acceso self) in
        let* siguiente := relativedelta fecha_actual 1 in
        bucle_simulacion self promedio pasos' siguiente fecha_limite_simulacion
          (bases_simuladas ++ [base_simulada])
      else Ok bases_simuladas
  end.

Definition simular_periodo_futuro (self : SimuladorPeriodos)
    : resultado (list BaseCotizacion) :=
  match bases self with
  | [] => Ok []
  | _ :: _ =>
      let* claves := mapM (con_clave mes_anyo) (bases self) in
      let* ultima := py_max fst claves in
      let ultima_base := snd ultima in
      let* fecha_ultima_base := strptime (mes_anyo ultima_base) in
      if fecha_jubilacion self <=? fecha_ultima_base then Ok []
      else
        let* bases_recientes := recoger_recientes (bases self) fecha_ultima_base [] in
        let promedio :=
          match bases_recientes with
          | [] => base ultima_base
          | _ :: _ =>
              (py_sum bases_recientes / inject_Z (Z.of_nat (length bases_recientes)))%Q
          end in
        let* fecha_actual := relativedelta fecha_ultima_base 1 in
        let* fecha_limite_simulacion := relativedelta (fecha_jubilacion self) (-1) in
        bucle_simulacion self promedio
          (Z.to_nat (fecha_limite_simulacion - fecha_actual + 1))
          fecha_actual fecha_limite_simulacion []
  end.

Definition calcular_base_laguna (self : SimuladorPeriodos)
    (fecha_laguna : string) (n_laguna : Z) : resultado Q :=
  let* fecha := strptime fecha_laguna in
  let año := year fecha in
  if String.eqb (regimen_acceso self) "AUTONOMO" then Ok 0%Q
  else
    let* base_min := _obtener_base_minima_año self año in
    if n_laguna <=? 48 then Ok base_min
    else
      let aplica_dt41 :=
        String.eqb (sexo self) "FEMENINO"
        || (String.eqb (sexo self) "MASCULINO" && cumple_condiciones_hombre self) in
      if aplica_dt41 then
        if n_laguna <=? 60 then Ok base_min
        else if n_laguna <=? 84 then Ok (round2 ((8 # 10) * base_min))
        else Ok (round2 ((5 # 10) * base_min))
      else Ok (round2 ((5 # 10) * base_min)).

(** [bases_dict[base.mes_anyo] = base] for every base, in order. *)
Definition construir_bases_dict (bases_todas : list BaseCotizacion)
    : gmap string BaseCotizacion :=
  fold_left (fun d b => <[mes_anyo b := b]> d) bases_todas ∅.

(** The [while meses_incluidos < bases_incluidas] loop; [faltan] is
    [bases_incluidas - meses_incluidos]. *)
Fixpoint bucle_periodo (self : SimuladorPeriodos)
    (bases_dict : gmap string BaseCotizacion) (faltan : nat)
    (fecha_actual : datetime) (contador_lagunas_local : Z)
    (bases_periodo : list BaseCotizacion) : resultado (list BaseCotizacion) :=
  match faltan with
  | O => Ok bases_periodo
  | S faltan' =>
      let mes_anyo := strftime fecha_actual in
      let* paso :=
        match bases_dict !! mes_anyo with
        | Some b => Ok (bases_periodo ++ [b], contador_lagunas_local)
        | None =>
            let contador := contador_lagunas_local + 1 in
            let* base_calculada := calcular_base_laguna self mes_anyo contador in
            let base_laguna :=
              nueva_BaseCotizacion mes_anyo base_calculada "LAGUNA"
                (regimen_acceso self) in
            Ok (bases_periodo ++ [base_laguna], contador)
        end in
      let* anterior := relativedelta fecha_actual (-1) in
      bucle_periodo self bases_dict faltan' anterior (snd paso) (fst paso)
  end.

Definition obtener_bases_periodo_computo (self : SimuladorPeriodos)
    (usar_parametros_antiguos : bool) : resultado (list BaseCotizacion) :=
  let* simuladas := simular_periodo_futuro self in
  let bases_todas := bases self ++ simuladas in
  let bases_dict := construir_bases_dict bases_todas in
  let bases_incluidas :=
    if usar_parametros_antiguos then 300
    else bases_incluidas (parametros_año_jubilacion self) in
  let* fecha_actual := relativedelta (fecha_jubilacion self) (-1) in
  bucle_periodo self bases_dict (Z.to_nat bases_incluidas) fecha_actual 0 [].

Definition añadir_periodo (self : SimuladorPeriodos)
    (bases_periodo : list BaseCotizacion) : resultado (list base_dict) :=
  let* fecha_limite := relativedelta (fecha_jubilacion self) (-24) in
  mapM (fun b =>
          let* fecha_base := strptime (mes_anyo b) in
          let periodo :=
            if fecha_limite <=? fecha_base then "no_revalorizado" else "revalorizado" in
          Ok {| mes_anyo_p := mes_anyo b;
                base_p := base b;
                empresa_p := empresa b;
                regimen_p := regimen b;
                periodo := periodo;
                pluriactividad := metadatos_pluriactividad b;
                base_original := None;
                indice_revalorizacion := None |})
       bases_periodo.

(** The body of the loop of [revalorizar_bases]. *)
Definition revalorizar_base (self : SimuladorPeriodos) (b : base_dict) : base_dict :=
  if String.eqb (periodo b) "revalorizado" then
    match indices_revalorizacion self !! mes_anyo_p b with
    | Some indice =>
        {| mes_anyo_p := mes_anyo_p b;
           base_p := round2 (base_p b * indice);
           empresa_p := empresa_p b;
           regimen_p := regimen_p b;
           periodo := periodo b;
           pluriactividad := pluriactividad b;
           base_original := Some (base_p b);
           indice_revalorizacion := Some indice |}
    | None =>
        {| mes_anyo_p := mes_anyo_p b;
           base_p := base_p b;
           empresa_p := empresa_p b;
           regimen_p := regimen_p b;
           periodo := periodo b;
           pluriactividad := pluriactividad b;
           base_original := Some (base_p b);
           indice_revalorizacion := Some 1%Q |}
    end
  else b.

Definition revalorizar_bases (self : SimuladorPeriodos)
    (bases_con_periodo : list base_dict) : list base_dict :=
  map (revalorizar_base self) bases_con_periodo.

Definition es_periodo (p : string) (b : base_dict) : bool := String.eqb (periodo b) p.

(** Returns [None] for the empty dictionary. *)
Definition _calcular_estadisticas_para_bases (self : SimuladorPeriodos)
    (bases_procesadas : list base_dict) (divisor : Q) : resultado (option estadisticas) :=
  match bases_procesadas with
  | [] => Ok None
  | _ :: _ =>
      let bases_revalorizadas := List.filter (es_periodo "revalorizado") bases_procesadas in
      let bases_no_revalorizadas :=
        List.filter (es_periodo "no_revalorizado") bases_procesadas in
      let suma_revalorizadas := py_sum (map base_p bases_revalorizadas) in
      let suma_no_revalorizadas := py_sum (map base_p bases_no_revalorizadas) in
      let suma_total := (suma_revalorizadas + suma_no_revalorizadas)%Q in
      if Qeq_bool divisor 0 then Err ZeroDivisionError
      else
        Ok (Some {| total_bases := length bases_procesadas;
                    bases_revalorizadas := length bases_revalorizadas;
                    bases_no_revalorizadas := length bases_no_revalorizadas;
                    suma_periodo_revalorizado := round2 suma_revalorizadas;
                    suma_periodo_no_revalorizado := round2 suma_no_revalorizadas;
                    suma_total := round2 suma_total;
                    base_reguladora := round2 (suma_total / divisor) |})
  end.

Definition _calcular_estadisticas (self : SimuladorPeriodos)
    : resultado (option estadisticas) :=
  match bases_procesadas self with
  | [] => Ok None
  | _ :: _ =>
      _calcular_estadisticas_para_bases self (bases_procesadas self)
        (divisor_base_reguladora (parametros_año_jubilacion self))
  end.

(** The methods [suma_periodo_revalorizado], [suma_periodo_no_revalorizado]
    and [suma_total]; the suffix tells them from the keys of the statistics. *)
Definition suma_periodo_revalorizado_m (self : SimuladorPeriodos) : Q :=
  match bases_procesadas self with
  | [] => 0%Q
  | _ :: _ =>
      py_sum (map base_p (List.filter (es_periodo "revalorizado") (bases_procesadas self)))
  end.

Definition suma_periodo_no_revalorizado_m (self : SimuladorPeriodos) : Q :=
  match bases_procesadas self with
  | [] => 0%Q
  | _ :: _ =>
      py_sum (map base_p (List.filter (es_periodo "no_revalorizado") (bases_procesadas self)))
  end.

Definition suma_total_m (self : SimuladorPeriodos) : Q :=
  (suma_periodo_revalorizado_m self + suma_periodo_no_revalorizado_m self)%Q.

Definition _procesar_calculo_reforma (self : SimuladorPeriodos)
    : resultado (list base_dict * option estadisticas) :=
  let* bases_periodo_reforma := obtener_bases_periodo_computo self false in
  let* bases_con_periodo_reforma := añadir_periodo self bases_periodo_reforma in
  let bases_revalorizadas_reforma := revalorizar_bases self bases_con_periodo_reforma in
  let* bases_revalorizadas_reforma :=
    ordenar_por_fecha mes_anyo_p bases_revalorizadas_reforma in
  let* estadisticas_reforma :=
    _calcular_estadisticas_para_bases self bases_revalorizadas_reforma
      (divisor_base_reguladora (parametros_año_jubilacion self)) in
  Ok (bases_revalorizadas_reforma, estadisticas_reforma).

Definition _procesar_calculo_prereforma (self : SimuladorPeriodos)
    : resultado (list base_dict * option estadisticas) :=
  let* bases_periodo_prereforma := obtener_bases_periodo_computo self true in
  let* bases_con_periodo_prereforma := añadir_periodo self bases_periodo_prereforma in
  let bases_revalorizadas_prereforma :=
    revalorizar_bases self bases_con_periodo_prereforma in
  let* bases_revalorizadas_prereforma :=
    ordenar_por_fecha mes_anyo_p bases_revalorizadas_prereforma in
  let* estadisticas_prereforma :=
    _calcular_estadisticas_para_bases self bases_revalorizadas_prereforma 350 in
  Ok (bases_revalorizadas_prereforma, estadisticas_prereforma).

(** [estadisticas["base_reguladora"]]: the empty dictionary has no such key. *)
Definition getitem_base_reguladora (e : option estadisticas) : resultado Q :=
  match e with
  | Some e => Ok (base_reguladora e)
  | None => Err (KeyError "base_reguladora")
  end.

Definition _elegir_calculo_mas_favorable (self : SimuladorPeriodos)
    (bases_reforma : list base_dict) (estadisticas_reforma : option estadisticas)
    (bases_prereforma : list base_dict) (estadisticas_prereforma : option estadisticas)
    : resultado (list base_dict * option estadisticas * string) :=
  let* base_reguladora_reforma := getitem_base_reguladora estadisticas_reforma in
  let* base_reguladora_prereforma := getitem_base_reguladora estadisticas_prereforma in
  let es_mas_favorable_reforma :=
    Qle_bool base_reguladora_prereforma base_reguladora_reforma in
  if es_mas_favorable_reforma
  then Ok (bases_reforma, estadisticas_reforma, "reforma_rd2_2023")
  else Ok (bases_prereforma, estadisticas_prereforma, "prereforma").

(** The values under "parametros" in "comparativa_calculos". *)
Record parametros_calculo := {
  bases_incluidas_c : Z;
  divisor : Q;
  periodo_meses_c : Z
}.

Record calculo := {
  parametros_c : parametros_calculo;
  estadisticas_c : option estadisticas;
  total_bases_c : nat
}.

Record comparativa := {
  calculo_reforma_rd2_2023 : calculo;
  calculo_prereforma : calculo
}.

(** The dictionary returned by [procesar_bases_completo]. *)
Record resultado_completo := {
  bases_procesadas_r : list base_dict;
  estadisticas_r : option estadisticas;
  calculo_elegido : string;
  comparativa_calculos : comparativa;
  parametros_computo_r : parametros;
  fecha_jubilacion_r : string;
  regimen_acceso_r : string;
  sexo_r : string
}.

Definition _generar_resultado_completo (self : SimuladorPeriodos)
    (bases_elegidas : list base_dict) (estadisticas_elegidas : option estadisticas)
    (calculo_elegido : string)
    (bases_reforma : list base_dict) (estadisticas_reforma : option estadisticas)
    (bases_prereforma : list base_dict) (estadisticas_prereforma : option estadisticas)
    : resultado_completo :=
  {| bases_procesadas_r := bases_elegidas;
     estadisticas_r := estadisticas_elegidas;
     calculo_elegido := calculo_elegido;
     comparativa_calculos :=
       {| calculo_reforma_rd2_2023 :=
            {| parametros_c :=
                 {| bases_incluidas_c := bases_incluidas (parametros_año_jubilacion self);
                    divisor := divisor_base_reguladora (parametros_año_jubilacion self);
                    periodo_meses_c := periodo_meses (parametros_año_jubilacion self) |};
               estadisticas_c := estadisticas_reforma;
               total_bases_c := length bases_reforma |};
          calculo_prereforma :=
            {| parametros_c :=
                 {| bases_incluidas_c := 300; divisor := 350; periodo_meses_c := 300 |};
               estadisticas_c := estadisticas_prereforma;
               total_bases_c := length bases_prereforma |} |};
     parametros_computo_r := parametros_año_jubilacion self;
     fecha_jubilacion_r := strftime (fecha_jubilacion self);
     regimen_acceso_r := regimen_acceso self;
     sexo_r := sexo self |}.

(** The assignment [self.bases_procesadas = bases_elegidas]. *)
Definition asignar_bases_procesadas (self : SimuladorPeriodos)
    (bases_elegidas : list base_dict) : SimuladorPeriodos :=
  {| regimen_acceso := regimen_acceso self;
     sexo := sexo self;
     contador_lagunas := contador_lagunas self;
     cumple_condiciones_hombre := cumple_condiciones_hombre self;
     parametros_computo := parametros_computo self;
     indices_revalorizacion := indices_revalorizacion self;
     topes_cotizacion := topes_cotizacion self;
     fecha_jubilacion := fecha_jubilacion self;
     bases := bases self;
     parametros_año_jubilacion := parametros_año_jubilacion self;
     bases_procesadas := bases_elegidas |}.

(** Returns the simulator after the call together with the result. *)
Definition procesar_bases_completo (self : SimuladorPeriodos)
    : resultado (SimuladorPeriodos * resultado_completo) :=
  let* reforma := _procesar_calculo_reforma self in
  let '(bases_reforma, estadisticas_reforma) := reforma in
  let* prereforma := _procesar_calculo_prereforma self in
  let '(bases_prereforma, estadisticas_prereforma) := prereforma in
  let* elegido :=
    _elegir_calculo_mas_favorable self bases_reforma estadisticas_reforma
      bases_prereforma estadisticas_prereforma in
  let '(bases_elegidas, estadisticas_elegidas, calculo_elegido) := elegido in
  let self := asignar_bases_procesadas self bases_elegidas in
  Ok (self,
      _generar_resultado_completo self bases_elegidas estadisticas_elegidas
        calculo_elegido bases_reforma estadisticas_reforma
        bases_prereforma estadisticas_prereforma).

(** The constructor.  The attributes that a step has not assigned yet hold an
    empty placeholder, which no earlier step reads. *)
Definition __init__ (config : ConfigManager) (bases_extraidas : bases_extraidas)
    (fecha_jubilacion_ regimen_acceso_ sexo_ : string) : resultado SimuladorPeriodos :=
  let sin_parametros :=
    {| bases_incluidas := 0; periodo_meses := 0; divisor_base_reguladora := 0 |} in
  let self :=
    {| regimen_acceso := upper regimen_acceso_;
       sexo := upper sexo_;
       contador_lagunas := 0;
       cumple_condiciones_hombre := false;
       parametros_computo := [];
       indices_revalorizacion := ∅;
       topes_cotizacion := [];
       fecha_jubilacion := 0;
       bases := [];
       parametros_año_jubilacion := sin_parametros;
       bases_procesadas := [] |} in
  let* _ := _validar_datos_entrada self bases_extraidas fecha_jubilacion_ in
  let* fecha := _procesar_fecha_jubilacion fecha_jubilacion_ in
  let self :=
    {| regimen_acceso := regimen_acceso self;
       sexo := sexo self;
       contador_lagunas := 0;
       cumple_condiciones_hombre := false;
       parametros_computo := cargar_parametros_computo config;
       indices_revalorizacion := cargar_indices_revalorizacion config;
       topes_cotizacion := cargar_topes_cotizacion config;
       fecha_jubilacion := fecha;
       bases := [];
       parametros_año_jubilacion := sin_parametros;
       bases_procesadas := [] |} in
  let* bases_cargadas := _procesar_bases_extraidas self bases_extraidas in
  let self :=
    {| regimen_acceso := regimen_acceso self;
       sexo := sexo self;
       contador_lagunas := 0;
       cumple_condiciones_hombre := false;
       parametros_computo := parametros_computo self;
       indices_revalorizacion := indices_revalorizacion self;
       topes_cotizacion := topes_cotizacion self;
       fecha_jubilacion := fecha;
       bases := bases_cargadas;
       parametros_año_jubilacion := sin_parametros;
       bases_procesadas := [] |} in
  let* parametros := get_parametros_computo self in
  Ok {| regimen_acceso := regimen_acceso self;
        sexo := sexo self;
        contador_lagunas := 0;
        cumple_condiciones_hombre := false;
        parametros_computo := parametros_computo self;
        indices_revalorizacion := indices_revalorizacion self;
        topes_cotizacion := topes_cotizacion self;
        fecha_jubilacion := fecha;
        bases := bases_cargadas;
        parametros_año_jubilacion := parametros;
        bases_procesadas := [] |}.

(** ** The request model and the endpoint [simulate_bases] *)

(** The text has only ASCII characters; on such a text [upper] is
    [str.upper()]. *)
Definition es_ascii (s : string) : bool :=
  forallb (fun c => (nat_of_ascii c <? 128)%nat) (list_ascii_of_string s).

(** [api_models.SimulateRequest.validar_regimen]; [None] stands for the
    [ValueError] of the validator. *)
Definition validar_regimen (v : string) : option string :=
  if negb (en_lista (upper v) ["GENERAL"; "AUTONOMO"]) then None else Some (upper v).

(** [api_models.SimulateRequest.validar_sexo]. *)
Definition validar_sexo (v : string) : option string :=
  if negb (en_lista (upper v) ["MASCULINO"; "FEMENINO"]) then None else Some (upper v).

(** [api_models.SimulateRequest]. *)
Record SimulateRequest := {
  bases_extraidas_q : list base_data;
  fecha_jubilacion_q : string;
  regimen_acceso_q : string;
  sexo_q : string
}.

(** [api_models.EstadisticasResponse]. *)
Record EstadisticasResponse := {
  total_bases_e : nat;
  bases_revalorizadas_e : nat;
  bases_no_revalorizadas_e : nat;
  suma_periodo_revalorizado_e : Q;
  suma_periodo_no_revalorizado_e : Q;
  suma_total_e : Q;
  base_reguladora_e : Q
}.

(** [api_models.SimulateResponse]; [metadata_extraccion], which this
    endpoint leaves at its default, is not represented. *)
Record SimulateResponse := {
  success : bool;
  message : string;
  bases_procesadas_s : list base_dict;
  estadisticas_s : EstadisticasResponse;
  calculo_elegido_s : string;
  comparativa_calculos_s : comparativa;
  parametros_computo_s : parametros;
  fecha_jubilacion_s : string;
  regimen_acceso_s : string;
  sexo_s : string
}.

(** What the body of the endpoint can raise: an exception of the simulator,
    the [ValidationError] of a response model, which is a [ValueError], or
    an [HTTPException], which is an [Exception] and no [ValueError].  A
    detail is the fixed text of the endpoint, [str(e)], or [str(e)] after
    the words Error interno. *)
Inductive excepcion_endpoint :=
| DelSimulador (e : excepcion)
| ValidationError
| HTTPException (status_code : Z) (detail : detalle)
with detalle :=
| NoSeProporcionaronBases
| Str (e : excepcion_endpoint)
| ErrorInterno (e : excepcion_endpoint).

(** The [EstadisticasResponse] built from the dictionary of statistics of
    the result; the empty dictionary lacks every field. *)
Definition nueva_EstadisticasResponse (e : option estadisticas)
    : EstadisticasResponse + excepcion_endpoint :=
  match e with
  | None => inr ValidationError
  | Some e =>
      inl {| total_bases_e := total_bases e;
             bases_revalorizadas_e := bases_revalorizadas e;
             bases_no_revalorizadas_e := bases_no_revalorizadas e;
             suma_periodo_revalorizado_e := suma_periodo_revalorizado e;
             suma_periodo_no_revalorizado_e := suma_periodo_no_revalorizado e;
             suma_total_e := suma_total e;
             base_reguladora_e := base_reguladora e |}
  end.

(** The [try] block of [simulate_bases]. *)
Definition intento_simulate_bases (config : ConfigManager) (request : SimulateRequest)
    : SimulateResponse + excepcion_endpoint :=
  match bases_extraidas_q request with
  | [] => inr (HTTPException 400 NoSeProporcionaronBases)
  | _ :: _ =>
      let bases_data := Bases (bases_extraidas_q request) in
      match __init__ config bases_data (fecha_jubilacion_q request)
              (regimen_acceso_q request) (sexo_q request) with
      | Err e => inr (DelSimulador e)
      | Ok simulador =>
          match procesar_bases_completo simulador with
          | Err e => inr (DelSimulador e)
          | Ok (_, resultado) =>
              match nueva_EstadisticasResponse (estadisticas_r resultado) with
              | inr e => inr e
              | inl estadisticas =>
                  inl {| success := true;
                         message := "Simulación completada exitosamente";
                         bases_procesadas_s := bases_procesadas_r resultado;
                         estadisticas_s := estadisticas;
                         calculo_elegido_s := calculo_elegido resultado;
                         comparativa_calculos_s := comparativa_calculos resultado;
                         parametros_computo_s := parametros_computo_r resultado;
                         fecha_jubilacion_s := fecha_jubilacion_r resultado;
                         regimen_acceso_s := regimen_acceso_r resultado;
                         sexo_s := sexo_q request |}
              end
          end
      end
  end.

(** [simulate_bases]: the [except] clauses turn a [ValueError] into the
    status 400 and any other exception into the status 500.  The clause for
    [BasesParserError], which nothing in the block raises, has no
    counterpart. *)
Definition simulate_bases (config : ConfigManager) (request : SimulateRequest)
    : SimulateResponse + excepcion_endpoint :=
  match intento_simulate_bases config request with
  | inl respuesta => inl respuesta
  | inr (DelSimulador (ValueError m)) =>
      inr (HTTPException 400 (Str (DelSimulador (ValueError m))))
  | inr ValidationError => inr (HTTPException 400 (Str ValidationError))
  | inr e => inr (HTTPException 500 (ErrorInterno e))
  end.

(** ** The arithmetic of the simulator on binary64 numbers

    The methods that compute amounts, with the amounts as the binary64
    numbers of Python ([spec_float] with 53 bits of precision), the sum,
    product and quotient rounded to nearest, ties to even, and
    [round(x, 2)] as CPython computes it.  The properties about computed
    amounts are stated on this module; the definitions that compute no
    amount (dates, tables, sorting, exceptions) are shared with the
    definitions above. *)
Module Binary64.

Definition prec : Z := 53.
Definition emax : Z := 1024.

(** [x + y], [x * y], [x / y] on two floats. *)
Definition fadd (x y : spec_float) : spec_float := SFadd prec emax x y.
Definition fmul (x y : spec_float) : spec_float := SFmul prec emax x y.
Definition fdiv (x y : spec_float) : spec_float := SFdiv prec emax x y.

(** [x < y], [x <= y], [x == y]: false when either is a NaN. *)
Definition flt (x y : spec_float) : bool := SFltb x y.
Definition fle (x y : spec_float) : bool := SFleb x y.
Definition feq (x y : spec_float) : bool := SFeqb x y.

Definition cero : spec_float := S754_zero false.

(** The float nearest to [n / d]: a decimal literal such as [0.8], or
    [float(n)] for [d = 1]. *)
Definition decimal (n : Z) (d : positive) : spec_float :=
  match n with
  | Z0 => cero
  | Zpos p => fdiv (S754_finite false p 0) (S754_finite false d 0)
  | Zneg p => fdiv (S754_finite true p 0) (S754_finite false d 0)
  end.

(** [float(n)] for the length of a list. *)
Definition de_nat (n : nat) : spec_float := decimal (Z.of_nat n) 1.

(** [n / d] rounded to the nearest integer, ties to even, for [0 <= n]
    and [0 < d]. *)
Definition redondeo_par_cociente (n d : Z) : Z :=
  let q := n / d in
  let r := n mod d in
  match 2 * r ?= d with
  | Lt => q
  | Gt => q + 1
  | Eq => if Z.even q then q else q + 1
  end.

(** The number of hundredths nearest to the exact value [m * 2 ^ e]. *)
Definition centimos (m : positive) (e : Z) : Z :=
  match e with
  | Zneg p => redondeo_par_cociente (Zpos m * 100) (2 ^ Zpos p)
  | _ => Zpos m * 100 * 2 ^ e
  end.

(** [round(x, 2)] on a float: the exact value of [x] is rounded to two
    decimals, ties to even, and the float nearest to that decimal is
    returned; the sign of a zero is kept, and an infinity or a NaN is
    returned as it is. *)
Definition round2 (x : spec_float) : spec_float :=
  match x with
  | S754_finite s m e =>
      match centimos m e with
      | Zpos c => fdiv (S754_finite s c 0) (S754_finite false 100 0)
      | _ => S754_zero s
      end
  | _ => x
  end.

(** [sum(...)] of floats: starts at 0 and adds from the left. *)
Definition py_sum (l : list spec_float) : spec_float := fold_left fadd l cero.

(** [max(l, key=key)] with a float key: the first element that no later
    element exceeds. *)
Definition py_max_float {A} (key : A -> spec_float) (l : list A) : resultado A :=
  match l with
  | [] => Err (ValueError EmptySequence)
  | x :: r => Ok (fold_left (fun best y => if flt (key best) (key y) then y else best) r x)
  end.

(** One element of [bases_extraidas["bases"]], with a float amount. *)
Record base_data := {
  mes_anyo_d : string;
  base_d : spec_float;
  empresa_d : string;
  regimen_d : string
}.

Record metadatos := {
  es_pluriactividad : bool;
  bases_individuales : list base_data;
  base_bruta : spec_float;
  tope_aplicado : string;
  empresas_detalle : list string
}.

Record BaseCotizacion := {
  mes_anyo : string;
  base : spec_float;
  empresa : string;
  regimen : string;
  metadatos_pluriactividad : option metadatos
}.

(** The constructor: the field validator [convertir_base_a_float] stores
    [round(float(v), 2)]. *)
Definition nueva_BaseCotizacion (m : string) (b : spec_float) (e r : string)
    : BaseCotizacion :=
  {| mes_anyo := m; base := round2 b; empresa := e; regimen := r;
     metadatos_pluriactividad := None |}.

Record topes := {
  base_minima_mensual : spec_float;
  base_maxima_mensual : spec_float
}.

Record parametros := {
  bases_incluidas : Z;
  periodo_meses : Z;
  divisor_base_reguladora : spec_float
}.

Record base_dict := {
  mes_anyo_p : string;
  base_p : spec_float;
  empresa_p : string;
  regimen_p : string;
  periodo : string;
  pluriactividad : option metadatos;
  base_original : option spec_float;
  indice_revalorizacion : option spec_float
}.

Record estadisticas := {
  total_bases : nat;
  bases_revalorizadas : nat;
  bases_no_revalorizadas : nat;
  suma_periodo_revalorizado : spec_float;
  suma_periodo_no_revalorizado : spec_float;
  suma_total : spec_float;
  base_reguladora : spec_float
}.

Record agregacion := {
  mes_anyo_a : string;
  bases_individuales_a : list base_data;
  base_agregada_bruta : spec_float;
  base_agregada_final : spec_float;
  aplicado_tope : string;
  regimen_principal : string;
  empresa_agregada : string;
  empresas_detalle_a : list string
}.

(** The instance attributes of [SimuladorPeriodos]. *)
Record SimuladorPeriodos := {
  regimen_acceso : string;
  sexo : string;
  contador_lagunas : Z;
  cumple_condiciones_hombre : bool;
  parametros_computo : dict parametros;
  indices_revalorizacion : gmap string spec_float;
  topes_cotizacion : dict topes;
  fecha_jubilacion : datetime;
  bases : list BaseCotizacion;
  parametros_año_jubilacion : parametros;
  bases_procesadas : list base_dict
}.

Definition _obtener_topes_año (self : SimuladorPeriodos) (año : Z) : resultado topes :=
  match dict_get (topes_cotizacion self) año with
  | Some t => Ok t
  | None =>
      let años_disponibles := keys (topes_cotizacion self) in
      let* año_mas_cercano := py_min (fun x => Z.abs (x - año)) años_disponibles in
      getitem (topes_cotizacion self) año_mas_cercano
  end.

Definition _obtener_base_minima_año (self : SimuladorPeriodos) (año : Z)
    : resultado spec_float :=
  let* topes := _obtener_topes_año self año in
  Ok (base_minima_mensual topes).

Definition _agregar_bases_mes (self : SimuladorPeriodos)
    (bases_mes : list base_data) (fecha : string) : resultado agregacion :=
  let suma_bruta := py_sum (map base_d bases_mes) in
  let* año := año_de_fecha fecha in
  let* tope_minimo := _obtener_base_minima_año self año in
  let* topes := _obtener_topes_año self año in
  let tope_maximo := base_maxima_mensual topes in
  let '(base_final, tope_aplicado) :=
    if flt suma_bruta tope_minimo then (tope_minimo, "minimo")
    else if flt tope_maximo suma_bruta then (tope_maximo, "maximo")
    else (suma_bruta, "ninguno") in
  let* principal := py_max_float base_d bases_mes in
  let regimen_principal := regimen_d principal in
  let empresas := map empresa_d bases_mes in
  let empresa_agregada :=
    String.append "PLURIACTIVIDAD_"
      (String.append (str_nat (length bases_mes)) "_EMPRESAS") in
  Ok {| mes_anyo_a := fecha;
        bases_individuales_a := bases_mes;
        base_agregada_bruta := round2 suma_bruta;
        base_agregada_final := round2 base_final;
        aplicado_tope := tope_aplicado;
        regimen_principal := regimen_principal;
        empresa_agregada := empresa_agregada;
        empresas_detalle_a := empresas |}.

(** The loop that collects the amounts of the last six months. *)
Fixpoint recoger_recientes (bases : list BaseCotizacion)
    (fecha_ultima_base : datetime) (bases_recientes : list spec_float)
    : resultado (list spec_float) :=
  match bases with
  | [] => Ok bases_recientes
  | b :: r =>
      let* fecha_base := strptime (mes_anyo b) in
      let* limite := relativedelta fecha_ultima_base (-5) in
      if limite <=? fecha_base
      then recoger_recientes r fecha_ultima_base (bases_recientes ++ [base b])
      else recoger_recientes r fecha_ultima_base bases_recientes
  end.

(** The [while fecha_actual <= fecha_limite_simulacion] loop; [pasos]
    bounds the number of iterations. *)
Fixpoint bucle_simulacion (self : SimuladorPeriodos) (promedio : spec_float) (pasos : nat)
    (fecha_actual fecha_limite_simulacion : datetime)
    (bases_simuladas : list BaseCotizacion) : resultado (list BaseCotizacion) :=
  match pasos with
  | O => Ok bases_simuladas
  | S pasos' =>
      if fecha_actual <=? fecha_limite_simulacion then
        let base_simulada :=
          nueva_BaseCotizacion (strftime fecha_actual) (round2 promedio)
            "SIMULADA" (regimen_acceso self) in
        let* siguiente := relativedelta fecha_actual 1 in
        bucle_simulacion self promedio pasos' siguiente fecha_limite_simulacion
          (bases_simuladas ++ [base_simulada])
      else Ok bases_simuladas
  end.

Definition simular_periodo_futuro (self : SimuladorPeriodos)
    : resultado (list BaseCotizacion) :=
  match bases self with
  | [] => Ok []
  | _ :: _ =>
      let* claves := mapM (con_clave mes_anyo) (bases self) in
      let* ultima := py_max fst claves in
      let ultima_base := snd ultima in
      let* fecha_ultima_base := strptime (mes_anyo ultima_base) in
      if fecha_jubilacion self <=? fecha_ultima_base then Ok []
      else
        let* bases_recientes := recoger_recientes (bases self) fecha_ultima_base [] in
        let promedio :=
          match bases_recientes with
          | [] => base ultima_base
          | _ :: _ => fdiv (py_sum bases_recientes) (de_nat (length bases_recientes))
          end in
        let* fecha_actual := relativedelta fecha_ultima_base 1 in
        let* fecha_limite_simulacion := relativedelta (fecha_jubilacion self) (-1) in
        bucle_simulacion self promedio
          (Z.to_nat (fecha_limite_simulacion - fecha_actual + 1))
          fecha_actual fecha_limite_simulacion []
  end.

Definition calcular_base_laguna (self : SimuladorPeriodos)
    (fecha_laguna : string) (n_laguna : Z) : resultado spec_float :=
  let* fecha := strptime fecha_laguna in
  let año := year fecha in
  if String.eqb (regimen_acceso self) "AUTONOMO" then Ok cero
  else
    let* base_min := _obtener_base_minima_año self año in
    if n_laguna <=? 48 then Ok base_min
    else
      let aplica_dt41 :=
        String.eqb (sexo self) "FEMENINO"
        || (String.eqb (sexo self) "MASCULINO" && cumple_condiciones_hombre self) in
      if aplica_dt41 then
        if n_laguna <=? 60 then Ok base_min
        else if n_laguna <=? 84 then Ok (round2 (fmul (decimal 8 10) base_min))
        else Ok (round2 (fmul (decimal 5 10) base_min))
      else Ok (round2 (fmul (decimal 5 10) base_min)).

Definition construir_bases_dict (bases_todas : list BaseCotizacion)
    : gmap string BaseCotizacion :=
  fold_left (fun d b => <[mes_anyo b := b]> d) bases_todas ∅.

Fixpoint bucle_periodo (self : SimuladorPeriodos)
    (bases_dict : gmap string BaseCotizacion) (faltan : nat)
    (fecha_actual : datetime) (contador_lagunas_local : Z)
    (bases_periodo : list BaseCotizacion) : resultado (list BaseCotizacion) :=
  match faltan with
  | O => Ok bases_periodo
  | S faltan' =>
      let mes_anyo := strftime fecha_actual in
      let* paso :=
        match bases_dict !! mes_anyo with
        | Some b => Ok (bases_periodo ++ [b], contador_lagunas_local)
        | None =>
            let contador := contador_lagunas_local + 1 in
            let* base_calculada := calcular_base_laguna self mes_anyo contador in
            let base_laguna :=
              nueva_BaseCotizacion mes_anyo base_calculada "LAGUNA"
                (regimen_acceso self) in
            Ok (bases_periodo ++ [base_laguna], contador)
        end in
      let* anterior := relativedelta fecha_actual (-1) in
      bucle_periodo self bases_dict faltan' anterior (snd paso) (fst paso)
  end.

Definition obtener_bases_periodo_computo (self : SimuladorPeriodos)
    (usar_parametros_antiguos : bool) : resultado (list BaseCotizacion) :=
  let* simuladas := simular_periodo_futuro self in
  let bases_todas := bases self ++ simuladas in
  let bases_dict := construir_bases_dict bases_todas in
  let bases_incluidas :=
    if usar_parametros_antiguos then 300
    else bases_incluidas (parametros_año_jubilacion self) in
  let* fecha_actual := relativedelta (fecha_jubilacion self) (-1) in
  bucle_periodo self bases_dict (Z.to_nat bases_incluidas) fecha_actual 0 [].

Definition añadir_periodo (self : SimuladorPeriodos)
    (bases_periodo : list BaseCotizacion) : resultado (list base_dict) :=
  let* fecha_limite := relativedelta (fecha_jubilacion self) (-24) in
  mapM (fun b =>
          let* fecha_base := strptime (mes_anyo b) in
          let periodo :=
            if fecha_limite <=? fecha_base then "no_revalorizado" else "revalorizado" in
          Ok {| mes_anyo_p := mes_anyo b;
                base_p := base b;
                empresa_p := empresa b;
                regimen_p := regimen b;
                periodo := periodo;
                pluriactividad := metadatos_pluriactividad b;
                base_original := None;
                indice_revalorizacion := None |})
       bases_periodo.

(** The body of the loop of [revalorizar_bases]. *)
Definition revalorizar_base (self : SimuladorPeriodos) (b : base_dict) : base_dict :=
  if String.eqb (periodo b) "revalorizado" then
    match indices_revalorizacion self !! mes_anyo_p b with
    | Some indice =>
        {| mes_anyo_p := mes_anyo_p b;
           base_p := round2 (fmul (base_p b) indice);
           empresa_p := empresa_p b;
           regimen_p := regimen_p b;
           periodo := periodo b;
           pluriactividad := pluriactividad b;
           base_original := Some (base_p b);
           indice_revalorizacion := Some indice |}
    | None =>
        {| mes_anyo_p := mes_anyo_p b;
           base_p := base_p b;
           empresa_p := empresa_p b;
           regimen_p := regimen_p b;
           periodo := periodo b;
           pluriactividad := pluriactividad b;
           base_original := Some (base_p b);
           indice_revalorizacion := Some (decimal 1 1) |}
    end
  else b.

Definition revalorizar_bases (self : SimuladorPeriodos)
    (bases_con_periodo : list base_dict) : list base_dict :=
  map (revalorizar_base self) bases_con_periodo.

Definition es_periodo (p : string) (b : base_dict) : bool := String.eqb (periodo b) p.

(** The empty dictionary of an empty list is [None]; a divisor equal to
    zero raises [ZeroDivisionError]. *)
Definition _calcular_estadisticas_para_bases (self : SimuladorPeriodos)
    (bases_procesadas : list base_dict) (divisor : spec_float)
    : resultado (option estadisticas) :=
  match bases_procesadas with
  | [] => Ok None
  | _ :: _ =>
      let bases_revalorizadas := List.filter (es_periodo "revalorizado") bases_procesadas in
      let bases_no_revalorizadas :=
        List.filter (es_periodo "no_revalorizado") bases_procesadas in
      let suma_revalorizadas := py_sum (map base_p bases_revalorizadas) in
      let suma_no_revalorizadas := py_sum (map base_p bases_no_revalorizadas) in
      let suma_total := fadd suma_revalorizadas suma_no_revalorizadas in
      if feq divisor cero then Err ZeroDivisionError
      else
        Ok (Some {| total_bases := length bases_procesadas;
                    bases_revalorizadas := length bases_revalorizadas;
                    bases_no_revalorizadas := length bases_no_revalorizadas;
                    suma_periodo_revalorizado := round2 suma_revalorizadas;
                    suma_periodo_no_revalorizado := round2 suma_no_revalorizadas;
                    suma_total := round2 suma_total;
                    base_reguladora := round2 (fdiv suma_total divisor) |})
  end.

Definition _procesar_calculo_reforma (self : SimuladorPeriodos)
    : resultado (list base_dict * option estadisticas) :=
  let* bases_periodo_reforma := obtener_bases_periodo_computo self false in
  let* bases_con_periodo_reforma := añadir_periodo self bases_periodo_reforma in
  let bases_revalorizadas_reforma := revalorizar_bases self bases_con_periodo_reforma in
  let* bases_revalorizadas_reforma :=
    ordenar_por_fecha mes_anyo_p bases_revalorizadas_reforma in
  let* estadisticas_reforma :=
    _calcular_estadisticas_para_bases self bases_revalorizadas_reforma
      (divisor_base_reguladora (parametros_año_jubilacion self)) in
  Ok (bases_revalorizadas_reforma, estadisticas_reforma).

Definition _procesar_calculo_prereforma (self : SimuladorPeriodos)
    : resultado (list base_dict * option estadisticas) :=
  let* bases_periodo_prereforma := obtener_bases_periodo_computo self true in
  let* bases_con_periodo_prereforma := añadir_periodo self bases_periodo_prereforma in
  let bases_revalorizadas_prereforma :=
    revalorizar_bases self bases_con_periodo_prereforma in
  let* bases_revalorizadas_prereforma :=
    ordenar_por_fecha mes_anyo_p bases_revalorizadas_prereforma in
  let* estadisticas_prereforma :=
    _calcular_estadisticas_para_bases self bases_revalorizadas_prereforma
      (decimal 350 1) in
  Ok (bases_revalorizadas_prereforma, estadisticas_prereforma).

(** *** Notions of the statements *)

(** [ultima] is the date of the latest record of the simulator. *)
Definition ultima_fecha (self : SimuladorPeriodos) (ultima : datetime) : Prop :=
  Exists (fun b => strptime (mes_anyo b) = Ok ultima) (bases self)
  /\ Forall (fun b => exists d, strptime (mes_anyo b) = Ok d /\ d <= ultima) (bases self).

(** The record is dated in the six months that end at [ultima]. *)
Definition es_reciente (ultima : datetime) (b : BaseCotizacion) : bool :=
  match strptime (mes_anyo b) with
  | Ok d => ultima - 5 <=? d
  | Err _ => false
  end.

(** The mean that the simulated months carry: the float sum of the recent
    amounts, in the order of the list, divided by their number. *)
Definition promedio_recientes (self : SimuladorPeriodos) (ultima : datetime)
    : spec_float :=
  let recientes := map base (List.filter (es_reciente ultima) (bases self)) in
  fdiv (py_sum recientes) (de_nat (length recientes)).

(** The simulated months from the month after [ultima] to the month before
    the retirement. *)
Definition meses_simulados (self : SimuladorPeriodos) (ultima : datetime)
    : list BaseCotizacion :=
  map (fun k => nueva_BaseCotizacion (strftime (ultima + 1 + Z.of_nat k))
                  (round2 (promedio_recientes self ultima)) "SIMULADA"
                  (regimen_acceso self))
      (seq 0 (Z.to_nat (fecha_jubilacion self - 1 - ultima))).


(** *** Sample data *)

(** The amount [n / 100]. *)
Definition centesimas (n : Z) : spec_float := decimal n 100.

Definition registro (m : string) (n : Z) (e : string) : BaseCotizacion :=
  nueva_BaseCotizacion m (centesimas n) e "GENERAL".

(** The simulator of the records of [tests/services/test_simulator.py]
    with a retirement in 06/2025, in the state that the constructor leaves
    it with the caps 1080 and 4495 for 2025, 300 bases and the divisor 350. *)
Definition simulador_ejemplo : SimuladorPeriodos :=
  let p := {| bases_incluidas := 300; periodo_meses := 300;
              divisor_base_reguladora := decimal 350 1 |} in
  {| regimen_acceso := "GENERAL";
     sexo := "MASCULINO";
     contador_lagunas := 0;
     cumple_condiciones_hombre := false;
     parametros_computo := [(2025, p)];
     indices_revalorizacion :=
       <["05/2023" := decimal 1035 1000]> (<["04/2023" := decimal 104 100]> ∅);
     topes_cotizacion :=
       [(2025, {| base_minima_mensual := decimal 1080 1;
                  base_maxima_mensual := decimal 4495 1 |})];
     fecha_jubilacion := 12 * 2025 + 5;
     bases := [ registro "01/2025" 150050 "Empresa A";
                registro "12/2024" 145075 "Empresa A";
                registro "11/2024" 140025 "Empresa B";
                registro "10/2024" 135000 "Empresa B";
                registro "09/2024" 130050 "Empresa C" ];
     parametros_año_jubilacion := p;
     bases_procesadas := [] |}.

(** The same simulator for a woman. *)
Definition simuladora_ejemplo : SimuladorPeriodos :=
  {| regimen_acceso := regimen_acceso simulador_ejemplo;
     sexo := "FEMENINO";
     contador_lagunas := 0;
     cumple_condiciones_hombre := false;
     parametros_computo := parametros_computo simulador_ejemplo;
     indices_revalorizacion := indices_revalorizacion simulador_ejemplo;
     topes_cotizacion := topes_cotizacion simulador_ejemplo;
     fecha_jubilacion := fecha_jubilacion simulador_ejemplo;
     bases := bases simulador_ejemplo;
     parametros_año_jubilacion := parametros_año_jubilacion simulador_ejemplo;
     bases_procesadas := [] |}.


(** Two employers in the same month, with amounts in hundredths. *)
Definition dos_bases (a b : Z) : list base_data :=
  [ {| mes_anyo_d := "03/2025"; base_d := centesimas a; empresa_d := "Empresa A";
       regimen_d := "GENERAL" |};
    {| mes_anyo_d := "03/2025"; base_d := centesimas b; empresa_d := "Empresa B";
       regimen_d := "AUTONOMO" |} ].

(** A processed base of [n] hundredths. *)
Definition procesada (m : string) (n : Z) (p : string) : base_dict :=
  {| mes_anyo_p := m; base_p := centesimas n; empresa_p := "Empresa A";
     regimen_p := "GENERAL"; periodo := p; pluriactividad := None;
     base_original := None; indice_revalorizacion := None |}.

End Binary64.

(** ** Auxiliary notions of the statements *)

(** The amounts that enter the average: those of the records dated within
    the six months that end at the last record. *)
Definition es_reciente (ultima : datetime) (b : BaseCotizacion) : bool :=
  match strptime (mes_anyo b) with
  | Ok d => ultima - 5 <=? d
  | Err _ => false
  end.


(** [ultima] is the date of the latest record of the simulator. *)
Definition ultima_fecha (self : SimuladorPeriodos) (ultima : datetime) : Prop :=
  Exists (fun b => strptime (mes_anyo b) = Ok ultima) (bases self)
  /\ Forall (fun b => exists d, strptime (mes_anyo b) = Ok d /\ d <= ultima) (bases self).

(** The average that the simulated months carry. *)
Definition promedio_recientes (self : SimuladorPeriodos) (ultima : datetime) : Q :=
  let recientes := map base (List.filter (es_reciente ultima) (bases self)) in
  (py_sum recientes / inject_Z (Z.of_nat (length recientes)))%Q.

(** The simulated months from the month after [ultima] to the month before
    the retirement. *)
Definition meses_simulados (self : SimuladorPeriodos) (ultima : datetime)
    : list BaseCotizacion :=
  map (fun k => nueva_BaseCotizacion (strftime (ultima + 1 + Z.of_nat k))
                  (round2 (promedio_recientes self ultima)) "SIMULADA"
                  (regimen_acceso self))
      (seq 0 (Z.to_nat (fecha_jubilacion self - 1 - ultima))).

(** The number of months without a record among the [k] months that the
    backward walk visits from [inicio] on. *)
Fixpoint lagunas_previas (bases_dict : gmap string BaseCotizacion)
    (inicio : datetime) (k : nat) : Z :=
  match k with
  | O => 0
  | S k' =>
      match bases_dict !! strftime inicio with
      | Some _ => 0
      | None => 1
      end
      + lagunas_previas bases_dict (inicio - 1) k'
  end.

(** [b] is the record that the walk emits for the month [fecha] after
    [contador] gaps: the record of the month when there is one, else the
    gap record of ordinal [contador + 1]. *)
Definition registro_del_mes (self : SimuladorPeriodos)
    (bases_dict : gmap string BaseCotizacion) (fecha : datetime) (contador : Z)
    (b : BaseCotizacion) : Prop :=
  match bases_dict !! strftime fecha with
  | Some b' => b = b'
  | None =>
      exists importe : Q,
        calcular_base_laguna self (strftime fecha) (contador + 1) = Ok importe
        /\ b = nueva_BaseCotizacion (strftime fecha) importe "LAGUNA" (regimen_acceso self)
  end.

(** The relations between the figures of the statistics. *)
Definition estadisticas_coherentes (divisor : Q) (e : estadisticas) : Prop :=
  (suma_total e == suma_periodo_revalorizado e + suma_periodo_no_revalorizado e)%Q
  /\ total_bases e = (bases_revalorizadas e + bases_no_revalorizadas e)%nat
  /\ (base_reguladora e == round2 (suma_total e / divisor))%Q.

(** A processed base as the two calculations produce them: a two-decimal
    amount and one of the two periods. *)
Definition base_procesada (r : base_dict) : Prop :=
  dos_decimales (base_p r)
  /\ (periodo r = "revalorizado" \/ periodo r = "no_revalorizado").

(** The records of the month-year [m] among [l], in their order. *)
Definition grupo (m : string) (l : list base_data) : list base_data :=
  List.filter (fun dato => String.eqb (mes_anyo_d dato) m) l.

(** The [BaseCotizacion] of a month with the single record [dato]. *)
Definition base_de_dato (dato : base_data) : BaseCotizacion :=
  nueva_BaseCotizacion (mes_anyo_d dato) (base_d dato) (empresa_d dato) (regimen_d dato).

(** [bases_por_mes.get(m)]. *)
Fixpoint buscar_mes (m : string) (g : list (string * list base_data))
    : option (list base_data) :=
  match g with
  | [] => None
  | (m', l) :: r => if String.eqb m m' then Some l else buscar_mes m r
  end.

(** No cap of the table is negative. *)
Definition topes_no_negativos (self : SimuladorPeriodos) : Prop :=
  Forall (fun kt => (0 <= base_minima_mensual (snd kt))%Q
                    /\ (0 <= base_maxima_mensual (snd kt))%Q)
         (topes_cotizacion self).

(** No index of revaluation is negative. *)
Definition indices_no_negativos (self : SimuladorPeriodos) : Prop :=
  forall (m : string) (indice : Q),
    indices_revalorizacion self !! m = Some indice -> (0 <= indice)%Q.

(** ** Sample data *)

(** The records of [tests/services/test_simulator.py]. *)
Definition bases_ejemplo : bases_extraidas :=
  Bases [ {| mes_anyo_d := "01/2025"; base_d := 150050 # 100;
             empresa_d := "Empresa A"; regimen_d := "GENERAL" |};
          {| mes_anyo_d := "12/2024"; base_d := 145075 # 100;
             empresa_d := "Empresa A"; regimen_d := "GENERAL" |};
          {| mes_anyo_d := "11/2024"; base_d := 140025 # 100;
             empresa_d := "Empresa B"; regimen_d := "GENERAL" |};
          {| mes_anyo_d := "10/2024"; base_d := 1350;
             empresa_d := "Empresa B"; regimen_d := "GENERAL" |};
          {| mes_anyo_d := "09/2024"; base_d := 130050 # 100;
             empresa_d := "Empresa C"; regimen_d := "GENERAL" |} ].

(** A small configuration: the YAML tables are not part of the sources. *)
Definition config_ejemplo : ConfigManager :=
  {| cargar_parametros_computo :=
       [(2025, {| bases_incluidas := 300; periodo_meses := 300;
                  divisor_base_reguladora := 350 |})];
     cargar_indices_revalorizacion :=
       <["05/2023" := 1035 # 1000]> (<["04/2023" := 104 # 100]> ∅);
     cargar_topes_cotizacion :=
       [(2025, {| base_minima_mensual := 1080; base_maxima_mensual := 4495 |})] |}.

Definition simulador_vacio : SimuladorPeriodos :=
  {| regimen_acceso := ""; sexo := ""; contador_lagunas := 0;
     cumple_condiciones_hombre := false; parametros_computo := [];
     indices_revalorizacion := ∅; topes_cotizacion := [];
     fecha_jubilacion := 0; bases := [];
     parametros_año_jubilacion :=
       {| bases_incluidas := 0; periodo_meses := 0; divisor_base_reguladora := 0 |};
     bases_procesadas := [] |}.

(** The simulator that the constructor returns, or an empty one. *)
Definition construido (r : resultado SimuladorPeriodos) : SimuladorPeriodos :=
  match r with
  | Ok s => s
  | Err _ => simulador_vacio
  end.

Definition simulador_ejemplo : SimuladorPeriodos :=
  construido (__init__ config_ejemplo bases_ejemplo "06/2025" "GENERAL" "MASCULINO").

Definition simuladora_ejemplo : SimuladorPeriodos :=
  construido (__init__ config_ejemplo bases_ejemplo "06/2025" "GENERAL" "FEMENINO").

(** Two employers in the same month. *)
Definition dos_bases (a b : Q) : list base_data :=
  [ {| mes_anyo_d := "03/2025"; base_d := a; empresa_d := "Empresa A";
       regimen_d := "GENERAL" |};
    {| mes_anyo_d := "03/2025"; base_d := b; empresa_d := "Empresa B";
       regimen_d := "AUTONOMO" |} ].

(** A record with a negative amount. *)
Definition bases_negativas : bases_extraidas :=
  Bases [ {| mes_anyo_d := "01/2025"; base_d := -100;
             empresa_d := "Empresa A"; regimen_d := "GENERAL" |} ].

(** The sample data with a retirement in 2026, a year that the table of
    parameters does not have. *)
Definition simulador_2026 : SimuladorPeriodos :=
  construido (__init__ config_ejemplo bases_ejemplo "06/2026" "GENERAL" "MASCULINO").

(** The sample data with a retirement in 01/2025, the month of the latest
    record. *)
Definition simulador_enero : SimuladorPeriodos :=
  construido (__init__ config_ejemplo bases_ejemplo "01/2025" "GENERAL" "MASCULINO").

(** The sample configuration with a period of twelve months. *)
Definition config_doce : ConfigManager :=
  {| cargar_parametros_computo :=
       [(2025, {| bases_incluidas := 12; periodo_meses := 12;
                  divisor_base_reguladora := 14 |})];
     cargar_indices_revalorizacion := cargar_indices_revalorizacion config_ejemplo;
     cargar_topes_cotizacion := cargar_topes_cotizacion config_ejemplo |}.

Definition simulador_doce : SimuladorPeriodos :=
  construido (__init__ config_doce bases_ejemplo "06/2025" "GENERAL" "MASCULINO").

(** The sample configuration with parameters that ask for no base. *)
Definition config_sin_bases : ConfigManager :=
  {| cargar_parametros_computo :=
       [(2025, {| bases_incluidas := 0; periodo_meses := 0;
                  divisor_base_reguladora := 350 |})];
     cargar_indices_revalorizacion := cargar_indices_revalorizacion config_ejemplo;
     cargar_topes_cotizacion := cargar_topes_cotizacion config_ejemplo |}.

Definition simulador_sin_bases : SimuladorPeriodos :=
  construido (__init__ config_sin_bases bases_ejemplo "06/2025" "GENERAL" "MASCULINO").

(** A configuration with the years 2025 and 2023, in this order, and a
    retirement in 2024, at the same distance from both. *)
Definition config_dos_años : ConfigManager :=
  {| cargar_parametros_computo :=
       [(2025, {| bases_incluidas := 300; periodo_meses := 300;
                  divisor_base_reguladora := 350 |});
        (2023, {| bases_incluidas := 300; periodo_meses := 300;
                  divisor_base_reguladora := 350 |})];
     cargar_indices_revalorizacion := ∅;
     cargar_topes_cotizacion :=
       [(2025, {| base_minima_mensual := 1080; base_maxima_mensual := 4495 |});
        (2023, {| base_minima_mensual := 1000; base_maxima_mensual := 4000 |})] |}.

Definition simulador_2024 : SimuladorPeriodos :=
  construido (__init__ config_dos_años bases_ejemplo "06/2024" "GENERAL" "MASCULINO").

(** Three records: one month with a single employer and an amount below
    the minimum base, and one month with two employers. *)
Definition bases_pluriactividad : list base_data :=
  {| mes_anyo_d := "02/2025"; base_d := 900; empresa_d := "Empresa C";
     regimen_d := "GENERAL" |} :: dos_bases 400 500.

Definition simulador_pluriactividad : SimuladorPeriodos :=
  construido (__init__ config_ejemplo (Bases bases_pluriactividad) "06/2025" "GENERAL"
                "MASCULINO").

(** Two records, the older one with its month written without the leading
    zero. *)
Definition bases_sin_cero : list base_data :=
  [ {| mes_anyo_d := "05/2025"; base_d := 1500; empresa_d := "Empresa A";
       regimen_d := "GENERAL" |};
    {| mes_anyo_d := "4/2025"; base_d := 1400; empresa_d := "Empresa A";
       regimen_d := "GENERAL" |} ].

Definition simulador_sin_cero : SimuladorPeriodos :=
  construido (__init__ config_ejemplo (Bases bases_sin_cero) "06/2025" "GENERAL"
                "MASCULINO").

(** Requests with the sample records, with no record, and with a regime
    and a sex as a client may write them. *)
Definition request_ejemplo : SimulateRequest :=
  {| bases_extraidas_q := match bases_ejemplo with Bases l => l | _ => [] end;
     fecha_jubilacion_q := "06/2025";
     regimen_acceso_q := "GENERAL";
     sexo_q := "FEMENINO" |}.

Definition request_sin_bases : SimulateRequest :=
  {| bases_extraidas_q := [];
     fecha_jubilacion_q := "06/2025";
     regimen_acceso_q := "GENERAL";
     sexo_q := "FEMENINO" |}.

(** * Properties *)

(** ** The error monad *)

Lemma bind_Ok {A B} (m : resultado A) (k : A -> resultado B) (b : B) :
  bind m k = Ok b -> exists a, m = Ok a /\ k a = Ok b.
Proof. destruct m as [a|e]; simpl; [eauto | discriminate]. Qed.

Ltac inv_bind_anon H :=
  let a := fresh "x" in
  let Ha := fresh "H" a in
  apply bind_Ok in H; destruct H as (a & Ha & H).

Tactic Notation "inv_bind" hyp(H) := inv_bind_anon H.

Tactic Notation "inv_bind" hyp(H) "as" ident(a) ident(Ha) :=
  apply bind_Ok in H; destruct H as (a & Ha & H).

Lemma mapM_length {A B} (f : A -> resultado B) (l : list A) (l' : list B) :
  mapM f l = Ok l' -> length l' = length l.
Proof.
  revert l'; induction l as [|x r IH]; simpl; intros l' H.
  - injection H as <-; reflexivity.
  - inv_bind H. inv_bind H. injection H as <-. simpl. f_equal. eauto.
Qed.

Lemma mapM_Forall2 {A B} (f : A -> resultado B) (l : list A) (l' : list B) :
  mapM f l = Ok l' -> Forall2 (fun x y => f x = Ok y) l l'.
Proof.
  revert l'; induction l as [|x r IH]; simpl; intros l' H.
  - injection H as <-; constructor.
  - inv_bind H. inv_bind H. injection H as <-. constructor; eauto.
Qed.

Lemma mapM_total {A B} (f : A -> resultado B) (l : list A) :
  Forall (fun x => exists y, f x = Ok y) l -> exists l', mapM f l = Ok l'.
Proof.
  induction 1 as [|x r [y Hy] _ [ys Hys]]; simpl.
  - eauto.
  - rewrite Hy, Hys; simpl; eauto.
Qed.

(** ** Rounding *)

Lemma redondeo_par_comp (x y : Q) : (x == y)%Q -> redondeo_par x = redondeo_par y.
Proof.
  intros E. unfold redondeo_par.
  rewrite (Qfloor_comp _ _ E).
  assert (E' : (x - inject_Z (Qfloor y) == y - inject_Z (Qfloor y))%Q) by (rewrite E; reflexivity).
  rewrite (Qcompare_comp _ _ E' _ _ (Qeq_refl (1 # 2))).
  reflexivity.
Qed.

Lemma redondeo_par_entero (z : Z) : redondeo_par (inject_Z z) = z.
Proof.
  unfold redondeo_par. rewrite Qfloor_Z.
  assert (L : Qcompare (inject_Z z - inject_Z z) (1 # 2) = Lt).
  { apply (proj1 (Qlt_alt _ _)). lra. }
  rewrite L. reflexivity.
Qed.

Global Instance round2_comp : Proper (Qeq ==> Qeq) round2.
Proof.
  intros x y E. unfold round2.
  assert (E' : (x * 100 == y * 100)%Q) by (rewrite E; reflexivity).
  rewrite (redondeo_par_comp _ _ E'). reflexivity.
Qed.

Lemma round2_dos_decimales (x : Q) : dos_decimales (round2 x).
Proof.
  exists (redondeo_par (x * 100)). unfold round2.
  unfold Qeq, Qdiv, Qmult, Qinv, inject_Z; simpl. lia.
Qed.

Lemma round2_id (x : Q) : dos_decimales x -> (round2 x == x)%Q.
Proof.
  intros [z Hz]. unfold round2.
  assert (E : (x * 100 == inject_Z z)%Q).
  { rewrite Hz. unfold Qeq, Qmult, inject_Z; simpl. lia. }
  rewrite (redondeo_par_comp _ _ E), redondeo_par_entero, Hz.
  unfold Qeq, Qdiv, Qmult, Qinv, inject_Z; simpl. lia.
Qed.

Lemma round2_idempotente (x : Q) : (round2 (round2 x) == round2 x)%Q.
Proof. apply round2_id, round2_dos_decimales. Qed.

Global Instance dos_decimales_comp : Proper (Qeq ==> iff) dos_decimales.
Proof.
  intros x y E; unfold dos_decimales; split; intros [z Hz]; exists z.
  - rewrite <- E; exact Hz.
  - rewrite E; exact Hz.
Qed.

Lemma dos_decimales_0 : dos_decimales 0.
Proof. exists 0. reflexivity. Qed.

Lemma dos_decimales_plus (x y : Q) :
  dos_decimales x -> dos_decimales y -> dos_decimales (x + y).
Proof.
  intros [a Ha] [b Hb]. exists (a + b). rewrite Ha, Hb.
  unfold Qeq, Qplus; simpl. lia.
Qed.

Lemma fold_left_Qplus_comp (l : list Q) (a b : Q) :
  (a == b)%Q -> (fold_left Qplus l a == fold_left Qplus l b)%Q.
Proof.
  revert a b; induction l as [|x r IH]; simpl; intros a b E; [exact E|].
  apply IH. rewrite E. reflexivity.
Qed.

Lemma fold_left_Qplus_acc (l : list Q) (a : Q) :
  (fold_left Qplus l a == a + fold_left Qplus l 0)%Q.
Proof.
  revert a; induction l as [|x r IH]; simpl; intros a.
  - lra.
  - rewrite (IH (a + x)%Q), (IH (0 + x)%Q). lra.
Qed.

Lemma py_sum_cons (x : Q) (l : list Q) : (py_sum (x :: l) == x + py_sum l)%Q.
Proof.
  unfold py_sum; simpl. rewrite fold_left_Qplus_acc. lra.
Qed.

Lemma py_sum_dos_decimales (l : list Q) :
  Forall dos_decimales l -> dos_decimales (py_sum l).
Proof.
  induction 1 as [|x r Hx _ IH].
  - apply dos_decimales_0.
  - rewrite py_sum_cons. apply dos_decimales_plus; assumption.
Qed.

Lemma Qlt_bool_iff (a b : Q) : Qlt_bool a b = true <-> (a < b)%Q.
Proof.
  unfold Qlt_bool. rewrite negb_true_iff.
  destruct (Qle_bool b a) eqn:E.
  - apply Qle_bool_iff in E. split; [discriminate | intros; lra].
  - split; [intros _ | reflexivity].
    apply Qnot_le_lt. intros L. apply Qle_bool_iff in L. congruence.
Qed.

Lemma Qlt_bool_false (a b : Q) : Qlt_bool a b = false <-> (b <= a)%Q.
Proof.
  unfold Qlt_bool. rewrite negb_false_iff. apply Qle_bool_iff.
Qed.

(** ** Month-year strings *)

Lemma valor_digito_digito (k : Z) : 0 <= k <= 9 -> valor_digito (digito k) = Some k.
Proof.
  intros H.
  assert (C : k = 0 \/ k = 1 \/ k = 2 \/ k = 3 \/ k = 4 \/ k = 5 \/ k = 6 \/ k = 7
              \/ k = 8 \/ k = 9) by lia.
  repeat (destruct C as [-> | C]; [reflexivity|]). subst; reflexivity.
Qed.

Lemma leer_mes_digitos (m : Z) (r : string) :
  1 <= m <= 12 ->
  leer_mes (String (digito (m / 10)) (String (digito (m mod 10)) r)) = Some (m, r).
Proof.
  intros H.
  assert (C : m = 1 \/ m = 2 \/ m = 3 \/ m = 4 \/ m = 5 \/ m = 6 \/ m = 7 \/ m = 8
              \/ m = 9 \/ m = 10 \/ m = 11 \/ m = 12) by lia.
  repeat (destruct C as [-> | C]; [reflexivity|]). subst; reflexivity.
Qed.

Lemma leer_anyo_digitos (y : Z) :
  0 <= y <= 9999 ->
  leer_anyo (String (digito (y / 1000)) (String (digito (y / 100 mod 10))
              (String (digito (y / 10 mod 10)) (String (digito (y mod 10)) EmptyString))))
  = Some y.
Proof.
  intros H. unfold leer_anyo.
  rewrite !valor_digito_digito by (Z.div_mod_to_equations; lia).
  f_equal. Z.div_mod_to_equations; lia.
Qed.

Lemma en_rango_spec (d : datetime) : en_rango d = true <-> 12 <= d < 120000.
Proof.
  unfold en_rango, year, MINYEAR, MAXYEAR.
  rewrite andb_true_iff, !Z.leb_le. Z.div_mod_to_equations; lia.
Qed.

(** Parsing a printed month-year gives the month back. *)
Lemma strptime_strftime (d : datetime) :
  en_rango d = true -> strptime (strftime d) = Ok d.
Proof.
  intros H. apply en_rango_spec in H.
  unfold strptime, strftime.
  rewrite leer_mes_digitos by (unfold month; Z.div_mod_to_equations; lia).
  rewrite leer_anyo_digitos by (unfold year; Z.div_mod_to_equations; lia).
  unfold MINYEAR, year, month.
  destruct (1 <=? d / 12) eqn:E.
  - f_equal. Z.div_mod_to_equations; lia.
  - apply Z.leb_gt in E. Z.div_mod_to_equations; lia.
Qed.

Lemma strftime_inj (d1 d2 : datetime) :
  en_rango d1 = true -> en_rango d2 = true -> strftime d1 = strftime d2 -> d1 = d2.
Proof.
  intros H1 H2 E. apply strptime_strftime in H1, H2.
  rewrite E in H1. congruence.
Qed.

(** Every month that [strptime] returns is within the calendar. *)
Lemma valor_digito_rango (c : ascii) (k : Z) : valor_digito c = Some k -> 0 <= k <= 9.
Proof.
  unfold valor_digito.
  destruct ((48 <=? _) && (_ <=? 57)) eqn:E; [|discriminate].
  apply andb_true_iff in E. rewrite !Z.leb_le in E. intros [= <-]. lia.
Qed.

Lemma leer_mes_rango (s r : string) (m : Z) : leer_mes s = Some (m, r) -> 1 <= m <= 12.
Proof.
  unfold leer_mes. destruct s as [|c1 r1]; [discriminate|].
  destruct (valor_digito c1) as [d1|] eqn:E1; [|discriminate].
  apply valor_digito_rango in E1.
  destruct r1 as [|c2 r2].
  - destruct (1 <=? d1) eqn:L; [|discriminate]. apply Z.leb_le in L. intros [= <- <-]. lia.
  - destruct (valor_digito c2) as [d2|] eqn:E2.
    + apply valor_digito_rango in E2.
      destruct (((d1 =? 1) && (d2 <=? 2)) || ((d1 =? 0) && (1 <=? d2))) eqn:C.
      * intros [= <- <-].
        apply orb_true_iff in C. rewrite !andb_true_iff, !Z.eqb_eq, !Z.leb_le in C. lia.
      * destruct (1 <=? d1) eqn:L; [|discriminate]. apply Z.leb_le in L.
        intros [= <- <-]. lia.
    + destruct (1 <=? d1) eqn:L; [|discriminate]. apply Z.leb_le in L.
      intros [= <- <-]. lia.
Qed.

Lemma leer_anyo_rango (s : string) (y : Z) : leer_anyo s = Some y -> 0 <= y <= 9999.
Proof.
  unfold leer_anyo.
  destruct s as [|a [|b [|c [|d [|? ?]]]]]; try discriminate.
  destruct (valor_digito a) as [va|] eqn:Ea; [|discriminate].
  destruct (valor_digito b) as [vb|] eqn:Eb; [|discriminate].
  destruct (valor_digito c) as [vc|] eqn:Ec; [|discriminate].
  destruct (valor_digito d) as [vd|] eqn:Ed; [|discriminate].
  apply valor_digito_rango in Ea, Eb, Ec, Ed. intros [= <-]. lia.
Qed.

Lemma strptime_en_rango (s : string) (d : datetime) :
  strptime s = Ok d -> en_rango d = true.
Proof.
  unfold strptime.
  destruct (leer_mes s) as [[m r]|] eqn:Em; [|discriminate].
  apply leer_mes_rango in Em.
  destruct r as [|c r]; [discriminate|].
  destruct (Ascii.eqb c "/") eqn:Ec.
  - apply Ascii.eqb_eq in Ec; subst c.
    destruct (leer_anyo r) as [y|] eqn:Ey; [|discriminate].
    apply leer_anyo_rango in Ey.
    unfold MINYEAR. destruct (1 <=? y) eqn:L; [|discriminate]. apply Z.leb_le in L.
    intros [= <-]. apply en_rango_spec. lia.
  - intros H. exfalso. revert H.
    destruct c as [[] [] [] [] [] [] [] []]; try discriminate.
Qed.

(** ** The largest amount of a month *)

Lemma py_max_Q_fold {A} (key : A -> Q) (r : list A) (b : A) :
  let x := fold_left (fun best y => if Qlt_bool (key best) (key y) then y else best) r b in
  (x = b \/ In x r) /\ (key b <= key x)%Q /\ Forall (fun y => (key y <= key x)%Q) r.
Proof.
  revert b; induction r as [|y r IH]; intros b; simpl.
  - split; [now left|]. split; [lra | constructor].
  - destruct (Qlt_bool (key b) (key y)) eqn:E.
    + apply Qlt_bool_iff in E.
      destruct (IH y) as (Hin & Hle & Hall).
      split; [right; destruct Hin; [left; congruence | now right]|].
      split; [lra|]. constructor; assumption.
    + apply Qlt_bool_false in E.
      destruct (IH b) as (Hin & Hle & Hall).
      split; [destruct Hin; [now left | right; now right]|].
      split; [assumption|]. constructor; [lra | assumption].
Qed.

(** [max(l, key=key)] returns an element of [l] whose key is the largest. *)
Lemma py_max_Q_spec {A} (key : A -> Q) (l : list A) (x : A) :
  py_max_Q key l = Ok x -> In x l /\ Forall (fun y => (key y <= key x)%Q) l.
Proof.
  destruct l as [|b r]; simpl; [discriminate|].
  intros [= <-]. destruct (py_max_Q_fold key r b) as (Hin & Hle & Hall).
  split.
  - destruct Hin as [-> | Hin]; [now left | now right].
  - constructor; assumption.
Qed.

Lemma py_max_Q_total {A} (key : A -> Q) (l : list A) :
  l <> [] -> exists x, py_max_Q key l = Ok x.
Proof. destruct l; [congruence | simpl; eauto]. Qed.

(** ** The choice between the two calculations *)

Lemma elegir_Ok (self : SimuladorPeriodos) (br bp : list base_dict)
    (er ep : option estadisticas) (x : list base_dict * option estadisticas * string) :
  _elegir_calculo_mas_favorable self br er bp ep = Ok x ->
  exists sr sp : estadisticas,
    er = Some sr /\ ep = Some sp
    /\ x = if Qle_bool (base_reguladora sp) (base_reguladora sr)
           then (br, Some sr, "reforma_rd2_2023")
           else (bp, Some sp, "prereforma").
Proof.
  unfold _elegir_calculo_mas_favorable.
  destruct er as [sr|]; [|discriminate]. destruct ep as [sp|]; [|discriminate].
  cbn [getitem_base_reguladora bind]. intros H. exists sr, sp.
  split; [reflexivity|]. split; [reflexivity|].
  destruct (Qle_bool _ _); congruence.
Qed.

(** C4: the reform calculation is chosen whenever its regulatory base is
    greater than or equal to that of the pre-reform calculation (a tie
    chooses the reform), the pre-reform calculation otherwise; the result of
    [procesar_bases_completo] holds the statistics and the parameters of both
    calculations. *)
Theorem C4_dual_scheme_selector (self : SimuladorPeriodos) :
  (forall (br bp : list base_dict) (sr sp : estadisticas),
     let elegido := _elegir_calculo_mas_favorable self br (Some sr) bp (Some sp) in
     ((base_reguladora sp <= base_reguladora sr)%Q ->
      elegido = Ok (br, Some sr, "reforma_rd2_2023"))
     /\ ((base_reguladora sr < base_reguladora sp)%Q ->
         elegido = Ok (bp, Some sp, "prereforma")))
  /\ (forall (self' : SimuladorPeriodos) (r : resultado_completo),
        procesar_bases_completo self = Ok (self', r) ->
        exists (br bp : list base_dict) (sr sp : estadisticas),
          _procesar_calculo_reforma self = Ok (br, Some sr)
          /\ _procesar_calculo_prereforma self = Ok (bp, Some sp)
          /\ calculo_reforma_rd2_2023 (comparativa_calculos r)
             = {| parametros_c :=
                    {| bases_incluidas_c := bases_incluidas (parametros_año_jubilacion self);
                       divisor := divisor_base_reguladora (parametros_año_jubilacion self);
                       periodo_meses_c := periodo_meses (parametros_año_jubilacion self) |};
                  estadisticas_c := Some sr;
                  total_bases_c := length br |}
          /\ calculo_prereforma (comparativa_calculos r)
             = {| parametros_c :=
                    {| bases_incluidas_c := 300; divisor := 350; periodo_meses_c := 300 |};
                  estadisticas_c := Some sp;
                  total_bases_c := length bp |}
          /\ ((base_reguladora sp <= base_reguladora sr)%Q ->
              calculo_elegido r = "reforma_rd2_2023"
              /\ bases_procesadas_r r = br /\ estadisticas_r r = Some sr)
          /\ ((base_reguladora sr < base_reguladora sp)%Q ->
              calculo_elegido r = "prereforma"
              /\ bases_procesadas_r r = bp /\ estadisticas_r r = Some sp)).
Proof.
  split.
  - intros br bp sr sp elegido. subst elegido.
    unfold _elegir_calculo_mas_favorable. cbn [getitem_base_reguladora bind].
    split; intros H.
    + apply Qle_bool_iff in H. rewrite H. reflexivity.
    + destruct (Qle_bool (base_reguladora sp) (base_reguladora sr)) eqn:E;
        [|reflexivity].
      apply Qle_bool_iff in E. lra.
  - intros self' r H. unfold procesar_bases_completo in H.
    inv_bind H as ref Href. destruct ref as [br er].
    inv_bind H as pre Hpre. destruct pre as [bp ep].
    inv_bind H as ele Hele. destruct ele as [[be ee] ce].
    injection H as <- <-.
    apply elegir_Ok in Hele. destruct Hele as (sr & sp & -> & -> & Hx).
    exists br, bp, sr, sp.
    split; [exact Href|]. split; [exact Hpre|].
    split; [reflexivity|]. split; [reflexivity|].
    destruct (Qle_bool (base_reguladora sp) (base_reguladora sr)) eqn:E;
      injection Hx as -> -> ->.
    + split; [intros _; repeat split|].
      apply Qle_bool_iff in E. intros L. lra.
    + split; [|intros _; repeat split].
      intros L. apply Qle_bool_iff in L. congruence.
Qed.

(** The sample data, where both calculations use 300 months and the divisor
    350: the tie chooses the reform. *)
Lemma C4_dual_scheme_selector_witness :
  exists (self' : SimuladorPeriodos) (r : resultado_completo),
    procesar_bases_completo simulador_ejemplo = Ok (self', r)
    /\ exists sr sp : estadisticas,
         estadisticas_c (calculo_reforma_rd2_2023 (comparativa_calculos r)) = Some sr
         /\ estadisticas_c (calculo_prereforma (comparativa_calculos r)) = Some sp.
Proof.
  destruct (procesar_bases_completo simulador_ejemplo) as [[self' r]|e] eqn:E.
  - exists self', r. split; [reflexivity|].
    destruct (proj2 (C4_dual_scheme_selector simulador_ejemplo) self' r E)
      as (br & bp & sr & sp & _ & _ & Hr & Hp & _).
    exists sr, sp. rewrite Hr, Hp. split; reflexivity.
  - vm_compute in E. discriminate E.
Defined.

Lemma empate_elige_reforma :
  exists (self' : SimuladorPeriodos) (r : resultado_completo),
    procesar_bases_completo simulador_ejemplo = Ok (self', r)
    /\ calculo_elegido r = "reforma_rd2_2023".
Proof.
  destruct (procesar_bases_completo simulador_ejemplo) as [[self' r]|e] eqn:E.
  - exists self', r. split; [reflexivity|].
    vm_compute in E. injection E as _ <-. reflexivity.
  - vm_compute in E. discriminate E.
Qed.

(** ** The simulation of the future period *)

Lemma py_max_fold {A} (key : A -> Z) (r : list A) (b : A) :
  let x := fold_left (fun best y => if key best <? key y then y else best) r b in
  (x = b \/ In x r) /\ key b <= key x /\ Forall (fun y => key y <= key x) r.
Proof.
  revert b; induction r as [|y r IH]; intros b; simpl.
  - split; [now left|]. split; [lia | constructor].
  - destruct (key b <? key y) eqn:E.
    + apply Z.ltb_lt in E.
      destruct (IH y) as (Hin & Hle & Hall).
      split; [right; destruct Hin; [left; congruence | now right]|].
      split; [lia|]. constructor; assumption.
    + apply Z.ltb_ge in E.
      destruct (IH b) as (Hin & Hle & Hall).
      split; [destruct Hin; [now left | right; now right]|].
      split; [assumption|]. constructor; [lia | assumption].
Qed.

Lemma py_max_spec {A} (key : A -> Z) (l : list A) (x : A) :
  py_max key l = Ok x -> In x l /\ Forall (fun y => key y <= key x) l.
Proof.
  destruct l as [|b r]; simpl; [discriminate|].
  intros [= <-]. destruct (py_max_fold key r b) as (Hin & Hle & Hall).
  split.
  - destruct Hin as [-> | Hin]; [now left | now right].
  - constructor; assumption.
Qed.

Lemma mapM_con_clave {A} (mes : A -> string) (l : list A) (claves : list (Z * A)) :
  mapM (con_clave mes) l = Ok claves ->
  map snd claves = l /\ Forall (fun kb => strptime (mes (snd kb)) = Ok (fst kb)) claves.
Proof.
  revert claves; induction l as [|x r IH]; simpl; intros claves H.
  - injection H as <-. split; [reflexivity | constructor].
  - inv_bind H as kb Hkb. inv_bind H as ys Hys. injection H as <-.
    unfold con_clave in Hkb. inv_bind Hkb as k Hk. injection Hkb as <-.
    destruct (IH _ Hys) as [E F]. simpl. split; [f_equal; exact E|].
    constructor; [exact Hk | exact F].
Qed.

Lemma mapM_con_clave_total {A} (mes : A -> string) (l : list A) :
  Forall (fun x => exists d, strptime (mes x) = Ok d) l ->
  exists claves, mapM (con_clave mes) l = Ok claves.
Proof.
  intros H. apply mapM_total. eapply Forall_impl; [exact H|].
  intros x [d Hd]. unfold con_clave. rewrite Hd. simpl. eauto.
Qed.

Lemma relativedelta_Ok (d k : Z) :
  12 <= d + k < 120000 -> relativedelta d k = Ok (d + k).
Proof.
  intros H. unfold relativedelta.
  rewrite (proj2 (en_rango_spec (d + k)) H). reflexivity.
Qed.

(** The months that the simulation loop writes. *)
Lemma bucle_simulacion_spec (self : SimuladorPeriodos) (promedio : Q) (limite : datetime) :
  limite < 119999 ->
  forall (pasos : nat) (fecha_actual : datetime) (acc : list BaseCotizacion),
    12 <= fecha_actual ->
    pasos = Z.to_nat (limite - fecha_actual + 1) ->
    bucle_simulacion self promedio pasos fecha_actual limite acc
    = Ok (acc ++ map (fun k => nueva_BaseCotizacion
                                 (strftime (fecha_actual + Z.of_nat k))
                                 (round2 promedio) "SIMULADA" (regimen_acceso self))
                     (seq 0 pasos)).
Proof.
  intros Hlim. induction pasos as [|p IH]; intros f acc Hf Hp; simpl.
  - rewrite app_nil_r. reflexivity.
  - assert (L : f <= limite) by lia.
    rewrite (proj2 (Z.leb_le _ _) L).
    rewrite relativedelta_Ok by lia. cbn [bind].
    rewrite IH by lia.
    rewrite <- app_assoc. simpl. rewrite Z.add_0_r.
    do 3 f_equal. rewrite <- seq_shift, map_map.
    apply map_ext. intros k. do 2 f_equal. lia.
Qed.

Lemma recoger_recientes_spec (ultima : datetime) (l : list BaseCotizacion) (acc : list Q) :
  17 <= ultima < 120000 ->
  Forall (fun b => exists d, strptime (mes_anyo b) = Ok d) l ->
  recoger_recientes l ultima acc
  = Ok (acc ++ map base (List.filter (es_reciente ultima) l)).
Proof.
  intros Hu H. revert acc. induction H as [|b r [d Hd] _ IH]; intros acc; simpl.
  - rewrite app_nil_r. reflexivity.
  - rewrite Hd. cbn [bind]. rewrite relativedelta_Ok by lia. cbn [bind].
    unfold es_reciente at 1. rewrite Hd.
    replace (ultima + -5) with (ultima - 5) by lia.
    destruct (ultima - 5 <=? d).
    + rewrite IH. simpl. rewrite <- app_assoc. reflexivity.
    + apply IH.
Qed.

Lemma simular_periodo_futuro_spec (self : SimuladorPeriodos) (ultima : datetime) :
  ultima_fecha self ultima ->
  17 <= ultima ->
  ultima < fecha_jubilacion self < 120000 ->
  simular_periodo_futuro self = Ok (meses_simulados self ultima).
Proof.
  intros [Hex Hall] Hu Hr. unfold simular_periodo_futuro.
  destruct (bases self) as [|b0 r0] eqn:Eb; [inversion Hex|]. rewrite <- Eb in *.
  destruct (mapM_con_clave_total mes_anyo (bases self)) as [claves Hc].
  { eapply Forall_impl; [exact Hall|]. intros b (d & Hd & _). eauto. }
  rewrite Hc. cbn [bind].
  destruct (mapM_con_clave _ _ _ Hc) as [Hsnd Hkeys].
  destruct claves as [|c0 cs] eqn:Ec; [rewrite Eb in Hsnd; discriminate|].
  rewrite <- Ec in *.
  destruct (py_max fst claves) as [x|e] eqn:Ex; [|rewrite Ec in Ex; discriminate].
  cbn [bind].
  destruct (py_max_spec _ _ _ Ex) as [Hin Hmax].
  assert (Hx : strptime (mes_anyo (snd x)) = Ok (fst x)).
  { rewrite Forall_forall in Hkeys. apply Hkeys, list_elem_of_In, Hin. }
  assert (Hult : fst x = ultima).
  { apply Z.le_antisymm.
    - assert (Hb : In (snd x) (bases self)) by (rewrite <- Hsnd; apply in_map, Hin).
      rewrite Forall_forall in Hall.
      destruct (Hall _ (proj2 (list_elem_of_In _ _) Hb)) as (d & Hd & Hle).
      rewrite Hx in Hd. injection Hd as Hd. lia.
    - apply Exists_exists in Hex. destruct Hex as (b & Hb & Hd).
      apply list_elem_of_In in Hb.
      rewrite <- Hsnd in Hb. apply in_map_iff in Hb. destruct Hb as (kb & <- & Hkb).
      rewrite Forall_forall in Hkeys, Hmax.
      pose proof (Hkeys _ (proj2 (list_elem_of_In _ _) Hkb)) as K.
      pose proof (Hmax _ (proj2 (list_elem_of_In _ _) Hkb)) as M.
      simpl in M. rewrite K in Hd. injection Hd as Hd. lia. }
  rewrite Hx. cbn [bind]. rewrite Hult.
  replace (fecha_jubilacion self <=? ultima) with false
    by (symmetry; apply Z.leb_gt; lia).
  rewrite recoger_recientes_spec;
    [| lia | eapply Forall_impl; [exact Hall|]; intros b (d & Hd & _); eauto].
  cbn [bind app].
  assert (Hne : map base (List.filter (es_reciente ultima) (bases self)) <> []).
  { apply Exists_exists in Hex. destruct Hex as (b & Hb & Hd).
    apply list_elem_of_In in Hb.
    assert (Hf : In b (List.filter (es_reciente ultima) (bases self))).
    { apply filter_In. split; [exact Hb|]. unfold es_reciente. rewrite Hd.
      apply Z.leb_le. lia. }
    intros E. apply (in_map base) in Hf. rewrite E in Hf. exact Hf. }
  rewrite !relativedelta_Ok by lia. cbn [bind].
  rewrite bucle_simulacion_spec by lia.
  unfold meses_simulados, promedio_recientes. cbn [app].
  destruct (map base (List.filter (es_reciente ultima) (bases self))) as [|q qs] eqn:Eq;
    [congruence|].
  replace (Z.to_nat (fecha_jubilacion self + -1 - (ultima + 1) + 1))
    with (Z.to_nat (fecha_jubilacion self - 1 - ultima)) by (f_equal; lia).
  reflexivity.
Qed.

(** When the retirement is not later than the last record nothing is
    simulated. *)
Lemma simular_periodo_futuro_nada (self : SimuladorPeriodos) (ultima : datetime) :
  ultima_fecha self ultima ->
  fecha_jubilacion self <= ultima ->
  simular_periodo_futuro self = Ok [].
Proof.
  intros [Hex Hall] Hr. unfold simular_periodo_futuro.
  destruct (bases self) as [|b0 r0] eqn:Eb; [reflexivity|]. rewrite <- Eb in *.
  destruct (mapM_con_clave_total mes_anyo (bases self)) as [claves Hc].
  { eapply Forall_impl; [exact Hall|]. intros b (d & Hd & _). eauto. }
  rewrite Hc. cbn [bind].
  destruct (mapM_con_clave _ _ _ Hc) as [Hsnd Hkeys].
  destruct claves as [|c0 cs] eqn:Ec; [rewrite Eb in Hsnd; discriminate|].
  rewrite <- Ec in *.
  destruct (py_max fst claves) as [x|e] eqn:Ex; [|rewrite Ec in Ex; discriminate].
  cbn [bind].
  destruct (py_max_spec _ _ _ Ex) as [Hin Hmax].
  assert (Hx : strptime (mes_anyo (snd x)) = Ok (fst x)).
  { rewrite Forall_forall in Hkeys. apply Hkeys, list_elem_of_In, Hin. }
  rewrite Hx. cbn [bind].
  assert (Hult : ultima <= fst x).
  { apply Exists_exists in Hex. destruct Hex as (b & Hb & Hd).
    apply list_elem_of_In in Hb.
    rewrite <- Hsnd in Hb. apply in_map_iff in Hb. destruct Hb as (kb & <- & Hkb).
    rewrite Forall_forall in Hkeys, Hmax.
    pose proof (Hkeys _ (proj2 (list_elem_of_In _ _) Hkb)) as K.
    pose proof (Hmax _ (proj2 (list_elem_of_In _ _) Hkb)) as M.
    simpl in M. rewrite K in Hd. injection Hd as Hd. lia. }
  replace (fecha_jubilacion self <=? fst x) with true
    by (symmetry; apply Z.leb_le; lia).
  reflexivity.
Qed.

(** ** The reference tables *)

Lemma py_min_fold_In {A} (key : A -> Z) (r : list A) (b : A) :
  let x := fold_left (fun best y => if key y <? key best then y else best) r b in
  x = b \/ In x r.
Proof.
  revert b; induction r as [|y r IH]; intros b; simpl; [now left|].
  destruct (key y <? key b).
  - destruct (IH y) as [->|H]; [right; now left | right; now right].
  - destruct (IH b) as [->|H]; [now left | right; now right].
Qed.

Lemma py_min_In {A} (key : A -> Z) (l : list A) (x : A) :
  py_min key l = Ok x -> In x l.
Proof.
  destruct l as [|b r]; simpl; [discriminate|]. intros [= <-].
  destruct (py_min_fold_In key r b) as [->|H]; [now left | now right].
Qed.

Lemma dict_get_keys {V} (d : dict V) (k : Z) :
  In k (keys d) -> exists v, dict_get d k = Some v.
Proof.
  induction d as [|[k' v] r IH]; simpl; [tauto|].
  intros [<-|H].
  - rewrite Z.eqb_refl. eauto.
  - destruct (k =? k'); eauto.
Qed.

(** With a table of caps that is not empty, the caps of every year are
    found, those of the nearest year when the year is absent. *)
Lemma _obtener_topes_año_total (self : SimuladorPeriodos) (año : Z) :
  topes_cotizacion self <> [] -> exists t, _obtener_topes_año self año = Ok t.
Proof.
  intros Hne. unfold _obtener_topes_año.
  destruct (dict_get (topes_cotizacion self) año) as [t|]; [eauto|].
  destruct (py_min (fun x => Z.abs (x - año)) (keys (topes_cotizacion self)))
    as [c|e] eqn:E.
  - cbn [bind]. apply py_min_In in E.
    destruct (dict_get_keys _ _ E) as [v Hv].
    unfold getitem. rewrite Hv. eauto.
  - unfold keys in E. destruct (topes_cotizacion self); [congruence | discriminate].
Qed.

Lemma calcular_base_laguna_total (self : SimuladorPeriodos) (fecha : datetime) (n : Z) :
  regimen_acceso self = "AUTONOMO" \/ topes_cotizacion self <> [] ->
  12 <= fecha < 120000 ->
  exists importe, calcular_base_laguna self (strftime fecha) n = Ok importe.
Proof.
  intros Ht Hf. unfold calcular_base_laguna.
  rewrite strptime_strftime by (apply en_rango_spec; exact Hf). cbn [bind].
  destruct (String.eqb (regimen_acceso self) "AUTONOMO") eqn:E; [eauto|].
  destruct Ht as [Ht|Ht]; [rewrite Ht in E; discriminate|].
  unfold _obtener_base_minima_año.
  destruct (_obtener_topes_año_total self (year fecha) Ht) as [t ->]. cbn [bind].
  destruct (n <=? 48); [eauto|].
  destruct (_ || _); [|eauto].
  destruct (n <=? 60); [eauto|]. destruct (n <=? 84); eauto.
Qed.

(** ** The period of computation *)

(** Every entry of [bases_dict] is stored under its own month-year. *)
Lemma construir_bases_dict_clave (l : list BaseCotizacion) (k : string) (b : BaseCotizacion) :
  construir_bases_dict l !! k = Some b -> mes_anyo b = k.
Proof.
  unfold construir_bases_dict.
  assert (G : forall (d : gmap string BaseCotizacion),
             (forall k b, d !! k = Some b -> mes_anyo b = k) ->
             forall k b,
               fold_left (fun d b => <[mes_anyo b := b]> d) l d !! k = Some b ->
               mes_anyo b = k).
  { induction l as [|x r IH]; intros d Hd k' b' H; simpl in H; [eauto|].
    eapply IH; [|exact H]. intros k0 b0 H0.
    destruct (decide (mes_anyo x = k0)) as [<-|Hne].
    - rewrite lookup_insert_eq in H0. congruence.
    - rewrite lookup_insert_ne in H0 by exact Hne. eauto. }
  apply G. intros k0 b0 H0. rewrite lookup_empty in H0. discriminate.
Qed.

Lemma bucle_periodo_spec (self : SimuladorPeriodos) (bases_dict : gmap string BaseCotizacion) :
  regimen_acceso self = "AUTONOMO" \/ topes_cotizacion self <> [] ->
  forall (faltan : nat) (fecha_actual contador : Z) (acc : list BaseCotizacion),
    12 <= fecha_actual - Z.of_nat faltan ->
    fecha_actual < 120000 ->
    exists w : list BaseCotizacion,
      bucle_periodo self bases_dict faltan fecha_actual contador acc = Ok (acc ++ w)
      /\ length w = faltan
      /\ forall k : nat,
           (k < faltan)%nat ->
           exists b : BaseCotizacion,
             nth_error w k = Some b
             /\ registro_del_mes self bases_dict (fecha_actual - Z.of_nat k)
                  (contador + lagunas_previas bases_dict fecha_actual k) b.
Proof.
  intros Ht. induction faltan as [|n IH]; intros f c acc Hlo Hhi.
  - exists []. simpl. rewrite app_nil_r. split; [reflexivity|].
    split; [reflexivity|]. intros k Hk. lia.
  - cbn [bucle_periodo].
    destruct (bases_dict !! strftime f) as [b0|] eqn:Ed.
    + cbn [bind fst snd]. rewrite relativedelta_Ok by lia. cbn [bind].
      destruct (IH (f + -1) c (acc ++ [b0])) as (w & Hw & Hlen & Hk); [lia | lia |].
      exists (b0 :: w). rewrite Hw, <- app_assoc.
      split; [reflexivity|]. split; [simpl; congruence|].
      intros [|k] Hlt.
      * exists b0. split; [reflexivity|].
        unfold registro_del_mes. simpl. rewrite Z.sub_0_r, Ed. reflexivity.
      * destruct (Hk k) as (b & Hb & Hreg); [lia|].
        exists b. split; [exact Hb|].
        cbn [lagunas_previas]. rewrite Ed.
        replace (f - Z.of_nat (S k)) with (f + -1 - Z.of_nat k) by lia.
        replace (f - 1) with (f + -1) by lia.
        replace (c + (0 + lagunas_previas bases_dict (f + -1) k))
          with (c + lagunas_previas bases_dict (f + -1) k) by lia.
        exact Hreg.
    + destruct (calcular_base_laguna_total self f (c + 1) Ht) as [a Ha]; [lia|].
      rewrite Ha. cbn [bind fst snd]. rewrite relativedelta_Ok by lia. cbn [bind].
      set (b0 := nueva_BaseCotizacion (strftime f) a "LAGUNA" (regimen_acceso self)).
      destruct (IH (f + -1) (c + 1) (acc ++ [b0])) as (w & Hw & Hlen & Hk); [lia | lia |].
      exists (b0 :: w). rewrite Hw, <- app_assoc.
      split; [reflexivity|]. split; [simpl; congruence|].
      intros [|k] Hlt.
      * exists b0. split; [reflexivity|].
        unfold registro_del_mes. simpl. rewrite Z.sub_0_r, Ed, Z.add_0_r.
        exists a. split; [exact Ha | reflexivity].
      * destruct (Hk k) as (b & Hb & Hreg); [lia|].
        exists b. split; [exact Hb|].
        cbn [lagunas_previas]. rewrite Ed.
        replace (f - Z.of_nat (S k)) with (f + -1 - Z.of_nat k) by lia.
        replace (f - 1) with (f + -1) by lia.
        replace (c + (1 + lagunas_previas bases_dict (f + -1) k))
          with (c + 1 + lagunas_previas bases_dict (f + -1) k) by lia.
        exact Hreg.
Qed.

Lemma registro_del_mes_clave (self : SimuladorPeriodos) (l : list BaseCotizacion)
    (fecha : datetime) (contador : Z) (b : BaseCotizacion) :
  registro_del_mes self (construir_bases_dict l) fecha contador b ->
  mes_anyo b = strftime fecha.
Proof.
  unfold registro_del_mes.
  destruct (construir_bases_dict l !! strftime fecha) as [b'|] eqn:E.
  - intros ->. eapply construir_bases_dict_clave, E.
  - intros (a & _ & ->). reflexivity.
Qed.

(** ** Sorting by date *)

Lemma insertar_desc_perm {A} (x : Z * A) (l : list (Z * A)) :
  Permutation (insertar_desc x l) (x :: l).
Proof.
  induction l as [|y r IH]; simpl; [reflexivity|].
  destruct (fst y <=? fst x); [reflexivity|].
  rewrite IH. apply perm_swap.
Qed.

Lemma sort_reverse_perm {A} (l : list (Z * A)) : Permutation (sort_reverse l) l.
Proof.
  induction l as [|x r IH]; simpl; [reflexivity|].
  unfold sort_reverse in *. simpl. rewrite insertar_desc_perm, IH. reflexivity.
Qed.

(** Sorting by date keeps the elements, and succeeds exactly when every
    month-year is well formed. *)
Lemma ordenar_por_fecha_perm {A} (mes : A -> string) (l l' : list A) :
  ordenar_por_fecha mes l = Ok l' ->
  Permutation l' l /\ Forall (fun x => exists d, strptime (mes x) = Ok d) l.
Proof.
  unfold ordenar_por_fecha. intros H. inv_bind H as claves Hc. injection H as <-.
  destruct (mapM_con_clave _ _ _ Hc) as [Hsnd Hkeys].
  split.
  - rewrite <- Hsnd. apply Permutation_map, sort_reverse_perm.
  - rewrite <- Hsnd. apply Forall_map. eapply Forall_impl; [exact Hkeys|].
    intros kb Hkb. exists (fst kb). exact Hkb.
Qed.

Lemma ordenar_por_fecha_total {A} (mes : A -> string) (l : list A) :
  Forall (fun x => exists d, strptime (mes x) = Ok d) l ->
  exists l', ordenar_por_fecha mes l = Ok l'.
Proof.
  intros H. destruct (mapM_con_clave_total mes l H) as [claves Hc].
  unfold ordenar_por_fecha. rewrite Hc. cbn [bind]. eauto.
Qed.

(** ** The constructor *)

Lemma agrupar_base_no_vacio (g : list (string * list base_data)) (dato : base_data) :
  agrupar_base g dato <> [].
Proof.
  destruct g as [|[m l] r]; simpl; [discriminate|].
  destruct (String.eqb _ _); discriminate.
Qed.

Lemma agrupar_bases_no_vacio (l : list base_data) (g g' : list (string * list base_data)) :
  agrupar_bases l g = Ok g' -> (l <> [] \/ g <> []) -> g' <> [].
Proof.
  revert g; induction l as [|x r IH]; simpl; intros g H Hne.
  - injection H as <-. destruct Hne; congruence.
  - destruct (Qlt_bool (base_d x) 0); [discriminate|].
    eapply IH; [exact H|]. right. apply agrupar_base_no_vacio.
Qed.

Lemma procesar_mes_dos_decimales (self : SimuladorPeriodos)
    (entrada : string * list base_data) (b : BaseCotizacion) :
  procesar_mes self entrada = Ok b -> dos_decimales (base b).
Proof.
  unfold procesar_mes. destruct entrada as [m l].
  destruct l as [|x [|y r]].
  - cbn [_validar_coherencia_pluriactividad negb]. intros H.
    inv_bind H as a Ha. injection H as <-. apply round2_dos_decimales.
  - intros [= <-]. apply round2_dos_decimales.
  - cbn [_validar_coherencia_pluriactividad negb]. intros H.
    inv_bind H as a Ha. injection H as <-. apply round2_dos_decimales.
Qed.

(** What the constructor establishes. *)
Lemma __init___spec (config : ConfigManager) (be : bases_extraidas)
    (fj ra sx : string) (self : SimuladorPeriodos) :
  __init__ config be fj ra sx = Ok self ->
  regimen_acceso self = upper ra
  /\ (regimen_acceso self = "GENERAL" \/ regimen_acceso self = "AUTONOMO")
  /\ sexo self = upper sx
  /\ cumple_condiciones_hombre self = false
  /\ strptime fj = Ok (fecha_jubilacion self)
  /\ parametros_computo self = cargar_parametros_computo config
  /\ indices_revalorizacion self = cargar_indices_revalorizacion config
  /\ topes_cotizacion self = cargar_topes_cotizacion config
  /\ bases self <> []
  /\ Forall (fun b => exists d, strptime (mes_anyo b) = Ok d) (bases self)
  /\ Forall (fun b => dos_decimales (base b)) (bases self).
Proof.
  unfold __init__. intros H.
  inv_bind H as u Hval. inv_bind H as fecha Hfecha.
  inv_bind H as bs Hbs. inv_bind H as ps Hps. injection H as <-.
  cbn [regimen_acceso sexo cumple_condiciones_hombre fecha_jubilacion
       parametros_computo indices_revalorizacion topes_cotizacion bases].
  unfold _validar_datos_entrada in Hval.
  destruct be as [| | |[|x r]]; try discriminate.
  destruct (strptime fj) as [d|] eqn:Ed; [|discriminate].
  cbn [regimen_acceso] in Hval.
  destruct (en_lista (upper ra) ["GENERAL"; "AUTONOMO"]) eqn:Er; [|discriminate].
  unfold _procesar_fecha_jubilacion in Hfecha. rewrite Ed in Hfecha.
  injection Hfecha as <-.
  unfold _procesar_bases_extraidas in Hbs.
  inv_bind Hbs as lista Hl. injection Hl as <-.
  inv_bind Hbs as grupos Hg. inv_bind Hbs as procesadas Hp.
  destruct (ordenar_por_fecha_perm _ _ _ Hbs) as [Hperm Hparse].
  split; [reflexivity|]. split.
  { unfold en_lista in Er. simpl in Er.
    destruct (String.eqb_spec (upper ra) "GENERAL") as [->|_]; [now left|].
    destruct (String.eqb_spec (upper ra) "AUTONOMO") as [->|_]; [now right|].
    discriminate. }
  do 6 (split; [reflexivity|]).
  split.
  { intros E. rewrite E in Hperm. apply Permutation_nil in Hperm.
    rewrite Hperm in Hp. apply mapM_length in Hp. simpl in Hp.
    assert (grupos <> []) by (eapply agrupar_bases_no_vacio; [exact Hg | left; discriminate]).
    destruct grupos; [congruence | discriminate]. }
  split.
  - rewrite Hperm. exact Hparse.
  - rewrite Hperm. apply mapM_Forall2 in Hp.
    clear -Hp. induction Hp as [|e b g l He _ IH]; constructor; [|exact IH].
    eapply procesar_mes_dos_decimales, He.
Qed.

Lemma existe_ultima_fecha (l : list BaseCotizacion) :
  l <> [] ->
  Forall (fun b => exists d, strptime (mes_anyo b) = Ok d) l ->
  exists u : Z,
    Exists (fun b => strptime (mes_anyo b) = Ok u) l
    /\ Forall (fun b => exists d, strptime (mes_anyo b) = Ok d /\ d <= u) l.
Proof.
  intros Hne H. induction H as [|x r [d Hd] Hr IH]; [congruence|].
  destruct r as [|y r'].
  - exists d. split; [now left|]. constructor; [|constructor]. exists d. split; [exact Hd | lia].
  - destruct IH as (u & Hex & Hall); [discriminate|].
    destruct (Z.le_gt_cases d u) as [L|L].
    + exists u. split; [now right|]. constructor; [|exact Hall]. eauto.
    + exists d. split; [now left|]. constructor; [exists d; split; [exact Hd | lia]|].
      eapply Forall_impl; [exact Hall|]. intros b (d' & Hd' & Hle). exists d'. split; [exact Hd' | lia].
Qed.

(** The simulation of the future period succeeds on a constructed simulator
    whose records are dated 06/0001 or later, and its amounts have two
    decimals. *)
Lemma simular_periodo_futuro_total (self : SimuladorPeriodos) :
  bases self <> [] ->
  Forall (fun b => exists d, strptime (mes_anyo b) = Ok d /\ 17 <= d) (bases self) ->
  fecha_jubilacion self < 120000 ->
  exists simuladas : list BaseCotizacion,
    simular_periodo_futuro self = Ok simuladas
    /\ Forall (fun b => dos_decimales (base b)) simuladas.
Proof.
  intros Hne Hall Hr.
  destruct (existe_ultima_fecha (bases self) Hne) as (u & Hex & Hmax).
  { eapply Forall_impl; [exact Hall|]. intros b (d & Hd & _). eauto. }
  assert (Hu : 17 <= u).
  { apply Exists_exists in Hex. destruct Hex as (b & Hb & Hd).
    rewrite Forall_forall in Hall. destruct (Hall b Hb) as (d & Hd' & Hle).
    rewrite Hd in Hd'. injection Hd' as <-. exact Hle. }
  destruct (Z.le_gt_cases (fecha_jubilacion self) u) as [L|L].
  - exists []. split; [|constructor].
    eapply simular_periodo_futuro_nada; [split; eassumption | exact L].
  - exists (meses_simulados self u). split.
    + apply simular_periodo_futuro_spec; [split; assumption | exact Hu | lia].
    + unfold meses_simulados. apply Forall_map, Forall_forall. intros k _.
      apply round2_dos_decimales.
Qed.

(** The period of computation of a simulator whose records and dates lie
    within the calendar. *)
Lemma obtener_bases_periodo_computo_spec (self : SimuladorPeriodos) (usar : bool) :
  let N := if usar then 300 else bases_incluidas (parametros_año_jubilacion self) in
  let inicio := fecha_jubilacion self - 1 in
  bases self <> [] ->
  fecha_jubilacion self < 120000 ->
  0 <= N ->
  12 <= inicio - N ->
  Forall (fun b => exists d, strptime (mes_anyo b) = Ok d /\ 17 <= d) (bases self) ->
  regimen_acceso self = "AUTONOMO" \/ topes_cotizacion self <> [] ->
  exists simuladas ventana : list BaseCotizacion,
    simular_periodo_futuro self = Ok simuladas
    /\ obtener_bases_periodo_computo self usar = Ok ventana
    /\ length ventana = Z.to_nat N
    /\ forall k : nat,
         Z.of_nat k < N ->
         exists b : BaseCotizacion,
           nth_error ventana k = Some b
           /\ mes_anyo b = strftime (inicio - Z.of_nat k)
           /\ registro_del_mes self (construir_bases_dict (bases self ++ simuladas))
                (inicio - Z.of_nat k)
                (lagunas_previas (construir_bases_dict (bases self ++ simuladas)) inicio k)
                b.
Proof.
  intros N inicio Hne Hhi HN Hlo Hfechas Htopes.
  destruct (simular_periodo_futuro_total self Hne Hfechas Hhi) as (simuladas & Hsim & _).
  exists simuladas.
  unfold obtener_bases_periodo_computo. rewrite Hsim. cbn [bind].
  rewrite relativedelta_Ok by (subst inicio; lia). cbn [bind].
  fold N.
  set (bases_dict := construir_bases_dict (bases self ++ simuladas)).
  destruct (bucle_periodo_spec self bases_dict Htopes (Z.to_nat N)
              (fecha_jubilacion self + -1) 0 [])
    as (w & Hw & Hlen & Hk); [subst inicio; lia | lia |].
  exists w. split; [reflexivity|]. split; [exact Hw|]. split; [exact Hlen|].
  intros k Hlt. destruct (Hk k) as (b & Hb & Hreg); [lia|].
  replace (fecha_jubilacion self + -1) with inicio in Hreg by (subst inicio; lia).
  rewrite Z.add_0_l in Hreg.
  exists b. split; [exact Hb|]. split; [|exact Hreg].
  eapply registro_del_mes_clave, Hreg.
Qed.

(** C2: for a simulator built by the constructor and for each of the two
    calculations (reform, with the number of bases of the parameters of the
    retirement year; pre-reform, with 300), the period of computation holds
    exactly that number of records; the record at position [k] is that of the
    month [k + 1] months before the retirement, so the months are contiguous,
    end one month before the retirement and none is repeated or missing; the
    ordinal of a gap counts the gaps of this walk only, from 1. *)
Theorem C2_period_window (config : ConfigManager) (be : bases_extraidas)
    (fj ra sx : string) (self : SimuladorPeriodos) (usar_parametros_antiguos : bool) :
  __init__ config be fj ra sx = Ok self ->
  let N := if usar_parametros_antiguos then 300
           else bases_incluidas (parametros_año_jubilacion self) in
  let inicio := fecha_jubilacion self - 1 in
  0 <= N ->
  12 <= inicio - N ->
  Forall (fun b => exists d, strptime (mes_anyo b) = Ok d /\ 17 <= d) (bases self) ->
  regimen_acceso self = "AUTONOMO" \/ topes_cotizacion self <> [] ->
  exists simuladas ventana : list BaseCotizacion,
    simular_periodo_futuro self = Ok simuladas
    /\ obtener_bases_periodo_computo self usar_parametros_antiguos = Ok ventana
    /\ Z.of_nat (length ventana) = N
    /\ List.NoDup (map mes_anyo ventana)
    /\ forall k : nat,
         Z.of_nat k < N ->
         exists b : BaseCotizacion,
           nth_error ventana k = Some b
           /\ mes_anyo b = strftime (inicio - Z.of_nat k)
           /\ strptime (mes_anyo b) = Ok (inicio - Z.of_nat k)
           /\ let bases_dict := construir_bases_dict (bases self ++ simuladas) in
              registro_del_mes self bases_dict (inicio - Z.of_nat k)
                (lagunas_previas bases_dict inicio k) b.
Proof.
  intros Hinit N inicio HN Hlo Hfechas Htopes.
  destruct (__init___spec _ _ _ _ _ _ Hinit)
    as (_ & _ & _ & _ & Hfj & _ & _ & _ & Hne & _ & _).
  apply strptime_en_rango, en_rango_spec in Hfj.
  destruct (obtener_bases_periodo_computo_spec self usar_parametros_antiguos)
    as (simuladas & w & Hsim & Hw & Hlen & Hmes);
    [exact Hne | lia | exact HN | exact Hlo | exact Hfechas | exact Htopes |].
  fold N inicio in Hlen, Hmes.
  exists simuladas, w. split; [exact Hsim|]. split; [exact Hw|].
  split; [lia|].
  split.
  - apply NoDup_nth_error. intros i j Hi E.
    rewrite length_map in Hi.
    destruct (Hmes i) as (bi & Hbi & Hmi & _); [lia|].
    rewrite !nth_error_map, Hbi in E. simpl in E.
    destruct (nth_error w j) as [bj|] eqn:Ej; [|discriminate].
    assert (Hj : (j < length w)%nat) by (apply nth_error_Some; congruence).
    destruct (Hmes j) as (bj' & Hbj & Hmj & _); [lia|].
    rewrite Ej in Hbj. injection Hbj as <-.
    simpl in E. injection E as E. rewrite Hmi, Hmj in E.
    apply strftime_inj in E; [lia | |]; apply en_rango_spec; subst inicio; lia.
  - intros k Hlt. destruct (Hmes k Hlt) as (b & Hb & Hm & Hreg).
    exists b. split; [exact Hb|]. split; [exact Hm|]. split; [|exact Hreg].
    rewrite Hm. apply strptime_strftime, en_rango_spec. subst inicio. lia.
Qed.

(** The sample data under the reform parameters: 300 months. *)
Lemma C2_period_window_witness :
  exists simuladas ventana : list BaseCotizacion,
    simular_periodo_futuro simulador_ejemplo = Ok simuladas
    /\ obtener_bases_periodo_computo simulador_ejemplo false = Ok ventana
    /\ Z.of_nat (length ventana) = 300.
Proof.
  destruct (C2_period_window config_ejemplo bases_ejemplo "06/2025" "GENERAL" "MASCULINO"
              simulador_ejemplo false)
    as (simuladas & ventana & Hs & Hv & Hl & _).
  - vm_compute. reflexivity.
  - vm_compute. discriminate.
  - vm_compute. discriminate.
  - repeat constructor; eexists; (split; [reflexivity | vm_compute; discriminate]).
  - right. vm_compute. discriminate.
  - exists simuladas, ventana. split; [exact Hs|]. split; [exact Hv | exact Hl].
Defined.

Lemma relativedelta_inv (d k r : Z) :
  relativedelta d k = Ok r -> r = d + k /\ 12 <= d + k < 120000.
Proof.
  unfold relativedelta. destruct (en_rango (d + k)) eqn:E; [|discriminate].
  intros [= <-]. split; [reflexivity|]. apply en_rango_spec, E.
Qed.

Lemma construir_bases_dict_In (l : list BaseCotizacion) (k : string) (b : BaseCotizacion) :
  construir_bases_dict l !! k = Some b -> In b l.
Proof.
  unfold construir_bases_dict.
  assert (G : forall (d : gmap string BaseCotizacion) k b,
             fold_left (fun d b => <[mes_anyo b := b]> d) l d !! k = Some b ->
             In b l \/ d !! k = Some b).
  { induction l as [|x r IH]; intros d k' b' H; simpl in H; [now right|].
    destruct (IH _ _ _ H) as [Hin|Hd]; [left; now right|].
    destruct (decide (mes_anyo x = k')) as [<-|Hne].
    - rewrite lookup_insert_eq in Hd. injection Hd as <-. left; now left.
    - rewrite lookup_insert_ne in Hd by exact Hne. now right. }
  intros H. destruct (G _ _ _ H) as [Hin|Hd]; [exact Hin|].
  rewrite lookup_empty in Hd. discriminate.
Qed.

(** What every period of computation that the walk returns satisfies: as
    many records as months asked for, each with a well-formed month-year not
    later than the first month of the walk, and with a two-decimal amount
    when the records at hand have one. *)
Lemma bucle_periodo_inv (self : SimuladorPeriodos) (l : list BaseCotizacion) :
  forall (faltan : nat) (fecha_actual contador : Z) (acc r : list BaseCotizacion),
    12 <= fecha_actual < 120000 ->
    bucle_periodo self (construir_bases_dict l) faltan fecha_actual contador acc = Ok r ->
    exists w : list BaseCotizacion,
      r = acc ++ w
      /\ length w = faltan
      /\ Forall (fun b =>
                   (exists d, strptime (mes_anyo b) = Ok d /\ d <= fecha_actual)
                   /\ (Forall (fun b => dos_decimales (base b)) l ->
                       dos_decimales (base b))) w.
Proof.
  induction faltan as [|n IH]; intros f c acc r Hf H.
  - injection H as <-. exists []. rewrite app_nil_r. repeat split; constructor.
  - cbn [bucle_periodo] in H.
    assert (Hparse : strptime (strftime f) = Ok f)
      by (apply strptime_strftime, en_rango_spec, Hf).
    inv_bind H as paso Hpaso. inv_bind H as anterior Hant.
    apply relativedelta_inv in Hant. destruct Hant as [-> Hr].
    destruct (IH _ _ _ _ Hr H) as (w & -> & Hlen & Hall).
    assert (Hw : Forall (fun b =>
                   (exists d, strptime (mes_anyo b) = Ok d /\ d <= f)
                   /\ (Forall (fun b => dos_decimales (base b)) l ->
                       dos_decimales (base b))) w).
    { eapply Forall_impl; [exact Hall|]. intros b [(d & Hd & Hle) H2].
      split; [exists d; split; [exact Hd | lia] | exact H2]. }
    destruct (construir_bases_dict l !! strftime f) as [b0|] eqn:Ed.
    + injection Hpaso as <-. cbn [fst snd] in *.
      exists (b0 :: w). rewrite <- app_assoc. split; [reflexivity|].
      split; [simpl; congruence|]. constructor; [|exact Hw].
      split.
      * exists f. rewrite (construir_bases_dict_clave _ _ _ Ed). split; [exact Hparse | lia].
      * intros H2. rewrite Forall_forall in H2.
        apply H2, list_elem_of_In. eapply construir_bases_dict_In, Ed.
    + inv_bind Hpaso as a Ha. injection Hpaso as <-. cbn [fst snd] in *.
      eexists (_ :: w). rewrite <- app_assoc. split; [reflexivity|].
      split; [simpl; congruence|]. constructor; [|exact Hw].
      split.
      * exists f. split; [exact Hparse | lia].
      * intros _. apply round2_dos_decimales.
Qed.

Lemma bucle_simulacion_dos_decimales (self : SimuladorPeriodos) (promedio : Q) :
  forall (pasos : nat) (fecha_actual limite : Z) (acc r : list BaseCotizacion),
    bucle_simulacion self promedio pasos fecha_actual limite acc = Ok r ->
    Forall (fun b => dos_decimales (base b)) acc ->
    Forall (fun b => dos_decimales (base b)) r.
Proof.
  induction pasos as [|n IH]; intros f lim acc r H Hacc; simpl in H.
  - injection H as <-. exact Hacc.
  - destruct (f <=? lim); [|injection H as <-; exact Hacc].
    inv_bind H as sig Hsig. eapply IH; [exact H|].
    apply Forall_app. split; [exact Hacc|].
    constructor; [apply round2_dos_decimales | constructor].
Qed.

Lemma simular_periodo_futuro_dos_decimales (self : SimuladorPeriodos)
    (simuladas : list BaseCotizacion) :
  simular_periodo_futuro self = Ok simuladas ->
  Forall (fun b => dos_decimales (base b)) simuladas.
Proof.
  unfold simular_periodo_futuro.
  destruct (bases self) as [|b0 r0]; [intros [= <-]; constructor|].
  intros H. inv_bind H as claves Hc. inv_bind H as ultima Hu.
  inv_bind H as fecha Hf.
  destruct (fecha_jubilacion self <=? fecha); [injection H as <-; constructor|].
  inv_bind H as recientes Hr. inv_bind H as actual Ha. inv_bind H as limite Hl.
  eapply bucle_simulacion_dos_decimales; [exact H | constructor].
Qed.

(** The records of every period of computation that the simulator returns. *)
Lemma obtener_bases_periodo_computo_inv (self : SimuladorPeriodos) (usar : bool)
    (ventana : list BaseCotizacion) :
  obtener_bases_periodo_computo self usar = Ok ventana ->
  length ventana
  = Z.to_nat (if usar then 300 else bases_incluidas (parametros_año_jubilacion self))
  /\ fecha_jubilacion self <= 120000
  /\ Forall (fun b =>
               (exists d, strptime (mes_anyo b) = Ok d /\ d < fecha_jubilacion self)
               /\ (Forall (fun b => dos_decimales (base b)) (bases self) ->
                   dos_decimales (base b))) ventana.
Proof.
  unfold obtener_bases_periodo_computo. intros H.
  inv_bind H as simuladas Hs. inv_bind H as inicio Hi.
  apply relativedelta_inv in Hi. destruct Hi as [-> Hr].
  apply bucle_periodo_inv in H; [|exact Hr].
  destruct H as (w & -> & Hlen & Hall). cbn [app].
  split; [exact Hlen|]. split; [lia|].
  eapply Forall_impl; [exact Hall|]. intros b [(d & Hd & Hle) H2].
  split; [exists d; split; [exact Hd | lia]|].
  intros Hb. apply H2, Forall_app. split; [exact Hb|].
  eapply simular_periodo_futuro_dos_decimales, Hs.
Qed.

(** ** Statistics *)

Lemma filter_periodo_length (l : list base_dict) :
  Forall base_procesada l ->
  length l
  = (length (List.filter (es_periodo "revalorizado") l)
     + length (List.filter (es_periodo "no_revalorizado") l))%nat.
Proof.
  induction 1 as [|r l [_ Hp] _ IH]; [reflexivity|]. simpl.
  assert (E : (es_periodo "revalorizado" r = true
               /\ es_periodo "no_revalorizado" r = false)
              \/ (es_periodo "revalorizado" r = false
                  /\ es_periodo "no_revalorizado" r = true)).
  { unfold es_periodo. destruct Hp as [-> | ->]; [left | right]; split; reflexivity. }
  destruct E as [[-> ->] | [-> ->]]; simpl; lia.
Qed.

Lemma suma_filtro_dos_decimales (p : string) (l : list base_dict) :
  Forall base_procesada l ->
  dos_decimales (py_sum (map base_p (List.filter (es_periodo p) l))).
Proof.
  intros H. apply py_sum_dos_decimales, Forall_map, Forall_forall.
  intros r Hr. apply list_elem_of_In, filter_In in Hr. destruct Hr as [Hr _].
  rewrite Forall_forall in H. apply (H r), list_elem_of_In, Hr.
Qed.

(** The statistics of a non-empty list of processed bases. *)
Lemma _calcular_estadisticas_para_bases_inv (self : SimuladorPeriodos)
    (l : list base_dict) (divisor : Q) (est : option estadisticas) :
  _calcular_estadisticas_para_bases self l divisor = Ok est ->
  l <> [] ->
  Forall base_procesada l ->
  exists e : estadisticas, est = Some e /\ estadisticas_coherentes divisor e.
Proof.
  intros H Hne Hl. unfold _calcular_estadisticas_para_bases in H.
  destruct l as [|r0 l0] eqn:El; [congruence|]. rewrite <- El in *.
  destruct (Qeq_bool divisor 0); [discriminate|].
  injection H as <-. eexists. split; [reflexivity|].
  pose proof (suma_filtro_dos_decimales "revalorizado" l Hl) as Da.
  pose proof (suma_filtro_dos_decimales "no_revalorizado" l Hl) as Db.
  set (a := py_sum (map base_p (List.filter (es_periodo "revalorizado") l))) in *.
  set (b := py_sum (map base_p (List.filter (es_periodo "no_revalorizado") l))) in *.
  unfold estadisticas_coherentes. cbn.
  assert (Dab : dos_decimales (a + b)) by (apply dos_decimales_plus; assumption).
  split; [|split].
  - rewrite !round2_id by assumption. reflexivity.
  - apply filter_periodo_length, Hl.
  - apply round2_comp. rewrite (round2_id _ Dab). reflexivity.
Qed.

Lemma _calcular_estadisticas_para_bases_total (self : SimuladorPeriodos)
    (l : list base_dict) (divisor : Q) :
  ~ (divisor == 0)%Q ->
  exists est, _calcular_estadisticas_para_bases self l divisor = Ok est.
Proof.
  intros Hd. unfold _calcular_estadisticas_para_bases.
  destruct l; [eauto|].
  destruct (Qeq_bool divisor 0) eqn:E; [|eauto].
  apply Qeq_bool_iff in E. contradiction.
Qed.

(** Classifying and revaluing two-decimal bases gives processed bases. *)
Lemma revalorizar_bases_procesadas (self : SimuladorPeriodos)
    (ventana : list BaseCotizacion) (con_periodo : list base_dict) :
  Forall (fun b => dos_decimales (base b)) ventana ->
  añadir_periodo self ventana = Ok con_periodo ->
  Forall base_procesada (revalorizar_bases self con_periodo)
  /\ length (revalorizar_bases self con_periodo) = length ventana.
Proof.
  intros Hv H. unfold añadir_periodo in H. inv_bind H as limite Hl.
  pose proof (mapM_length _ _ _ H) as Hlen.
  apply mapM_Forall2 in H. unfold revalorizar_bases.
  split; [|rewrite length_map; exact Hlen].
  clear Hlen. apply Forall_map.
  induction H as [|b r l l' Hb _ IH]; [constructor|].
  apply Forall_cons_1 in Hv. destruct Hv as [Hb2 Hv].
  constructor; [|apply IH, Hv].
  inv_bind Hb as d Hd. injection Hb as <-.
  unfold revalorizar_base, base_procesada. cbn [periodo mes_anyo_p base_p].
  destruct (limite <=? d); cbn.
  - split; [exact Hb2 | now right].
  - destruct (indices_revalorizacion self !! mes_anyo b); cbn;
      (split; [|now left]); [apply round2_dos_decimales | exact Hb2].
Qed.

(** The processed bases of either calculation. *)
Lemma calculo_procesadas (self : SimuladorPeriodos) (usar : bool)
    (ventana : list BaseCotizacion) (con_periodo ordenadas : list base_dict) :
  Forall (fun b => dos_decimales (base b)) (bases self) ->
  obtener_bases_periodo_computo self usar = Ok ventana ->
  añadir_periodo self ventana = Ok con_periodo ->
  ordenar_por_fecha mes_anyo_p (revalorizar_bases self con_periodo) = Ok ordenadas ->
  Forall base_procesada ordenadas
  /\ length ordenadas
     = Z.to_nat (if usar then 300 else bases_incluidas (parametros_año_jubilacion self)).
Proof.
  intros Hb Hv Hc Ho.
  destruct (obtener_bases_periodo_computo_inv _ _ _ Hv) as (Hlen & _ & Hall).
  destruct (revalorizar_bases_procesadas self ventana con_periodo) as [Hp Hl].
  { eapply Forall_impl; [exact Hall|]. intros b [_ H2]. exact (H2 Hb). }
  { exact Hc. }
  destruct (ordenar_por_fecha_perm _ _ _ Ho) as [Hperm _].
  split.
  - rewrite Hperm. exact Hp.
  - rewrite (Permutation_length Hperm), Hl. exact Hlen.
Qed.

(** ** Validation of the input *)

Lemma agrupar_bases_negativa (l : list base_data) (g : list (string * list base_data)) :
  Exists (fun dato => (base_d dato < 0)%Q) l ->
  exists dato : base_data,
    In dato l
    /\ (base_d dato < 0)%Q
    /\ agrupar_bases l g
       = Err (ValueError (ErrorProcesandoBase dato (BaseNegativaEncontrada (base_d dato)))).
Proof.
  revert g; induction l as [|x r IH]; intros g H; [inversion H|].
  simpl. destruct (Qlt_bool (base_d x) 0) eqn:E.
  - apply Qlt_bool_iff in E. exists x. split; [now left|]. split; [exact E | reflexivity].
  - apply Qlt_bool_false in E. inversion H as [? ? Hx | ? ? Hr]; subst; [lra|].
    destruct (IH (agrupar_base g x) Hr) as (d & Hin & Hneg & Herr).
    exists d. split; [now right|]. split; [exact Hneg | exact Herr].
Qed.

(** The validations that the constructor does make fail at once, for every
    input: an empty list of bases, a malformed retirement date, an access
    regime other than GENERAL and AUTONOMO, a negative amount. *)
Lemma validaciones_de_entrada (config : ConfigManager) (fj ra sx : string) :
  __init__ config (Bases []) fj ra sx = Err (ValueError ListaBasesVacia)
  /\ __init__ config NoEsDict fj ra sx = Err (ValueError DebeSerDiccionario)
  /\ (forall (x : base_data) (r : list base_data) (e : excepcion),
        strptime fj = Err e ->
        __init__ config (Bases (x :: r)) fj ra sx
        = Err (ValueError (FormatoFechaInvalido fj)))
  /\ (forall (x : base_data) (r : list base_data) (d : Z),
        strptime fj = Ok d ->
        en_lista (upper ra) ["GENERAL"; "AUTONOMO"] = false ->
        __init__ config (Bases (x :: r)) fj ra sx
        = Err (ValueError (RegimenInvalido (upper ra))))
  /\ (forall (x : base_data) (r : list base_data) (d : Z),
        strptime fj = Ok d ->
        en_lista (upper ra) ["GENERAL"; "AUTONOMO"] = true ->
        Exists (fun dato => (base_d dato < 0)%Q) (x :: r) ->
        exists dato : base_data,
          In dato (x :: r)
          /\ __init__ config (Bases (x :: r)) fj ra sx
             = Err (ValueError (ErrorProcesandoBase dato
                                  (BaseNegativaEncontrada (base_d dato))))).
Proof.
  split; [reflexivity|]. split; [reflexivity|]. split; [|split].
  - intros x r e He. unfold __init__, _validar_datos_entrada. rewrite He. reflexivity.
  - intros x r d Hd Hr. unfold __init__, _validar_datos_entrada.
    rewrite Hd. cbn [regimen_acceso]. rewrite Hr. reflexivity.
  - intros x r d Hd Hr Hneg.
    destruct (agrupar_bases_negativa (x :: r) [] Hneg) as (dato & Hin & _ & Herr).
    exists dato. split; [exact Hin|].
    unfold __init__, _validar_datos_entrada, _procesar_fecha_jubilacion.
    rewrite Hd. cbn [regimen_acceso]. rewrite Hr. cbn [negb bind].
    unfold _procesar_bases_extraidas. cbn [bases_de bind]. rewrite Herr. reflexivity.
Qed.

(** C8: the value of [sexo] is not validated.  With the sample data and the
    sex "OTRO" the constructor returns a simulator, whose gaps are then
    imputed as those of a man without special conditions, whereas an empty
    list, a malformed date, an unknown regime and a negative amount are
    rejected. *)
Theorem C8_invalid_sex_accepted :
  (exists self : SimuladorPeriodos,
     __init__ config_ejemplo bases_ejemplo "06/2025" "GENERAL" "OTRO" = Ok self
     /\ sexo self = "OTRO"
     /\ calcular_base_laguna self "06/2024" 49 = Ok (round2 ((5 # 10) * 1080)))
  /\ __init__ config_ejemplo (Bases []) "06/2025" "GENERAL" "MASCULINO"
     = Err (ValueError ListaBasesVacia)
  /\ __init__ config_ejemplo bases_ejemplo "2025/06" "GENERAL" "MASCULINO"
     = Err (ValueError (FormatoFechaInvalido "2025/06"))
  /\ __init__ config_ejemplo bases_ejemplo "06/2025" "INVALIDO" "MASCULINO"
     = Err (ValueError (RegimenInvalido "INVALIDO"))
  /\ (exists dato : base_data,
        __init__ config_ejemplo bases_negativas "06/2025" "GENERAL" "MASCULINO"
        = Err (ValueError (ErrorProcesandoBase dato (BaseNegativaEncontrada (-100))))).
Proof.
  split.
  { eexists. split; [vm_compute; reflexivity|]. split; reflexivity. }
  split; [reflexivity|]. split; [reflexivity|]. split; [reflexivity|].
  eexists. reflexivity.
Qed.

(** The sex has no part in the outcome of the constructor: when it returns
    a simulator for one value of [sexo], it does for every other. *)
Lemma __init___sexo (config : ConfigManager) (be : bases_extraidas)
    (fj ra sx sx' : string) (self : SimuladorPeriodos) :
  __init__ config be fj ra sx = Ok self ->
  exists self' : SimuladorPeriodos,
    __init__ config be fj ra sx' = Ok self'
    /\ sexo self' = upper sx'
    /\ bases self' = bases self
    /\ fecha_jubilacion self' = fecha_jubilacion self.
Proof.
  unfold __init__. intros H.
  inv_bind H as u Hval. inv_bind H as fecha Hfecha.
  inv_bind H as bs Hbs. inv_bind H as ps Hps. injection H as <-.
  unfold _validar_datos_entrada in *. cbn [regimen_acceso] in *.
  rewrite Hval. cbn [bind]. rewrite Hfecha. cbn [bind].
  unfold _procesar_bases_extraidas in *.
  inv_bind Hbs as lista Hl. rewrite Hl. cbn [bind].
  inv_bind Hbs as grupos Hg. rewrite Hg. cbn [bind].
  inv_bind Hbs as procesadas Hp.
  assert (Hp' : forall s1 s2 : SimuladorPeriodos,
             topes_cotizacion s1 = topes_cotizacion s2 ->
             forall g, mapM (procesar_mes s1) g = mapM (procesar_mes s2) g).
  { intros s1 s2 Ht g. induction g as [|[m l] g IH]; [reflexivity|].
    cbn [mapM]. rewrite IH. f_equal.
    unfold procesar_mes, _agregar_bases_mes, _obtener_base_minima_año,
      _obtener_topes_año, _validar_coherencia_pluriactividad.
    rewrite Ht. reflexivity. }
  erewrite Hp'; [rewrite Hp|reflexivity]. cbn [bind]. rewrite Hbs. cbn [bind].
  unfold get_parametros_computo in *.
  cbn [fecha_jubilacion parametros_computo] in *.
  rewrite Hps. cbn [bind]. eexists. split; [reflexivity|].
  repeat split.
Qed.

(** ** The fallback to the nearest year *)

Lemma py_min_fold {A} (key : A -> Z) (r : list A) (b : A) :
  let x := fold_left (fun best y => if key y <? key best then y else best) r b in
  key x <= key b /\ Forall (fun y => key x <= key y) r.
Proof.
  revert b; induction r as [|y r IH]; intros b; simpl.
  - split; [lia | constructor].
  - destruct (key y <? key b) eqn:E.
    + apply Z.ltb_lt in E. destruct (IH y) as [Hle Hall].
      split; [lia|]. constructor; assumption.
    + apply Z.ltb_ge in E. destruct (IH b) as [Hle Hall].
      split; [assumption|]. constructor; [lia | assumption].
Qed.

(** [min(l, key=key)] returns an element of [l] whose key is the smallest. *)
Lemma py_min_spec {A} (key : A -> Z) (l : list A) (x : A) :
  py_min key l = Ok x -> In x l /\ Forall (fun y => key x <= key y) l.
Proof.
  intros H. split; [eapply py_min_In, H|].
  destruct l as [|b r]; simpl in H; [discriminate|]. injection H as <-.
  destruct (py_min_fold key r b) as [Hle Hall]. constructor; assumption.
Qed.

Lemma insertar_perm (x : Z) (l : list Z) : Permutation (insertar x l) (x :: l).
Proof.
  induction l as [|y r IH]; simpl; [reflexivity|].
  destruct (x <=? y); [reflexivity|]. rewrite IH. apply perm_swap.
Qed.

Lemma sorted_perm (l : list Z) : Permutation (sorted l) l.
Proof.
  induction l as [|x r IH]; simpl; [reflexivity|].
  unfold sorted in *. simpl. rewrite insertar_perm, IH. reflexivity.
Qed.

(** C9: a year that a table which is not empty does not have never makes
    the lookup fail: the caps, and the parameters of computation, are those
    of a year of the table at the smallest absolute distance. *)
Theorem C9_nearest_year_fallback (self : SimuladorPeriodos) (año : Z) :
  (topes_cotizacion self <> [] ->
   dict_get (topes_cotizacion self) año = None ->
   exists (cercano : Z) (t : topes),
     _obtener_topes_año self año = Ok t
     /\ _obtener_base_minima_año self año = Ok (base_minima_mensual t)
     /\ dict_get (topes_cotizacion self) cercano = Some t
     /\ In cercano (keys (topes_cotizacion self))
     /\ Forall (fun k => Z.abs (cercano - año) <= Z.abs (k - año))
          (keys (topes_cotizacion self)))
  /\ (parametros_computo self <> [] ->
      dict_get (parametros_computo self) (year (fecha_jubilacion self)) = None ->
      exists (cercano : Z) (p : parametros),
        get_parametros_computo self = Ok p
        /\ dict_get (parametros_computo self) cercano = Some p
        /\ In cercano (keys (parametros_computo self))
        /\ Forall (fun k => Z.abs (cercano - year (fecha_jubilacion self))
                            <= Z.abs (k - year (fecha_jubilacion self)))
             (keys (parametros_computo self))).
Proof.
  split.
  - intros Hne Hnone. unfold _obtener_base_minima_año, _obtener_topes_año.
    rewrite Hnone.
    destruct (py_min (fun x => Z.abs (x - año)) (keys (topes_cotizacion self)))
      as [c|e] eqn:E.
    + destruct (py_min_spec _ _ _ E) as [Hin Hmin].
      destruct (dict_get_keys _ _ Hin) as [t Ht].
      exists c, t. cbn [bind]. unfold getitem. rewrite Ht. cbn [bind].
      repeat split; assumption.
    + unfold keys in E. destruct (topes_cotizacion self); [congruence | discriminate].
  - intros Hne Hnone. unfold get_parametros_computo. rewrite Hnone.
    set (año_j := year (fecha_jubilacion self)) in *.
    destruct (py_min (fun x => Z.abs (x - año_j)) (sorted (keys (parametros_computo self))))
      as [c|e] eqn:E.
    + destruct (py_min_spec _ _ _ E) as [Hin Hmin].
      rewrite (sorted_perm (keys (parametros_computo self))) in Hmin.
      apply (Permutation_in _ (sorted_perm _)) in Hin.
      destruct (dict_get_keys _ _ Hin) as [p Hp].
      exists c, p. cbn [bind]. unfold getitem. rewrite Hp. cbn [bind].
      split; [destruct p; reflexivity|]. repeat split; assumption.
    + assert (Hs : sorted (keys (parametros_computo self)) = []).
      { destruct (sorted (keys (parametros_computo self))); [reflexivity | discriminate]. }
      pose proof (sorted_perm (keys (parametros_computo self))) as P.
      rewrite Hs in P. apply Permutation_nil in P.
      unfold keys in P. destruct (parametros_computo self); [congruence | discriminate].
Qed.

(** The sample tables hold the year 2025 only: the caps of 2024 and the
    parameters of a retirement in 2026 are those of 2025. *)
Lemma C9_nearest_year_fallback_witness :
  (exists t : topes,
     _obtener_topes_año simulador_2026 2024 = Ok t
     /\ dict_get (topes_cotizacion simulador_2026) 2025 = Some t)
  /\ (exists p : parametros,
        get_parametros_computo simulador_2026 = Ok p
        /\ dict_get (parametros_computo simulador_2026) 2025 = Some p).
Proof.
  destruct (C9_nearest_year_fallback simulador_2026 2024) as [Ht Hp].
  split.
  - destruct Ht as (c & t & H1 & _ & H2 & Hin & _).
    + vm_compute. discriminate.
    + reflexivity.
    + exists t. split; [exact H1|].
      vm_compute in Hin. destruct Hin as [<-|[]]. exact H2.
  - destruct Hp as (c & p & H1 & H2 & Hin & _).
    + vm_compute. discriminate.
    + reflexivity.
    + exists p. split; [exact H1|].
      vm_compute in Hin. destruct Hin as [<-|[]]. exact H2.
Defined.

(** ** The order of the processed bases *)

Lemma Forall2_nth_error_r {A B} (R : A -> B -> Prop) (l : list A) (l' : list B) :
  Forall2 R l l' ->
  forall (k : nat) (y : B),
    nth_error l' k = Some y -> exists x, nth_error l k = Some x /\ R x y.
Proof.
  induction 1 as [|x y l l' Hxy _ IH]; intros k z Hz.
  - destruct k; discriminate.
  - destruct k as [|k]; simpl in *.
    + injection Hz as <-. eauto.
    + eauto.
Qed.

(** The month of every record of the walk, by its position. *)
Lemma bucle_periodo_fechas (self : SimuladorPeriodos) (l : list BaseCotizacion) :
  forall (faltan : nat) (fecha_actual contador : Z) (acc r : list BaseCotizacion),
    12 <= fecha_actual < 120000 ->
    bucle_periodo self (construir_bases_dict l) faltan fecha_actual contador acc = Ok r ->
    exists w : list BaseCotizacion,
      r = acc ++ w
      /\ forall (k : nat) (b : BaseCotizacion),
           nth_error w k = Some b ->
           strptime (mes_anyo b) = Ok (fecha_actual - Z.of_nat k).
Proof.
  induction faltan as [|n IH]; intros f c acc r Hf H.
  - injection H as <-. exists []. rewrite app_nil_r. split; [reflexivity|].
    intros [|k] b Hb; discriminate.
  - cbn [bucle_periodo] in H.
    assert (Hparse : strptime (strftime f) = Ok f)
      by (apply strptime_strftime, en_rango_spec, Hf).
    inv_bind H as paso Hpaso. inv_bind H as anterior Hant.
    apply relativedelta_inv in Hant. destruct Hant as [-> Hr].
    destruct (IH _ _ _ _ Hr H) as (w & -> & Hw).
    assert (Hpaso' : exists b0, fst paso = acc ++ [b0] /\ strptime (mes_anyo b0) = Ok f).
    { destruct (construir_bases_dict l !! strftime f) as [b0|] eqn:Ed.
      - injection Hpaso as <-. exists b0. split; [reflexivity|].
        rewrite (construir_bases_dict_clave _ _ _ Ed). exact Hparse.
      - inv_bind Hpaso as a Ha. injection Hpaso as <-.
        eexists. split; [reflexivity | exact Hparse]. }
    destruct Hpaso' as (b0 & -> & Hb0).
    exists (b0 :: w). rewrite <- app_assoc. split; [reflexivity|].
    intros [|k] b Hb; simpl in Hb.
    + injection Hb as <-. rewrite Z.sub_0_r. exact Hb0.
    + rewrite (Hw _ _ Hb). f_equal; lia.
Qed.

Lemma obtener_bases_periodo_computo_fechas (self : SimuladorPeriodos) (usar : bool)
    (ventana : list BaseCotizacion) :
  obtener_bases_periodo_computo self usar = Ok ventana ->
  forall (k : nat) (b : BaseCotizacion),
    nth_error ventana k = Some b ->
    strptime (mes_anyo b) = Ok (fecha_jubilacion self - 1 - Z.of_nat k).
Proof.
  unfold obtener_bases_periodo_computo. intros H.
  inv_bind H as simuladas Hs. inv_bind H as inicio Hi.
  apply relativedelta_inv in Hi. destruct Hi as [-> Hr].
  apply bucle_periodo_fechas in H; [|exact Hr].
  destruct H as (w & -> & Hw). cbn [app]. intros k b Hb.
  rewrite (Hw _ _ Hb). f_equal; lia.
Qed.

Lemma revalorizar_bases_fechas (self : SimuladorPeriodos) (ventana : list BaseCotizacion)
    (con_periodo : list base_dict) :
  añadir_periodo self ventana = Ok con_periodo ->
  forall (k : nat) (x : base_dict),
    nth_error (revalorizar_bases self con_periodo) k = Some x ->
    exists b : BaseCotizacion, nth_error ventana k = Some b /\ mes_anyo_p x = mes_anyo b.
Proof.
  intros H k x Hx. unfold añadir_periodo in H. inv_bind H as limite Hl.
  apply mapM_Forall2 in H. unfold revalorizar_bases in Hx.
  rewrite nth_error_map in Hx.
  destruct (nth_error con_periodo k) as [y|] eqn:Ey; [|discriminate].
  injection Hx as <-.
  destruct (Forall2_nth_error_r _ _ _ H _ _ Ey) as (b & Hb & Hy).
  exists b. split; [exact Hb|].
  inv_bind Hy as d Hd. injection Hy as <-.
  unfold revalorizar_base. cbn [periodo mes_anyo_p].
  destruct (String.eqb _ _); [|reflexivity].
  destruct (indices_revalorizacion self !! mes_anyo b); reflexivity.
Qed.

(** Sorting in descending order a list whose keys already descend by one
    leaves it as it is. *)
Lemma sort_reverse_descendente {A} (l : list (Z * A)) (inicio : Z) :
  (forall (k : nat) (x : Z * A), nth_error l k = Some x -> fst x = inicio - Z.of_nat k) ->
  sort_reverse l = l.
Proof.
  revert inicio; induction l as [|x r IH]; intros f H; [reflexivity|].
  unfold sort_reverse in *. simpl.
  rewrite (IH (f - 1)).
  - destruct r as [|y r']; [reflexivity|]. simpl.
    pose proof (H 0%nat x eq_refl) as Hx. pose proof (H 1%nat y eq_refl) as Hy.
    replace (fst y <=? fst x) with true by (symmetry; apply Z.leb_le; lia).
    reflexivity.
  - intros k z Hz. rewrite (H (S k) z Hz). lia.
Qed.

Lemma ordenar_por_fecha_descendente {A} (mes : A -> string) (l l' : list A) (inicio : Z) :
  (forall (k : nat) (x : A), nth_error l k = Some x ->
                             strptime (mes x) = Ok (inicio - Z.of_nat k)) ->
  ordenar_por_fecha mes l = Ok l' -> l' = l.
Proof.
  intros Hl H. unfold ordenar_por_fecha in H. inv_bind H as claves Hc.
  injection H as <-.
  destruct (mapM_con_clave _ _ _ Hc) as [Hsnd Hkeys].
  rewrite (sort_reverse_descendente claves inicio); [exact Hsnd|].
  intros k kb Hkb.
  assert (Hx : nth_error l k = Some (snd kb)).
  { rewrite <- Hsnd, nth_error_map, Hkb. reflexivity. }
  apply Hl in Hx. rewrite Forall_forall in Hkeys.
  assert (Hin : In kb claves) by (eapply nth_error_In, Hkb).
  apply list_elem_of_In, Hkeys in Hin. rewrite Hin in Hx. injection Hx as ->.
  reflexivity.
Qed.

(** The processed bases of either calculation, by position. *)
Lemma calculo_fechas (self : SimuladorPeriodos) (usar : bool)
    (ventana : list BaseCotizacion) (con_periodo ordenadas : list base_dict) :
  obtener_bases_periodo_computo self usar = Ok ventana ->
  añadir_periodo self ventana = Ok con_periodo ->
  ordenar_por_fecha mes_anyo_p (revalorizar_bases self con_periodo) = Ok ordenadas ->
  ordenadas = revalorizar_bases self con_periodo
  /\ forall (k : nat) (x : base_dict),
       nth_error ordenadas k = Some x ->
       strptime (mes_anyo_p x) = Ok (fecha_jubilacion self - 1 - Z.of_nat k).
Proof.
  intros Hv Hc Ho.
  assert (H : forall (k : nat) (x : base_dict),
             nth_error (revalorizar_bases self con_periodo) k = Some x ->
             strptime (mes_anyo_p x) = Ok (fecha_jubilacion self - 1 - Z.of_nat k)).
  { intros k x Hx.
    destruct (revalorizar_bases_fechas _ _ _ Hc _ _ Hx) as (b & Hb & ->).
    eapply obtener_bases_periodo_computo_fechas; eassumption. }
  apply (ordenar_por_fecha_descendente _ _ _ _ H) in Ho. subst ordenadas.
  split; [reflexivity | exact H].
Qed.

Lemma _calcular_estadisticas_para_bases_Some (self : SimuladorPeriodos)
    (l : list base_dict) (divisor : Q) (e : estadisticas) :
  _calcular_estadisticas_para_bases self l divisor = Ok (Some e) -> l <> [].
Proof. destruct l; [discriminate | discriminate]. Qed.

(** C10: the lists of processed bases of the complete calculation (that of
    the reform calculation, that of the pre-reform calculation and the chosen
    one, which is one of the two) are in strictly descending order of month:
    the first base is that of the month before the retirement, and the base
    at position [k] is that of [k] months earlier. *)
Theorem C10_descending_order (self self' : SimuladorPeriodos) (r : resultado_completo) :
  procesar_bases_completo self = Ok (self', r) ->
  exists (bases_reforma bases_prereforma : list base_dict) (er ep : option estadisticas),
    _procesar_calculo_reforma self = Ok (bases_reforma, er)
    /\ _procesar_calculo_prereforma self = Ok (bases_prereforma, ep)
    /\ (bases_procesadas_r r = bases_reforma \/ bases_procesadas_r r = bases_prereforma)
    /\ forall l : list base_dict,
         l = bases_procesadas_r r \/ l = bases_reforma \/ l = bases_prereforma ->
         (exists x : base_dict,
            nth_error l 0 = Some x
            /\ strptime (mes_anyo_p x) = Ok (fecha_jubilacion self - 1))
         /\ (forall (k : nat) (x : base_dict),
               nth_error l k = Some x ->
               strptime (mes_anyo_p x) = Ok (fecha_jubilacion self - 1 - Z.of_nat k))
         /\ (forall (i j : nat) (x y : base_dict) (di dj : Z),
               (i < j)%nat ->
               nth_error l i = Some x -> nth_error l j = Some y ->
               strptime (mes_anyo_p x) = Ok di -> strptime (mes_anyo_p y) = Ok dj ->
               dj < di).
Proof.
  intros H. unfold procesar_bases_completo in H.
  inv_bind H as ref Href. destruct ref as [br er].
  inv_bind H as pre Hpre. destruct pre as [bp ep].
  inv_bind H as ele Hele. destruct ele as [[be ee] ce].
  injection H as <- <-. cbn [bases_procesadas_r _generar_resultado_completo].
  apply elegir_Ok in Hele. destruct Hele as (sr & sp & -> & -> & Hx).
  assert (Hor : be = br \/ be = bp).
  { destruct (Qle_bool _ _); injection Hx as -> _ _; [now left | now right]. }
  exists br, bp, (Some sr), (Some sp).
  split; [exact Href|]. split; [exact Hpre|]. split; [exact Hor|].
  assert (G : forall l, l = br \/ l = bp ->
                l <> []
                /\ forall (k : nat) (x : base_dict),
                     nth_error l k = Some x ->
                     strptime (mes_anyo_p x)
                     = Ok (fecha_jubilacion self - 1 - Z.of_nat k)).
  { intros l [-> | ->].
    - unfold _procesar_calculo_reforma in Href.
      inv_bind Href as ventana Hv. inv_bind Href as con Hcon.
      inv_bind Href as ordenadas Hord. inv_bind Href as est Hest.
      injection Href as <- ->.
      split; [eapply _calcular_estadisticas_para_bases_Some, Hest|].
      eapply calculo_fechas; eassumption.
    - unfold _procesar_calculo_prereforma in Hpre.
      inv_bind Hpre as ventana Hv. inv_bind Hpre as con Hcon.
      inv_bind Hpre as ordenadas Hord. inv_bind Hpre as est Hest.
      injection Hpre as <- ->.
      split; [eapply _calcular_estadisticas_para_bases_Some, Hest|].
      eapply calculo_fechas; eassumption. }
  intros l Hl.
  assert (Hl' : l = br \/ l = bp).
  { destruct Hl as [-> | Hl]; [exact Hor | exact Hl]. }
  destruct (G l Hl') as [Hne Hk].
  split; [|split].
  - destruct l as [|x l0]; [congruence|]. exists x. split; [reflexivity|].
    rewrite (Hk 0%nat x eq_refl). f_equal; lia.
  - exact Hk.
  - intros i j x y di dj Hij Hi Hj Hdi Hdj.
    rewrite (Hk _ _ Hi) in Hdi. rewrite (Hk _ _ Hj) in Hdj.
    injection Hdi as <-. injection Hdj as <-. lia.
Qed.

(** The complete calculation of the sample data: the first processed base
    is that of 05/2025. *)
Lemma C10_descending_order_witness :
  exists (self' : SimuladorPeriodos) (r : resultado_completo) (x : base_dict),
    procesar_bases_completo simulador_ejemplo = Ok (self', r)
    /\ nth_error (bases_procesadas_r r) 0 = Some x
    /\ strptime (mes_anyo_p x) = Ok 24304.
Proof.
  destruct (procesar_bases_completo simulador_ejemplo) as [[self' r]|e] eqn:E.
  - destruct (C10_descending_order simulador_ejemplo self' r E)
      as (br & bp & er & ep & _ & _ & _ & H).
    destruct (H (bases_procesadas_r r)) as ((x & Hx & Hd) & _); [now left|].
    exists self', r, x. split; [reflexivity|]. split; [exact Hx | exact Hd].
  - vm_compute in E. discriminate E.
Defined.

(** ** The complete calculation returns a result *)

(** The conditions under which no step of a calculation raises: records
    dated 06/0001 or later, a walk of [N] months that stays within the
    calendar, a table of caps to impute gaps from and a divisor other
    than 0. *)
Lemma pasos_calculo_total (self : SimuladorPeriodos) (usar : bool) (divisor : Q) :
  let N := if usar then 300 else bases_incluidas (parametros_año_jubilacion self) in
  bases self <> [] ->
  Forall (fun b => dos_decimales (base b)) (bases self) ->
  36 <= fecha_jubilacion self < 120000 ->
  1 <= N ->
  12 <= fecha_jubilacion self - 1 - N ->
  Forall (fun b => exists d, strptime (mes_anyo b) = Ok d /\ 17 <= d) (bases self) ->
  regimen_acceso self = "AUTONOMO" \/ topes_cotizacion self <> [] ->
  ~ (divisor == 0)%Q ->
  exists (ventana : list BaseCotizacion) (con_periodo ordenadas : list base_dict)
         (e : estadisticas),
    obtener_bases_periodo_computo self usar = Ok ventana
    /\ añadir_periodo self ventana = Ok con_periodo
    /\ ordenar_por_fecha mes_anyo_p (revalorizar_bases self con_periodo) = Ok ordenadas
    /\ _calcular_estadisticas_para_bases self ordenadas divisor = Ok (Some e).
Proof.
  intros N Hne Hdec Hret HN Hlo Hfechas Htopes Hdiv.
  destruct (obtener_bases_periodo_computo_spec self usar)
    as (simuladas & ventana & _ & Hv & Hlen & _);
    [exact Hne | lia | fold N; lia | exact Hlo | exact Hfechas | exact Htopes |].
  fold N in Hlen.
  destruct (obtener_bases_periodo_computo_inv _ _ _ Hv) as (_ & _ & Hall).
  assert (Hcon : exists con, añadir_periodo self ventana = Ok con).
  { unfold añadir_periodo. rewrite relativedelta_Ok by lia. cbn [bind].
    apply mapM_total. eapply Forall_impl; [exact Hall|].
    intros b [(d & Hd & _) _]. rewrite Hd. cbn [bind]. eauto. }
  destruct Hcon as [con Hcon].
  destruct (ordenar_por_fecha_total mes_anyo_p (revalorizar_bases self con))
    as [ordenadas Hord].
  { apply Forall_forall. intros x Hx. apply list_elem_of_In, In_nth_error in Hx.
    destruct Hx as [k Hk].
    destruct (revalorizar_bases_fechas _ _ _ Hcon _ _ Hk) as (b & Hb & ->).
    eexists. eapply obtener_bases_periodo_computo_fechas; eassumption. }
  destruct (calculo_procesadas self usar _ _ _ Hdec Hv Hcon Hord) as [Hp Hl].
  fold N in Hl.
  destruct (_calcular_estadisticas_para_bases_total self ordenadas divisor Hdiv)
    as [est Hest].
  destruct (_calcular_estadisticas_para_bases_inv _ _ _ _ Hest) as (e & -> & _);
    [intros ->; simpl in Hl; lia | exact Hp |].
  exists ventana, con, ordenadas, e. repeat split; assumption.
Qed.

(** The complete calculation of a constructed simulator returns a result
    under those conditions. *)
Lemma procesar_bases_completo_total (config : ConfigManager) (be : bases_extraidas)
    (fj ra sx : string) (self : SimuladorPeriodos) :
  __init__ config be fj ra sx = Ok self ->
  1 <= bases_incluidas (parametros_año_jubilacion self) ->
  12 <= fecha_jubilacion self - 1 - bases_incluidas (parametros_año_jubilacion self) ->
  12 <= fecha_jubilacion self - 1 - 300 ->
  Forall (fun b => exists d, strptime (mes_anyo b) = Ok d /\ 17 <= d) (bases self) ->
  regimen_acceso self = "AUTONOMO" \/ topes_cotizacion self <> [] ->
  ~ (divisor_base_reguladora (parametros_año_jubilacion self) == 0)%Q ->
  exists (self' : SimuladorPeriodos) (r : resultado_completo),
    procesar_bases_completo self = Ok (self', r).
Proof.
  intros Hinit HN Hlo Hlo' Hfechas Htopes Hdiv.
  destruct (__init___spec _ _ _ _ _ _ Hinit)
    as (_ & _ & _ & _ & Hfj & _ & _ & _ & Hne & _ & Hdec).
  apply strptime_en_rango, en_rango_spec in Hfj.
  destruct (pasos_calculo_total self false
              (divisor_base_reguladora (parametros_año_jubilacion self)))
    as (v1 & c1 & o1 & e1 & Hv1 & Hc1 & Ho1 & He1);
    [exact Hne | exact Hdec | lia | exact HN | exact Hlo | exact Hfechas
     | exact Htopes | exact Hdiv |].
  destruct (pasos_calculo_total self true 350)
    as (v2 & c2 & o2 & e2 & Hv2 & Hc2 & Ho2 & He2);
    [exact Hne | exact Hdec | lia | lia | exact Hlo' | exact Hfechas
     | exact Htopes | intros E; discriminate E |].
  unfold procesar_bases_completo, _procesar_calculo_reforma, _procesar_calculo_prereforma.
  rewrite Hv1. cbn [bind]. rewrite Hc1. cbn [bind]. rewrite Ho1. cbn [bind].
  rewrite He1. cbn [bind].
  rewrite Hv2. cbn [bind]. rewrite Hc2. cbn [bind]. rewrite Ho2. cbn [bind].
  rewrite He2. cbn [bind].
  unfold _elegir_calculo_mas_favorable. cbn [getitem_base_reguladora bind].
  destruct (Qle_bool (base_reguladora e2) (base_reguladora e1)); cbn [bind]; eauto.
Qed.

(** * Further properties of the simulator *)

(** ** Construction *)

(** X1: a simulator that the constructor returns has an access regime that
    is GENERAL or AUTONOMO, no special conditions for men, the retirement
    date that the text denotes, the tables of the configuration, and a list
    of bases that is not empty, whose month-years are all well formed and
    whose amounts all have two decimals. *)
Theorem X1_constructor_invariants (config : ConfigManager) (be : bases_extraidas)
    (fj ra sx : string) (self : SimuladorPeriodos) :
  __init__ config be fj ra sx = Ok self ->
  (regimen_acceso self = "GENERAL" \/ regimen_acceso self = "AUTONOMO")
  /\ regimen_acceso self = upper ra
  /\ sexo self = upper sx
  /\ cumple_condiciones_hombre self = false
  /\ strptime fj = Ok (fecha_jubilacion self)
  /\ 12 <= fecha_jubilacion self < 120000
  /\ parametros_computo self = cargar_parametros_computo config
  /\ indices_revalorizacion self = cargar_indices_revalorizacion config
  /\ topes_cotizacion self = cargar_topes_cotizacion config
  /\ bases self <> []
  /\ Forall (fun b => (exists d, strptime (mes_anyo b) = Ok d /\ 12 <= d < 120000)
                      /\ dos_decimales (base b)) (bases self).
Proof.
  intros H.
  destruct (__init___spec _ _ _ _ _ _ H)
    as (Hra & Hreg & Hsx & Hc & Hfj & Hp & Hi & Ht & Hne & Hparse & Hdec).
  split; [exact Hreg|]. split; [exact Hra|]. split; [exact Hsx|].
  split; [exact Hc|]. split; [exact Hfj|].
  split; [apply en_rango_spec; eapply strptime_en_rango, Hfj|].
  split; [exact Hp|]. split; [exact Hi|]. split; [exact Ht|]. split; [exact Hne|].
  rewrite Forall_forall in Hparse, Hdec. apply Forall_forall. intros b Hb.
  split; [|exact (Hdec b Hb)].
  destruct (Hparse b Hb) as [d Hd]. exists d. split; [exact Hd|].
  apply en_rango_spec. eapply strptime_en_rango, Hd.
Qed.

Lemma X1_constructor_invariants_witness :
  bases simulador_ejemplo <> []
  /\ Forall (fun b => (exists d, strptime (mes_anyo b) = Ok d /\ 12 <= d < 120000)
                      /\ dos_decimales (base b)) (bases simulador_ejemplo).
Proof.
  destruct (X1_constructor_invariants config_ejemplo bases_ejemplo "06/2025" "GENERAL"
              "MASCULINO" simulador_ejemplo)
    as (_ & _ & _ & _ & _ & _ & _ & _ & _ & Hne & Hall).
  - vm_compute. reflexivity.
  - split; [exact Hne | exact Hall].
Defined.

(** X2: the order of the validations of the constructor.  A list of bases
    that is empty is reported first; then a retirement date that is not
    well formed, whatever the regime and the amounts; then a regime other
    than GENERAL and AUTONOMO, whatever the amounts; then the first negative
    amount of the list. *)
Theorem X2_validation_order (config : ConfigManager) (fj ra sx : string)
    (x : base_data) (r : list base_data) :
  __init__ config (Bases []) fj ra sx = Err (ValueError ListaBasesVacia)
  /\ ((forall d, strptime fj <> Ok d) ->
      __init__ config (Bases (x :: r)) fj ra sx
      = Err (ValueError (FormatoFechaInvalido fj)))
  /\ ((exists d, strptime fj = Ok d) ->
      upper ra <> "GENERAL" -> upper ra <> "AUTONOMO" ->
      __init__ config (Bases (x :: r)) fj ra sx
      = Err (ValueError (RegimenInvalido (upper ra))))
  /\ ((exists d, strptime fj = Ok d) ->
      upper ra = "GENERAL" \/ upper ra = "AUTONOMO" ->
      forall (antes despues : list base_data) (dato : base_data),
        x :: r = antes ++ dato :: despues ->
        Forall (fun a => (0 <= base_d a)%Q) antes ->
        (base_d dato < 0)%Q ->
        __init__ config (Bases (x :: r)) fj ra sx
        = Err (ValueError (ErrorProcesandoBase dato
                             (BaseNegativaEncontrada (base_d dato))))).
Proof.
  split; [reflexivity|]. split; [|split].
  - intros Hno. destruct (strptime fj) as [d|e] eqn:E; [destruct (Hno d); reflexivity|].
    unfold __init__, _validar_datos_entrada. rewrite E. reflexivity.
  - intros [d Hd] Hg Ha. unfold __init__, _validar_datos_entrada.
    rewrite Hd. cbn [regimen_acceso en_lista existsb].
    destruct (String.eqb_spec (upper ra) "GENERAL"); [contradiction|].
    destruct (String.eqb_spec (upper ra) "AUTONOMO"); [contradiction|].
    reflexivity.
  - intros [d Hd] Hreg antes despues dato Hl Hantes Hneg.
    assert (Hg : forall g, agrupar_bases (antes ++ dato :: despues) g
                           = Err (ValueError (ErrorProcesandoBase dato
                                                (BaseNegativaEncontrada (base_d dato))))).
    { clear Hl. induction Hantes as [|a l Ha _ IH]; intros g; simpl.
      - apply Qlt_bool_iff in Hneg. rewrite Hneg. reflexivity.
      - apply Qlt_bool_false in Ha. rewrite Ha. apply IH. }
    unfold __init__, _validar_datos_entrada, _procesar_fecha_jubilacion.
    rewrite Hd. cbn [regimen_acceso en_lista existsb].
    replace ((upper ra =? "GENERAL")%string || ((upper ra =? "AUTONOMO")%string || false))
      with true
      by (destruct Hreg as [-> | ->]; reflexivity).
    cbn [negb bind]. unfold _procesar_bases_extraidas. cbn [bases_de bind].
    rewrite Hl, Hg. reflexivity.
Qed.

(** A negative amount after a valid one, with a valid date and regime. *)
Lemma X2_validation_order_witness :
  __init__ config_ejemplo
    (Bases (dos_bases 1200 (-5))) "06/2025" "general" "MASCULINO"
  = Err (ValueError (ErrorProcesandoBase
                       {| mes_anyo_d := "03/2025"; base_d := -5;
                          empresa_d := "Empresa B"; regimen_d := "AUTONOMO" |}
                       (BaseNegativaEncontrada (-5)))).
Proof.
  refine (proj2 (proj2 (proj2
            (X2_validation_order config_ejemplo "06/2025" "general" "MASCULINO" _ _)))
            _ _ [_] [] _ eq_refl _ _).
  - exists 24305. reflexivity.
  - left. reflexivity.
  - repeat constructor. vm_compute. discriminate.
  - reflexivity.
Defined.

(** ** The simulation of the future period, at its edges *)

(** X3: when some record of a constructed simulator is dated in the month
    of the retirement or later, no month is simulated. *)
Theorem X3_no_projection (config : ConfigManager) (be : bases_extraidas)
    (fj ra sx : string) (self : SimuladorPeriodos) :
  __init__ config be fj ra sx = Ok self ->
  Exists (fun b => exists d, strptime (mes_anyo b) = Ok d /\ fecha_jubilacion self <= d)
    (bases self) ->
  simular_periodo_futuro self = Ok [].
Proof.
  intros Hinit Hex.
  destruct (__init___spec _ _ _ _ _ _ Hinit)
    as (_ & _ & _ & _ & _ & _ & _ & _ & Hne & Hparse & _).
  destruct (existe_ultima_fecha (bases self) Hne Hparse) as (u & Hu & Hmax).
  apply (simular_periodo_futuro_nada self u); [split; assumption|].
  apply Exists_exists in Hex. destruct Hex as (b & Hb & d & Hd & Hle).
  rewrite Forall_forall in Hmax. destruct (Hmax b Hb) as (d' & Hd' & Hle').
  rewrite Hd in Hd'. injection Hd' as <-. lia.
Qed.

(** Retirement in 01/2025, the month of the latest record of the sample. *)
Lemma X3_no_projection_witness : simular_periodo_futuro simulador_enero = Ok [].
Proof.
  apply (X3_no_projection config_ejemplo bases_ejemplo "01/2025" "GENERAL" "MASCULINO").
  - vm_compute. reflexivity.
  - apply Exists_cons_hd. exists 24300. split; [reflexivity | vm_compute; discriminate].
Defined.

(** ** The complete calculation *)

(** X4: the complete calculation of a constructed simulator returns a result
    whenever the parameters of the retirement year ask for at least one base
    and have a divisor other than 0, both walks stay within the calendar, the
    records are dated 06/0001 or later and there is a table of caps to impute
    the gaps from (or the access regime is AUTONOMO). *)
Theorem X4_complete_calculation_returns (config : ConfigManager) (be : bases_extraidas)
    (fj ra sx : string) (self : SimuladorPeriodos) :
  __init__ config be fj ra sx = Ok self ->
  1 <= bases_incluidas (parametros_año_jubilacion self) ->
  12 <= fecha_jubilacion self - 1 - bases_incluidas (parametros_año_jubilacion self) ->
  12 <= fecha_jubilacion self - 1 - 300 ->
  Forall (fun b => exists d, strptime (mes_anyo b) = Ok d /\ 17 <= d) (bases self) ->
  regimen_acceso self = "AUTONOMO" \/ topes_cotizacion self <> [] ->
  ~ (divisor_base_reguladora (parametros_año_jubilacion self) == 0)%Q ->
  exists (self' : SimuladorPeriodos) (r : resultado_completo),
    procesar_bases_completo self = Ok (self', r)
    /\ bases_procesadas self' = bases_procesadas_r r
    /\ bases_procesadas_r r <> []
    /\ exists e : estadisticas, estadisticas_r r = Some e.
Proof.
  intros Hinit HN Hlo Hlo' Hfechas Htopes Hdiv.
  destruct (procesar_bases_completo_total _ _ _ _ _ _ Hinit HN Hlo Hlo' Hfechas Htopes Hdiv)
    as (self' & r & H).
  exists self', r. split; [exact H|].
  unfold procesar_bases_completo in H.
  inv_bind H as ref Href. destruct ref as [br er].
  inv_bind H as pre Hpre. destruct pre as [bp ep].
  inv_bind H as ele Hele. destruct ele as [[bel eel] cel].
  injection H as <- <-.
  cbn [bases_procesadas asignar_bases_procesadas bases_procesadas_r estadisticas_r
       _generar_resultado_completo].
  split; [reflexivity|].
  apply elegir_Ok in Hele. destruct Hele as (sr & sp & -> & -> & Hx).
  unfold _procesar_calculo_reforma in Href.
  inv_bind Href as v1 Hv1. inv_bind Href as c1 Hc1. inv_bind Href as o1 Ho1.
  inv_bind Href as e1 He1. injection Href as <- ->.
  unfold _procesar_calculo_prereforma in Hpre.
  inv_bind Hpre as v2 Hv2. inv_bind Hpre as c2 Hc2. inv_bind Hpre as o2 Ho2.
  inv_bind Hpre as e2 He2. injection Hpre as <- ->.
  apply _calcular_estadisticas_para_bases_Some in He1, He2.
  destruct (Qle_bool _ _); injection Hx as -> -> _; split; eauto.
Qed.

Lemma X4_complete_calculation_returns_witness :
  exists (self' : SimuladorPeriodos) (r : resultado_completo),
    procesar_bases_completo simulador_ejemplo = Ok (self', r)
    /\ bases_procesadas_r r <> [].
Proof.
  destruct (X4_complete_calculation_returns config_ejemplo bases_ejemplo "06/2025"
              "GENERAL" "MASCULINO" simulador_ejemplo)
    as (self' & r & H & _ & Hne & _).
  - vm_compute. reflexivity.
  - vm_compute. discriminate.
  - vm_compute. discriminate.
  - vm_compute. discriminate.
  - repeat constructor; eexists; (split; [reflexivity | vm_compute; discriminate]).
  - right. vm_compute. discriminate.
  - vm_compute. discriminate.
  - exists self', r. split; [exact H | exact Hne].
Defined.

Lemma _calcular_estadisticas_para_bases_divisor_0 (self : SimuladorPeriodos)
    (l : list base_dict) (divisor : Q) (est : option estadisticas) :
  (divisor == 0)%Q ->
  _calcular_estadisticas_para_bases self l divisor = Ok est ->
  l = [] /\ est = None.
Proof.
  intros Hd. unfold _calcular_estadisticas_para_bases.
  destruct l; [intros [= <-]; split; reflexivity|].
  apply Qeq_bool_iff in Hd. rewrite Hd. discriminate.
Qed.

(** The reform calculation with parameters that ask for no base, or with
    the divisor 0, has no statistics when it returns. *)
Lemma _procesar_calculo_reforma_vacio (self : SimuladorPeriodos)
    (br : list base_dict) (er : option estadisticas) :
  bases_incluidas (parametros_año_jubilacion self) <= 0
  \/ (divisor_base_reguladora (parametros_año_jubilacion self) == 0)%Q ->
  _procesar_calculo_reforma self = Ok (br, er) ->
  br = [] /\ er = None.
Proof.
  intros Hor H. unfold _procesar_calculo_reforma in H.
  inv_bind H as ventana Hv. inv_bind H as con Hcon. inv_bind H as ord Hord.
  inv_bind H as est Hest. injection H as <- <-.
  destruct Hor as [HN | Hd].
  - destruct (obtener_bases_periodo_computo_inv _ _ _ Hv) as (Hlen & _ & _).
    replace (Z.to_nat _) with 0%nat in Hlen by lia.
    destruct ventana; [|discriminate].
    unfold añadir_periodo in Hcon. inv_bind Hcon as lim Hlim.
    cbn [mapM] in Hcon. injection Hcon as <-.
    cbn in Hord. injection Hord as <-.
    cbn in Hest. injection Hest as <-. split; reflexivity.
  - eapply _calcular_estadisticas_para_bases_divisor_0; eassumption.
Qed.

(** X5: the complete calculation never returns a result when the parameters
    of the retirement year ask for no base (a number of bases of 0 or less)
    or have the divisor 0: the reform calculation then has no statistics,
    and when both calculations get through, the choice between them raises
    the [KeyError] of the key "base_reguladora". *)
Theorem X5_complete_calculation_fails (self : SimuladorPeriodos) :
  bases_incluidas (parametros_año_jubilacion self) <= 0
  \/ (divisor_base_reguladora (parametros_año_jubilacion self) == 0)%Q ->
  exists e : excepcion,
    procesar_bases_completo self = Err e
    /\ (forall ref pre,
          _procesar_calculo_reforma self = Ok ref ->
          _procesar_calculo_prereforma self = Ok pre ->
          e = KeyError "base_reguladora").
Proof.
  intros Hor. unfold procesar_bases_completo.
  destruct (_procesar_calculo_reforma self) as [[br er]|e1] eqn:Href.
  - destruct (_procesar_calculo_reforma_vacio self br er Hor Href) as [-> ->].
    cbn [bind].
    destruct (_procesar_calculo_prereforma self) as [[bp ep]|e2] eqn:Hpre.
    + cbn [bind _elegir_calculo_mas_favorable getitem_base_reguladora].
      eexists. split; [reflexivity|]. intros; reflexivity.
    + cbn [bind]. eexists. split; [reflexivity|]. intros ref pre _ H. discriminate H.
  - cbn [bind]. eexists. split; [reflexivity|]. intros ref pre H. discriminate H.
Qed.

(** The sample data with parameters that ask for no base. *)
Lemma X5_complete_calculation_fails_witness :
  procesar_bases_completo simulador_sin_bases = Err (KeyError "base_reguladora").
Proof.
  destruct (X5_complete_calculation_fails simulador_sin_bases) as (e & He & Hk).
  - left. vm_compute. discriminate.
  - rewrite He. f_equal.
    destruct (_procesar_calculo_reforma simulador_sin_bases) as [ref|e1] eqn:E1;
      [|vm_compute in E1; discriminate E1].
    destruct (_procesar_calculo_prereforma simulador_sin_bases) as [pre|e2] eqn:E2;
      [|vm_compute in E2; discriminate E2].
    exact (Hk ref pre eq_refl eq_refl).
Defined.

(** ** The two periods of computation *)

Lemma bucle_periodo_app (self : SimuladorPeriodos) (d : gmap string BaseCotizacion) :
  forall (faltan : nat) (f c : Z) (acc r : list BaseCotizacion),
    bucle_periodo self d faltan f c acc = Ok r ->
    exists w, r = acc ++ w /\ length w = faltan.
Proof.
  induction faltan as [|n IH]; intros f c acc r H.
  - injection H as <-. exists []. rewrite app_nil_r. split; reflexivity.
  - cbn [bucle_periodo] in H. inv_bind H as paso Hpaso. inv_bind H as ant Hant.
    destruct (IH _ _ _ _ H) as (w & -> & Hlen).
    assert (Hp : exists b, fst paso = acc ++ [b]).
    { destruct (d !! strftime f) as [b0|].
      - injection Hpaso as <-. eauto.
      - inv_bind Hpaso as a Ha. injection Hpaso as <-. eauto. }
    destruct Hp as [b ->]. exists (b :: w). rewrite <- app_assoc.
    split; [reflexivity | simpl; congruence].
Qed.

(** A shorter walk from the same month returns the first records of a
    longer one. *)
Lemma bucle_periodo_prefijo (self : SimuladorPeriodos) (d : gmap string BaseCotizacion) :
  forall (n m : nat) (f c : Z) (acc w : list BaseCotizacion),
    bucle_periodo self d (n + m) f c acc = Ok (acc ++ w) ->
    bucle_periodo self d n f c acc = Ok (acc ++ firstn n w).
Proof.
  induction n as [|n IH]; intros m f c acc w H.
  - simpl. rewrite app_nil_r. reflexivity.
  - cbn [Nat.add bucle_periodo] in H. cbn [bucle_periodo].
    inv_bind H as paso Hpaso. inv_bind H as ant Hant.
    rewrite Hpaso, Hant. cbn [bind].
    destruct (bucle_periodo_app _ _ _ _ _ _ _ H) as (w' & Hw & _).
    assert (Hp : exists b, fst paso = acc ++ [b]).
    { destruct (d !! strftime f) as [b0|].
      - injection Hpaso as <-. eauto.
      - inv_bind Hpaso as a Ha. injection Hpaso as <-. eauto. }
    destruct Hp as [b Hb]. rewrite Hb in *.
    rewrite <- app_assoc in Hw. apply app_inv_head in Hw. subst w.
    replace (acc ++ [b] ++ w') with ((acc ++ [b]) ++ w') in H
      by (rewrite <- app_assoc; reflexivity).
    rewrite (IH _ _ _ _ _ H). rewrite <- app_assoc. reflexivity.
Qed.

(** X6: the two periods of computation of a simulator are one walk: when
    the parameters of the retirement year ask for at most 300 bases, the
    period of the reform calculation is the first records of the period of
    the pre-reform calculation, gaps and their imputed amounts included; when
    they ask for 300 or more, it is the other way round. *)
Theorem X6_windows_share_prefix (self : SimuladorPeriodos) :
  let N := bases_incluidas (parametros_año_jubilacion self) in
  (forall w : list BaseCotizacion,
     N <= 300 ->
     obtener_bases_periodo_computo self true = Ok w ->
     obtener_bases_periodo_computo self false = Ok (firstn (Z.to_nat N) w))
  /\ (forall w : list BaseCotizacion,
        300 <= N ->
        obtener_bases_periodo_computo self false = Ok w ->
        obtener_bases_periodo_computo self true = Ok (firstn 300 w)).
Proof.
  intros N.
  assert (G : forall (a b : Z) (w : list BaseCotizacion),
             a <= b ->
             (let* simuladas := simular_periodo_futuro self in
              let* fecha_actual := relativedelta (fecha_jubilacion self) (-1) in
              bucle_periodo self (construir_bases_dict (bases self ++ simuladas))
                (Z.to_nat b) fecha_actual 0 []) = Ok w ->
             (let* simuladas := simular_periodo_futuro self in
              let* fecha_actual := relativedelta (fecha_jubilacion self) (-1) in
              bucle_periodo self (construir_bases_dict (bases self ++ simuladas))
                (Z.to_nat a) fecha_actual 0 []) = Ok (firstn (Z.to_nat a) w)).
  { intros a b w Hab H. inv_bind H as sim Hsim. inv_bind H as f Hf.
    rewrite Hsim, Hf. cbn [bind].
    replace (Z.to_nat b) with (Z.to_nat a + (Z.to_nat b - Z.to_nat a))%nat in H by lia.
    apply (bucle_periodo_prefijo self _ _ _ _ _ [] w) in H. exact H. }
  split; intros w HN H.
  - apply (G N 300 w HN). exact H.
  - apply (G 300 N w HN). exact H.
Qed.

(** The sample data with a period of twelve months: the shorter period is
    the first twelve bases of the longer one, four simulated months, five
    records and three gaps. *)
Lemma X6_windows_share_prefix_witness :
  exists w : list BaseCotizacion,
    obtener_bases_periodo_computo simulador_doce true = Ok w
    /\ obtener_bases_periodo_computo simulador_doce false = Ok (firstn 12 w)
    /\ map empresa (firstn 12 w)
       = ["SIMULADA"; "SIMULADA"; "SIMULADA"; "SIMULADA"; "Empresa A"; "Empresa A";
          "Empresa B"; "Empresa B"; "Empresa C"; "LAGUNA"; "LAGUNA"; "LAGUNA"].
Proof.
  destruct (obtener_bases_periodo_computo simulador_doce true) as [w|e] eqn:E;
    [|vm_compute in E; discriminate E].
  exists w. split; [reflexivity|].
  pose proof (proj1 (X6_windows_share_prefix simulador_doce) w) as H.
  cbv zeta in H.
  replace (Z.to_nat (bases_incluidas (parametros_año_jubilacion simulador_doce)))
    with 12%nat in H by (vm_compute; reflexivity).
  split.
  - apply H; [vm_compute; discriminate | exact E].
  - vm_compute in E. injection E as <-. reflexivity.
Defined.

(** ** The 24 months that are not revalued *)

Lemma revalorizar_bases_periodo (self : SimuladorPeriodos) (ventana : list BaseCotizacion)
    (con_periodo : list base_dict) :
  añadir_periodo self ventana = Ok con_periodo ->
  forall (k : nat) (x : base_dict),
    nth_error (revalorizar_bases self con_periodo) k = Some x ->
    exists (b : BaseCotizacion) (d : Z),
      nth_error ventana k = Some b
      /\ strptime (mes_anyo b) = Ok d
      /\ periodo x = if fecha_jubilacion self - 24 <=? d
                     then "no_revalorizado" else "revalorizado".
Proof.
  intros H k x Hx. unfold añadir_periodo in H. inv_bind H as limite Hl.
  apply relativedelta_inv in Hl. destruct Hl as [-> _].
  apply mapM_Forall2 in H. unfold revalorizar_bases in Hx.
  rewrite nth_error_map in Hx.
  destruct (nth_error con_periodo k) as [y|] eqn:Ey; [|discriminate].
  injection Hx as <-.
  destruct (Forall2_nth_error_r _ _ _ H _ _ Ey) as (b & Hb & Hy).
  inv_bind Hy as d Hd. injection Hy as <-.
  exists b, d. split; [exact Hb|]. split; [exact Hd|].
  replace (fecha_jubilacion self + -24) with (fecha_jubilacion self - 24) by lia.
  unfold revalorizar_base. cbn [periodo mes_anyo_p].
  destruct (fecha_jubilacion self - 24 <=? d); cbn; [reflexivity|].
  destruct (indices_revalorizacion self !! mes_anyo b); reflexivity.
Qed.

(** The period of the processed base at each position of a calculation. *)
Lemma calculo_periodos (self : SimuladorPeriodos) (usar : bool)
    (ventana : list BaseCotizacion) (con_periodo ordenadas : list base_dict) :
  obtener_bases_periodo_computo self usar = Ok ventana ->
  añadir_periodo self ventana = Ok con_periodo ->
  ordenar_por_fecha mes_anyo_p (revalorizar_bases self con_periodo) = Ok ordenadas ->
  length ordenadas
  = Z.to_nat (if usar then 300 else bases_incluidas (parametros_año_jubilacion self))
  /\ forall (k : nat) (x : base_dict),
       nth_error ordenadas k = Some x ->
       periodo x = if (k <? 24)%nat then "no_revalorizado" else "revalorizado".
Proof.
  intros Hv Hc Ho.
  destruct (calculo_fechas _ _ _ _ _ Hv Hc Ho) as [-> _].
  split.
  - destruct (obtener_bases_periodo_computo_inv _ _ _ Hv) as (Hlen & _ & _).
    unfold revalorizar_bases. rewrite length_map.
    unfold añadir_periodo in Hc. inv_bind Hc as lim Hlim.
    rewrite (mapM_length _ _ _ Hc). exact Hlen.
  - intros k x Hx.
    destruct (revalorizar_bases_periodo _ _ _ Hc _ _ Hx) as (b & d & Hb & Hd & ->).
    rewrite (obtener_bases_periodo_computo_fechas _ _ _ Hv _ _ Hb) in Hd.
    injection Hd as <-.
    destruct (Nat.ltb_spec k 24).
    + replace (_ <=? _) with true by (symmetry; apply Z.leb_le; lia). reflexivity.
    + replace (_ <=? _) with false by (symmetry; apply Z.leb_gt; lia). reflexivity.
Qed.

Lemma filter_primeros (p : base_dict -> bool) (l : list base_dict) (n : nat) :
  (forall (k : nat) (x : base_dict), nth_error l k = Some x -> p x = (k <? n)%nat) ->
  length (List.filter p l) = Nat.min (length l) n.
Proof.
  revert n; induction l as [|x r IH]; intros n H; [reflexivity|].
  simpl. rewrite (H 0%nat x eq_refl). destruct n as [|n].
  - simpl. rewrite (IH 0%nat); [lia|]. intros k y Hy. rewrite (H (S k) y Hy). reflexivity.
  - simpl. rewrite (IH n); [reflexivity|].
    intros k y Hy. rewrite (H (S k) y Hy). reflexivity.
Qed.

Lemma filter_ultimos (p : base_dict -> bool) (l : list base_dict) (n : nat) :
  (forall (k : nat) (x : base_dict), nth_error l k = Some x -> p x = negb (k <? n)%nat) ->
  length (List.filter p l) = (length l - n)%nat.
Proof.
  revert n; induction l as [|x r IH]; intros n H; [reflexivity|].
  simpl. rewrite (H 0%nat x eq_refl). destruct n as [|n].
  - simpl. rewrite (IH 0%nat); [lia|]. intros k y Hy. rewrite (H (S k) y Hy). reflexivity.
  - simpl. rewrite (IH n); [reflexivity|].
    intros k y Hy. rewrite (H (S k) y Hy). reflexivity.
Qed.

Lemma estadisticas_por_posicion (self : SimuladorPeriodos) (l : list base_dict)
    (divisor : Q) (e : estadisticas) :
  (forall (k : nat) (x : base_dict),
     nth_error l k = Some x ->
     periodo x = if (k <? 24)%nat then "no_revalorizado" else "revalorizado") ->
  _calcular_estadisticas_para_bases self l divisor = Ok (Some e) ->
  total_bases e = length l
  /\ bases_no_revalorizadas e = Nat.min (length l) 24
  /\ bases_revalorizadas e = (length l - 24)%nat.
Proof.
  intros Hk H. unfold _calcular_estadisticas_para_bases in H.
  destruct l as [|x0 l0] eqn:El; [discriminate|]. rewrite <- El in *.
  destruct (Qeq_bool divisor 0); [discriminate|]. injection H as <-. cbn.
  split; [reflexivity|]. split.
  - apply filter_primeros. intros k x Hx. unfold es_periodo. rewrite (Hk k x Hx).
    destruct (k <? 24)%nat; reflexivity.
  - apply filter_ultimos. intros k x Hx. unfold es_periodo. rewrite (Hk k x Hx).
    destruct (k <? 24)%nat; reflexivity.
Qed.

(** X7: in the list of processed bases of either calculation, the bases at
    the first 24 positions, and only they, are "no_revalorizado".  The
    statistics of the pre-reform calculation therefore count 300 bases, 24
    of them not revalued and 276 revalued; those of the reform calculation
    with [N] bases count [min(N, 24)] not revalued and the rest revalued. *)
Theorem X7_not_revalued_positions (self : SimuladorPeriodos) :
  (forall (bases_prereforma : list base_dict) (est : option estadisticas),
     _procesar_calculo_prereforma self = Ok (bases_prereforma, est) ->
     (forall (k : nat) (x : base_dict),
        nth_error bases_prereforma k = Some x ->
        periodo x = if (k <? 24)%nat then "no_revalorizado" else "revalorizado")
     /\ exists e : estadisticas,
          est = Some e
          /\ total_bases e = 300%nat
          /\ bases_no_revalorizadas e = 24%nat
          /\ bases_revalorizadas e = 276%nat)
  /\ (forall (bases_reforma : list base_dict) (e : estadisticas),
        _procesar_calculo_reforma self = Ok (bases_reforma, Some e) ->
        let N := Z.to_nat (bases_incluidas (parametros_año_jubilacion self)) in
        (forall (k : nat) (x : base_dict),
           nth_error bases_reforma k = Some x ->
           periodo x = if (k <? 24)%nat then "no_revalorizado" else "revalorizado")
        /\ total_bases e = N
        /\ bases_no_revalorizadas e = Nat.min N 24
        /\ bases_revalorizadas e = (N - 24)%nat).
Proof.
  split.
  - intros bs est H. unfold _procesar_calculo_prereforma in H.
    inv_bind H as ventana Hv. inv_bind H as con Hcon.
    inv_bind H as ordenadas Hord. inv_bind H as est' Hest. injection H as <- <-.
    destruct (calculo_periodos self true _ _ _ Hv Hcon Hord) as [Hlen Hk].
    split; [exact Hk|].
    destruct est' as [e|].
    + exists e. split; [reflexivity|].
      destruct (estadisticas_por_posicion _ _ _ _ Hk Hest) as (H1 & H2 & H3).
      rewrite Hlen in H1, H2, H3. repeat split; assumption.
    + unfold _calcular_estadisticas_para_bases in Hest.
      destruct ordenadas; [discriminate Hlen|].
      destruct (Qeq_bool 350 0); discriminate.
  - intros bs e H N. unfold _procesar_calculo_reforma in H.
    inv_bind H as ventana Hv. inv_bind H as con Hcon.
    inv_bind H as ordenadas Hord. inv_bind H as est' Hest. injection H as <- ->.
    destruct (calculo_periodos self false _ _ _ Hv Hcon Hord) as [Hlen Hk].
    split; [exact Hk|].
    destruct (estadisticas_por_posicion _ _ _ _ Hk Hest) as (H1 & H2 & H3).
    rewrite Hlen in H1, H2, H3. repeat split; assumption.
Qed.

(** The pre-reform calculation of the sample data. *)
Lemma X7_not_revalued_positions_witness :
  exists (bases_prereforma : list base_dict) (e : estadisticas),
    _procesar_calculo_prereforma simulador_ejemplo = Ok (bases_prereforma, Some e)
    /\ bases_no_revalorizadas e = 24%nat
    /\ bases_revalorizadas e = 276%nat.
Proof.
  destruct (_procesar_calculo_prereforma simulador_ejemplo) as [[bs est]|err] eqn:E.
  - destruct (proj1 (X7_not_revalued_positions simulador_ejemplo) bs est E)
      as (_ & e & -> & _ & H1 & H2).
    exists bs, e. split; [reflexivity|]. split; assumption.
  - vm_compute in E. discriminate E.
Defined.

(** ** The simulator after the complete calculation *)

(** X8: after the complete calculation of a constructed simulator, the
    simulator holds the chosen bases and is otherwise unchanged.  Each sum
    that the statistics of the result report is the value of the method of
    the same name, [suma_periodo_revalorizado],
    [suma_periodo_no_revalorizado] or [suma_total], passed through
    [round(., 2)]: the methods return the sums as they are computed.  And
    [_calcular_estadisticas] returns the statistics of the chosen bases for
    the divisor of the parameters: the counts and sums of the result, and
    the very statistics of the result when the reform calculation was
    chosen. *)
Theorem X8_state_after_calculation (config : ConfigManager) (be : bases_extraidas)
    (fj ra sx : string) (self self' : SimuladorPeriodos) (r : resultado_completo) :
  __init__ config be fj ra sx = Ok self ->
  procesar_bases_completo self = Ok (self', r) ->
  self' = asignar_bases_procesadas self (bases_procesadas_r r)
  /\ exists e e' : estadisticas,
       estadisticas_r r = Some e
       /\ suma_periodo_revalorizado e = round2 (suma_periodo_revalorizado_m self')
       /\ suma_periodo_no_revalorizado e = round2 (suma_periodo_no_revalorizado_m self')
       /\ suma_total e = round2 (suma_total_m self')
       /\ _calcular_estadisticas self' = Ok (Some e')
       /\ _calcular_estadisticas self'
          = _calcular_estadisticas_para_bases self (bases_procesadas_r r)
              (divisor_base_reguladora (parametros_año_jubilacion self))
       /\ total_bases e' = total_bases e
       /\ bases_revalorizadas e' = bases_revalorizadas e
       /\ bases_no_revalorizadas e' = bases_no_revalorizadas e
       /\ suma_periodo_revalorizado e' = suma_periodo_revalorizado e
       /\ suma_periodo_no_revalorizado e' = suma_periodo_no_revalorizado e
       /\ suma_total e' = suma_total e
       /\ (calculo_elegido r = "reforma_rd2_2023" -> e' = e).
Proof.
  intros Hinit H.
  unfold procesar_bases_completo in H.
  inv_bind H as ref Href. destruct ref as [br er].
  inv_bind H as pre Hpre. destruct pre as [bp ep].
  inv_bind H as ele Hele. destruct ele as [[bel eel] cel].
  injection H as <- <-.
  cbn [bases_procesadas_r estadisticas_r calculo_elegido _generar_resultado_completo].
  split; [reflexivity|].
  apply elegir_Ok in Hele. destruct Hele as (sr & sp & -> & -> & Hx).
  unfold _procesar_calculo_reforma in Href.
  inv_bind Href as v1 Hv1. inv_bind Href as c1 Hc1. inv_bind Href as o1 Ho1.
  inv_bind Href as e1 He1. injection Href as <- ->.
  unfold _procesar_calculo_prereforma in Hpre.
  inv_bind Hpre as v2 Hv2. inv_bind Hpre as c2 Hc2. inv_bind Hpre as o2 Ho2.
  inv_bind Hpre as e2 He2. injection Hpre as <- ->.
  assert (Hdiv : Qeq_bool (divisor_base_reguladora (parametros_año_jubilacion self)) 0
                 = false).
  { unfold _calcular_estadisticas_para_bases in He1. destruct o1; [discriminate|].
    destruct (Qeq_bool _ 0); [discriminate | reflexivity]. }
  assert (G : forall (l : list base_dict) (d : Q) (e : estadisticas),
             _calcular_estadisticas_para_bases self l d = Ok (Some e) ->
             exists e' : estadisticas,
               suma_periodo_revalorizado e
               = round2 (suma_periodo_revalorizado_m (asignar_bases_procesadas self l))
               /\ suma_periodo_no_revalorizado e
                  = round2 (suma_periodo_no_revalorizado_m (asignar_bases_procesadas self l))
               /\ suma_total e = round2 (suma_total_m (asignar_bases_procesadas self l))
               /\ _calcular_estadisticas (asignar_bases_procesadas self l) = Ok (Some e')
               /\ _calcular_estadisticas (asignar_bases_procesadas self l)
                  = _calcular_estadisticas_para_bases self l
                      (divisor_base_reguladora (parametros_año_jubilacion self))
               /\ total_bases e' = total_bases e
               /\ bases_revalorizadas e' = bases_revalorizadas e
               /\ bases_no_revalorizadas e' = bases_no_revalorizadas e
               /\ suma_periodo_revalorizado e' = suma_periodo_revalorizado e
               /\ suma_periodo_no_revalorizado e' = suma_periodo_no_revalorizado e
               /\ suma_total e' = suma_total e
               /\ (d = divisor_base_reguladora (parametros_año_jubilacion self) -> e' = e)).
  { intros l d e He.
    unfold _calcular_estadisticas, suma_total_m, suma_periodo_revalorizado_m,
      suma_periodo_no_revalorizado_m, _calcular_estadisticas_para_bases in *.
    cbn [bases_procesadas asignar_bases_procesadas parametros_año_jubilacion].
    destruct l as [|x0 l0] eqn:El; [discriminate|]. rewrite <- El in *.
    rewrite Hdiv.
    destruct (Qeq_bool d 0) eqn:Ed; [discriminate|]. injection He as <-.
    eexists. cbn.
    do 11 (split; [reflexivity|]).
    intros ->. reflexivity. }
  destruct (Qle_bool (base_reguladora sp) (base_reguladora sr));
    injection Hx as -> -> ->.
  - destruct (G _ _ _ He1)
      as (e' & A1 & A2 & A3 & A4 & A5 & A6 & A7 & A8 & A9 & A10 & A11 & A12).
    exists sr, e'. split; [reflexivity|]. repeat (split; [assumption|]).
    intros _. apply A12. reflexivity.
  - destruct (G _ _ _ He2)
      as (e' & A1 & A2 & A3 & A4 & A5 & A6 & A7 & A8 & A9 & A10 & A11 & A12).
    exists sp, e'. split; [reflexivity|]. repeat (split; [assumption|]).
    discriminate.
Qed.

(** The complete calculation of the sample data. *)
Lemma X8_state_after_calculation_witness :
  exists (self' : SimuladorPeriodos) (r : resultado_completo) (e : estadisticas),
    procesar_bases_completo simulador_ejemplo = Ok (self', r)
    /\ estadisticas_r r = Some e
    /\ suma_total e = round2 (suma_total_m self').
Proof.
  destruct (procesar_bases_completo simulador_ejemplo) as [[self' r]|err] eqn:E.
  - destruct (X8_state_after_calculation config_ejemplo bases_ejemplo "06/2025" "GENERAL"
                "MASCULINO" simulador_ejemplo self' r)
      as (_ & e & e' & He & _ & _ & Hs & _).
    + vm_compute. reflexivity.
    + exact E.
    + exists self', r, e. split; [reflexivity|]. split; [exact He | exact Hs].
  - vm_compute in E. discriminate E.
Defined.

(** ** Years at the same distance *)

Lemma py_min_fold_primero {A} (key : A -> Z) (r pre mid : list A) (b : A) :
  Forall (fun y => key b < key y) pre ->
  Forall (fun y => key b <= key y) mid ->
  let x := fold_left (fun best y => if key y <? key best then y else best) r b in
  exists pre' post' : list A,
    pre ++ b :: mid ++ r = pre' ++ x :: post'
    /\ Forall (fun y => key x < key y) pre'
    /\ Forall (fun y => key x <= key y) post'.
Proof.
  revert pre mid b; induction r as [|y r IH]; intros pre mid b Hpre Hmid; simpl.
  - exists pre, mid. rewrite app_nil_r. repeat split; assumption.
  - destruct (key y <? key b) eqn:E.
    + apply Z.ltb_lt in E.
      destruct (IH (pre ++ b :: mid) [] y) as (pre' & post' & Heq & H1 & H2).
      * apply Forall_app. split.
        -- eapply Forall_impl; [exact Hpre|]. intros z Hz. simpl in Hz. lia.
        -- constructor; [lia|]. eapply Forall_impl; [exact Hmid|].
           intros z Hz. simpl in Hz. lia.
      * constructor.
      * exists pre', post'. split; [|split; assumption].
        rewrite <- Heq. simpl. rewrite <- !app_assoc. reflexivity.
    + apply Z.ltb_ge in E.
      destruct (IH pre (mid ++ [y]) b) as (pre' & post' & Heq & H1 & H2).
      * exact Hpre.
      * apply Forall_app. split; [exact Hmid|]. constructor; [lia | constructor].
      * exists pre', post'. split; [|split; assumption].
        rewrite <- Heq. rewrite <- !app_assoc. reflexivity.
Qed.

(** [min(l, key=key)] returns the first of the elements with the smallest
    key. *)
Lemma py_min_primero {A} (key : A -> Z) (l : list A) (x : A) :
  py_min key l = Ok x ->
  exists pre post : list A,
    l = pre ++ x :: post
    /\ Forall (fun y => key x < key y) pre
    /\ Forall (fun y => key x <= key y) post.
Proof.
  destruct l as [|b r]; simpl; [discriminate|]. intros [= <-].
  destruct (py_min_fold_primero key r [] [] b) as (pre & post & Heq & H1 & H2);
    [constructor | constructor |].
  exists pre, post. split; [exact Heq | split; assumption].
Qed.

Lemma insertar_ordenada (x : Z) (l : list Z) :
  StronglySorted Z.le l -> StronglySorted Z.le (insertar x l).
Proof.
  induction 1 as [|y r Hr IH Hy]; simpl.
  - constructor; constructor.
  - destruct (x <=? y) eqn:E.
    + apply Z.leb_le in E. constructor; [constructor; assumption|].
      constructor; [exact E|]. eapply Forall_impl; [exact Hy|].
      intros z Hz. simpl in Hz. lia.
    + apply Z.leb_gt in E. constructor; [exact IH|].
      eapply Permutation_Forall.
      * apply Permutation_sym, insertar_perm.
      * constructor; [lia | exact Hy].
Qed.

Lemma sorted_ordenada (l : list Z) : StronglySorted Z.le (sorted l).
Proof.
  induction l as [|x r IH]; [constructor|].
  unfold sorted in *. simpl. apply insertar_ordenada, IH.
Qed.

Lemma StronglySorted_medio (pre post : list Z) (c : Z) :
  StronglySorted Z.le (pre ++ c :: post) -> Forall (fun k => c <= k) post.
Proof.
  induction pre as [|p pre IH]; simpl; intros H.
  - inversion H; assumption.
  - inversion H; subst. apply IH. assumption.
Qed.

(** X9: which year the two lookups fall back to when several years of the
    table are at the smallest distance from the year asked for: the
    parameters of computation are those of the earliest such year; the caps
    are those of the one that comes first in the table. *)
Theorem X9_equidistant_years (self : SimuladorPeriodos) :
  (forall p : parametros,
     dict_get (parametros_computo self) (year (fecha_jubilacion self)) = None ->
     get_parametros_computo self = Ok p ->
     exists cercano : Z,
       dict_get (parametros_computo self) cercano = Some p
       /\ forall k : Z,
            In k (keys (parametros_computo self)) ->
            Z.abs (cercano - year (fecha_jubilacion self))
            <= Z.abs (k - year (fecha_jubilacion self))
            /\ (Z.abs (k - year (fecha_jubilacion self))
                = Z.abs (cercano - year (fecha_jubilacion self)) ->
                cercano <= k))
  /\ (forall (año : Z) (t : topes),
        dict_get (topes_cotizacion self) año = None ->
        _obtener_topes_año self año = Ok t ->
        exists (cercano : Z) (antes despues : list Z),
          dict_get (topes_cotizacion self) cercano = Some t
          /\ keys (topes_cotizacion self) = antes ++ cercano :: despues
          /\ Forall (fun k => Z.abs (cercano - año) < Z.abs (k - año)) antes
          /\ Forall (fun k => Z.abs (cercano - año) <= Z.abs (k - año)) despues).
Proof.
  split.
  - intros p Hnone H. unfold get_parametros_computo in H. rewrite Hnone in H.
    set (a := year (fecha_jubilacion self)) in *.
    inv_bind H as q Hq. inv_bind Hq as c Hc.
    assert (Hp : p = q) by (injection H as <-; destruct q; reflexivity).
    subst q. clear H.
    unfold getitem in Hq.
    destruct (dict_get (parametros_computo self) c) as [v|] eqn:Ev; [|discriminate].
    injection Hq as ->.
    exists c. split; [exact Ev|].
    destruct (py_min_primero _ _ _ Hc) as (pre & post & Heq & Hpre & Hpost).
    pose proof (sorted_ordenada (keys (parametros_computo self))) as Hs.
    rewrite Heq in Hs. apply StronglySorted_medio in Hs.
    intros k Hk.
    apply (Permutation_in _ (Permutation_sym (sorted_perm _))) in Hk.
    rewrite Heq in Hk. apply in_app_or in Hk.
    rewrite Forall_forall in Hpre, Hpost, Hs.
    destruct Hk as [Hk | [<- | Hk]].
    + apply list_elem_of_In, Hpre in Hk. simpl in Hk. split; lia.
    + split; lia.
    + pose proof (Hpost _ (proj2 (list_elem_of_In _ _) Hk)) as H1.
      pose proof (Hs _ (proj2 (list_elem_of_In _ _) Hk)) as H2.
      simpl in H1. split; [lia | intros _; exact H2].
  - intros año t Hnone H. unfold _obtener_topes_año in H. rewrite Hnone in H.
    inv_bind H as c Hc. unfold getitem in H.
    destruct (dict_get (topes_cotizacion self) c) as [v|] eqn:Ev; [|discriminate].
    injection H as ->.
    destruct (py_min_primero _ _ _ Hc) as (pre & post & Heq & Hpre & Hpost).
    exists c, pre, post. repeat split; assumption.
Qed.

(** The years 2025 and 2023 for a lookup of 2024: the parameters are those
    of 2023, the caps those of 2025, the first of the table. *)
Lemma X9_equidistant_years_witness :
  (exists p : parametros,
     get_parametros_computo simulador_2024 = Ok p
     /\ dict_get (parametros_computo simulador_2024) 2023 = Some p)
  /\ (exists t : topes,
        _obtener_topes_año simulador_2024 2024 = Ok t
        /\ base_minima_mensual t = 1080%Q).
Proof.
  destruct (X9_equidistant_years simulador_2024) as [Hp Ht]. split.
  - destruct (get_parametros_computo simulador_2024) as [p|e] eqn:E;
      [|vm_compute in E; discriminate E].
    destruct (Hp p eq_refl eq_refl) as (c & Hc & Hk).
    exists p. split; [reflexivity|].
    assert (H23 : In 2023 (keys (parametros_computo simulador_2024)))
      by (right; left; reflexivity).
    assert (H25 : In 2025 (keys (parametros_computo simulador_2024)))
      by (left; reflexivity).
    destruct (Hk 2023 H23) as [L1 T1]. destruct (Hk 2025 H25) as [L2 T2].
    assert (Hin : In c (keys (parametros_computo simulador_2024))).
    { clear -Hc. revert Hc. generalize (parametros_computo simulador_2024).
      induction d as [|[k v] r IH]; simpl; [discriminate|].
      destruct (c =? k) eqn:Ek; [apply Z.eqb_eq in Ek; now left | right; auto]. }
    assert (Hc23 : c = 2023).
    { vm_compute in Hin. destruct Hin as [<- | [<- | []]]; [|reflexivity].
      change (year (fecha_jubilacion simulador_2024)) with 2024 in T1.
      specialize (T1 eq_refl). lia. }
    rewrite <- Hc23. exact Hc.
  - destruct (_obtener_topes_año simulador_2024 2024) as [t|e] eqn:E;
      [|vm_compute in E; discriminate E].
    destruct (Ht 2024 t eq_refl E) as (c & pre & post & Hc & Hkeys & Hpre & _).
    exists t. split; [reflexivity|].
    vm_compute in E. injection E as <-. reflexivity.
Defined.

(** ** Grouping by month *)

Lemma buscar_mes_agrupar_base (m : string) (g : list (string * list base_data))
    (dato : base_data) :
  buscar_mes m (agrupar_base g dato)
  = if String.eqb (mes_anyo_d dato) m
    then Some (match buscar_mes m g with Some l => l ++ [dato] | None => [dato] end)
    else buscar_mes m g.
Proof.
  induction g as [|[m' l] r IH]; simpl.
  - rewrite String.eqb_sym. destruct (String.eqb (mes_anyo_d dato) m); reflexivity.
  - destruct (String.eqb_spec (mes_anyo_d dato) m') as [E|E]; simpl.
    + subst m'. destruct (String.eqb_spec m (mes_anyo_d dato)) as [->|N].
      * rewrite String.eqb_refl. reflexivity.
      * destruct (String.eqb_spec (mes_anyo_d dato) m); [congruence | reflexivity].
    + destruct (String.eqb_spec m m') as [->|N].
      * destruct (String.eqb_spec (mes_anyo_d dato) m'); [congruence | reflexivity].
      * exact IH.
Qed.

Lemma buscar_mes_In (m : string) (g : list (string * list base_data)) (l : list base_data) :
  List.NoDup (map fst g) -> In (m, l) g -> buscar_mes m g = Some l.
Proof.
  induction g as [|[m' l'] r IH]; simpl; intros Hnd Hin; [contradiction|].
  inversion Hnd as [|? ? Hnot Hr]; subst.
  destruct Hin as [[= -> ->] | Hin].
  - rewrite String.eqb_refl. reflexivity.
  - destruct (String.eqb_spec m m') as [->|N]; [|apply IH; assumption].
    exfalso. apply Hnot. apply (in_map fst) in Hin. exact Hin.
Qed.

Lemma buscar_mes_None (m : string) (g : list (string * list base_data)) :
  buscar_mes m g = None <-> ~ In m (map fst g).
Proof.
  induction g as [|[m' l'] r IH]; simpl; [tauto|].
  destruct (String.eqb_spec m m') as [->|N].
  - split; [discriminate | intros H; exfalso; apply H; now left].
  - rewrite IH. split; [intros H [E|E]; [congruence | tauto] | tauto].
Qed.

Lemma agrupar_base_claves (g : list (string * list base_data)) (dato : base_data) :
  map fst (agrupar_base g dato)
  = map fst g ++ match buscar_mes (mes_anyo_d dato) g with
                 | Some _ => []
                 | None => [mes_anyo_d dato]
                 end.
Proof.
  induction g as [|[m l] r IH]; simpl; [reflexivity|].
  destruct (String.eqb (mes_anyo_d dato) m); simpl.
  - rewrite app_nil_r. reflexivity.
  - rewrite IH. reflexivity.
Qed.

Lemma agrupar_base_NoDup (g : list (string * list base_data)) (dato : base_data) :
  List.NoDup (map fst g) -> List.NoDup (map fst (agrupar_base g dato)).
Proof.
  intros H. rewrite agrupar_base_claves.
  destruct (buscar_mes (mes_anyo_d dato) g) eqn:E.
  - rewrite app_nil_r. exact H.
  - apply buscar_mes_None in E.
    apply List.NoDup_app.
    + exact H.
    + constructor; [simpl; tauto | constructor].
    + intros x Hx [<-|[]]. contradiction.
Qed.

(** What the grouping of step 1 returns: one entry per month-year, holding
    the records of that month-year in their order. *)
Lemma agrupar_bases_spec (l : list base_data) (g0 g : list (string * list base_data)) :
  agrupar_bases l g0 = Ok g ->
  List.NoDup (map fst g0) ->
  List.NoDup (map fst g)
  /\ Forall (fun dato => (0 <= base_d dato)%Q) l
  /\ forall m : string,
       buscar_mes m g
       = match grupo m l with
         | [] => buscar_mes m g0
         | _ :: _ => Some (match buscar_mes m g0 with
                           | Some l0 => l0 ++ grupo m l
                           | None => grupo m l
                           end)
         end.
Proof.
  revert g0; induction l as [|x r IH]; simpl; intros g0 H Hnd.
  - injection H as <-. repeat split; [exact Hnd | constructor].
  - destruct (Qlt_bool (base_d x) 0) eqn:E; [discriminate|].
    apply Qlt_bool_false in E.
    destruct (IH _ H (agrupar_base_NoDup g0 x Hnd)) as (Hnd' & Hpos & Hb).
    split; [exact Hnd'|]. split; [constructor; assumption|].
    intros m. rewrite Hb, buscar_mes_agrupar_base. unfold grupo. simpl.
    fold (grupo m r).
    destruct (String.eqb (mes_anyo_d x) m).
    + destruct (grupo m r) as [|y ys]; destruct (buscar_mes m g0) as [l0|];
        try reflexivity; rewrite <- app_assoc; reflexivity.
    + reflexivity.
Qed.

Lemma grupo_In (m : string) (l : list base_data) (dato : base_data) :
  In dato (grupo m l) <-> In dato l /\ mes_anyo_d dato = m.
Proof.
  unfold grupo. rewrite filter_In. split; intros [H1 H2]; split; try assumption.
  - apply String.eqb_eq, H2.
  - apply String.eqb_eq, H2.
Qed.

(** The entries of the grouping of the whole list. *)
Lemma agrupar_bases_entradas (l : list base_data) (g : list (string * list base_data)) :
  agrupar_bases l [] = Ok g ->
  List.NoDup (map fst g)
  /\ Forall (fun dato => (0 <= base_d dato)%Q) l
  /\ (forall (m : string) (lm : list base_data),
        In (m, lm) g <-> lm = grupo m l /\ lm <> []).
Proof.
  intros H. destruct (agrupar_bases_spec l [] g H) as (Hnd & Hpos & Hb); [constructor|].
  split; [exact Hnd|]. split; [exact Hpos|].
  intros m lm. split.
  - intros Hin. pose proof (buscar_mes_In _ _ _ Hnd Hin) as Hs.
    rewrite Hb in Hs. simpl in Hs.
    destruct (grupo m l) as [|y ys]; [discriminate|].
    injection Hs as <-. split; [reflexivity | discriminate].
  - intros [-> Hne]. specialize (Hb m). simpl in Hb.
    destruct (grupo m l) as [|y ys] eqn:Eg; [congruence|].
    clear -Hb. induction g as [|[m' l'] r IH]; simpl in *; [discriminate|].
    destruct (String.eqb_spec m m') as [->|N].
    + injection Hb as ->. now left.
    + right. apply IH, Hb.
Qed.

Lemma redondeo_par_mono (x y : Q) : (x <= y)%Q -> redondeo_par x <= redondeo_par y.
Proof.
  intros H. unfold redondeo_par. cbv zeta.
  pose proof (Qfloor_resp_le _ _ H) as Hf.
  destruct (Z.eq_dec (Qfloor x) (Qfloor y)) as [E|Ne].
  - rewrite <- E.
    destruct (Qcompare_spec (x - inject_Z (Qfloor x)) (1 # 2)),
             (Qcompare_spec (y - inject_Z (Qfloor x)) (1 # 2));
      destruct (Z.even (Qfloor x)); try lia; exfalso; lra.
  - destruct (Qcompare (x - inject_Z (Qfloor x)) (1 # 2)),
             (Qcompare (y - inject_Z (Qfloor y)) (1 # 2));
      destruct (Z.even (Qfloor x)), (Z.even (Qfloor y)); lia.
Qed.

Lemma round2_mono (x y : Q) : (x <= y)%Q -> (round2 x <= round2 y)%Q.
Proof.
  intros H. unfold round2.
  assert (Hz : redondeo_par (x * 100) <= redondeo_par (y * 100))
    by (apply redondeo_par_mono; lra).
  unfold Qdiv. apply Qmult_le_compat_r.
  - rewrite <- Zle_Qle. exact Hz.
  - vm_compute. discriminate.
Qed.

Lemma _obtener_topes_año_ext (s1 s2 : SimuladorPeriodos) (año : Z) :
  topes_cotizacion s1 = topes_cotizacion s2 ->
  _obtener_topes_año s1 año = _obtener_topes_año s2 año.
Proof. intros H. unfold _obtener_topes_año. rewrite H. reflexivity. Qed.

(** The steps of the constructor that build the list of bases. *)
Lemma __init___bases (config : ConfigManager) (be : bases_extraidas)
    (fj ra sx : string) (self : SimuladorPeriodos) :
  __init__ config be fj ra sx = Ok self ->
  exists (l : list base_data) (g : list (string * list base_data))
         (procesadas : list BaseCotizacion) (self0 : SimuladorPeriodos),
    be = Bases l
    /\ topes_cotizacion self0 = topes_cotizacion self
    /\ agrupar_bases l [] = Ok g
    /\ mapM (procesar_mes self0) g = Ok procesadas
    /\ ordenar_por_fecha mes_anyo procesadas = Ok (bases self).
Proof.
  unfold __init__. intros H.
  inv_bind H as u Hval. inv_bind H as fecha Hfecha.
  inv_bind H as bs Hbs. inv_bind H as ps Hps. injection H as <-.
  unfold _procesar_bases_extraidas in Hbs.
  inv_bind Hbs as lista Hl. inv_bind Hbs as grupos Hg. inv_bind Hbs as procesadas Hp.
  destruct be as [| | |l]; try discriminate. injection Hl as <-.
  eexists l, grupos, procesadas, _.
  split; [reflexivity|]. split; [|split; [exact Hg|split; [exact Hp|exact Hbs]]].
  reflexivity.
Qed.

(** What step 2 makes of the records of one month-year. *)
Lemma procesar_mes_spec (self : SimuladorPeriodos) (m : string)
    (lm : list base_data) (b : BaseCotizacion) :
  procesar_mes self (m, lm) = Ok b ->
  lm <> [] ->
  (exists dato, lm = [dato] /\ b = base_de_dato dato)
  \/ ((2 <= length lm)%nat
      /\ exists (año : Z) (t : topes) (principal : base_data) (md : metadatos),
           año_de_fecha m = Ok año
           /\ _obtener_topes_año self año = Ok t
           /\ py_max_Q base_d lm = Ok principal
           /\ metadatos_pluriactividad b = Some md
           /\ mes_anyo b = m
           /\ regimen b = regimen_d principal
           /\ empresa b
              = String.append "PLURIACTIVIDAD_"
                  (String.append (str_nat (length lm)) "_EMPRESAS")
           /\ es_pluriactividad md = true
           /\ bases_individuales md = lm
           /\ base_bruta md = round2 (py_sum (map base_d lm))
           /\ empresas_detalle md = map empresa_d lm
           /\ let bruta := py_sum (map base_d lm) in
              ((bruta < base_minima_mensual t)%Q
               /\ tope_aplicado md = "minimo"
               /\ (base b == round2 (base_minima_mensual t))%Q)
              \/ ((base_minima_mensual t <= bruta)%Q
                  /\ (base_maxima_mensual t < bruta)%Q
                  /\ tope_aplicado md = "maximo"
                  /\ (base b == round2 (base_maxima_mensual t))%Q)
              \/ ((base_minima_mensual t <= bruta <= base_maxima_mensual t)%Q
                  /\ tope_aplicado md = "ninguno"
                  /\ (base b == round2 bruta)%Q)).
Proof.
  unfold procesar_mes. destruct lm as [|x [|y r]]; intros H Hne; [congruence| |].
  - injection H as <-. left. exists x. split; reflexivity.
  - right. split; [simpl; lia|].
    cbn [_validar_coherencia_pluriactividad negb] in H.
    inv_bind H as a Ha. injection H as <-.
    unfold _agregar_bases_mes, _obtener_base_minima_año in Ha.
    inv_bind Ha as año Haño. inv_bind Ha as tm Htm.
    inv_bind Htm as t Ht. injection Htm as <-.
    inv_bind Ha as t' Ht'. rewrite Ht in Ht'. injection Ht' as <-.
    set (bruta := py_sum (map base_d (x :: y :: r))) in *.
    destruct (Qlt_bool bruta (base_minima_mensual t)) eqn:Emin;
      [| destruct (Qlt_bool (base_maxima_mensual t) bruta) eqn:Emax];
      inv_bind Ha as p Hp; injection Ha as <-;
      eexists año, t, p, _; cbn;
      (split; [exact Haño|]); (split; [exact Ht|]); (split; [exact Hp|]);
      do 8 (split; [reflexivity|]).
    + left. apply Qlt_bool_iff in Emin. split; [exact Emin|].
      split; [reflexivity | apply round2_idempotente].
    + right; left. apply Qlt_bool_false in Emin. apply Qlt_bool_iff in Emax.
      split; [exact Emin|]. split; [exact Emax|].
      split; [reflexivity | apply round2_idempotente].
    + right; right. apply Qlt_bool_false in Emin, Emax.
      split; [split; assumption|].
      split; [reflexivity | apply round2_idempotente].
Qed.

Lemma procesar_mes_ext (s1 s2 : SimuladorPeriodos) (entrada : string * list base_data) :
  topes_cotizacion s1 = topes_cotizacion s2 ->
  procesar_mes s1 entrada = procesar_mes s2 entrada.
Proof.
  intros H.
  unfold procesar_mes, _agregar_bases_mes, _obtener_base_minima_año, _obtener_topes_año,
    _validar_coherencia_pluriactividad.
  rewrite H. reflexivity.
Qed.

Lemma procesar_mes_mes (self : SimuladorPeriodos) (l : list base_data) (m : string)
    (b : BaseCotizacion) :
  procesar_mes self (m, grupo m l) = Ok b -> grupo m l <> [] -> mes_anyo b = m.
Proof.
  intros H Hne. destruct (procesar_mes_spec _ _ _ _ H Hne) as [(dato & E & ->) | (_ & H2)].
  - assert (Hin : In dato (grupo m l)) by (rewrite E; now left).
    apply grupo_In in Hin. exact (proj2 Hin).
  - destruct H2 as (a & t & p & md & _ & _ & _ & _ & Hm & _). exact Hm.
Qed.

Lemma Forall2_In_r {A B} (R : A -> B -> Prop) (l : list A) (l' : list B) (y : B) :
  Forall2 R l l' -> In y l' -> exists x, In x l /\ R x y.
Proof.
  induction 1 as [|a b' r r' Hab _ IH]; simpl; [contradiction|].
  intros [<-|Hin].
  - exists a. split; [now left | exact Hab].
  - destruct (IH Hin) as (x & Hx & Hr). exists x. split; [now right | exact Hr].
Qed.

Lemma Forall2_In_l {A B} (R : A -> B -> Prop) (l : list A) (l' : list B) (x : A) :
  Forall2 R l l' -> In x l -> exists y, In y l' /\ R x y.
Proof.
  induction 1 as [|a b' r r' Hab _ IH]; simpl; [contradiction|].
  intros [<-|Hin].
  - exists b'. split; [now left | exact Hab].
  - destruct (IH Hin) as (y & Hy & Hr). exists y. split; [now right | exact Hr].
Qed.

(** The list of bases of a constructed simulator, month by month. *)
Lemma __init___procesadas (config : ConfigManager) (l : list base_data)
    (fj ra sx : string) (self : SimuladorPeriodos) :
  __init__ config (Bases l) fj ra sx = Ok self ->
  Forall (fun dato => (0 <= base_d dato)%Q) l
  /\ List.NoDup (map mes_anyo (bases self))
  /\ (forall b : BaseCotizacion,
        In b (bases self) ->
        grupo (mes_anyo b) l <> []
        /\ procesar_mes self (mes_anyo b, grupo (mes_anyo b) l) = Ok b)
  /\ (forall m : string,
        grupo m l <> [] -> exists b, In b (bases self) /\ mes_anyo b = m).
Proof.
  intros H.
  destruct (__init___bases _ _ _ _ _ _ H)
    as (l' & g & procesadas & self0 & [= <-] & Htopes & Hg & Hp & Ho).
  destruct (agrupar_bases_entradas _ _ Hg) as (Hnd & Hpos & Hent).
  destruct (ordenar_por_fecha_perm _ _ _ Ho) as [Hperm _].
  apply mapM_Forall2 in Hp.
  assert (Hmes : forall e b, In e g -> procesar_mes self0 e = Ok b ->
                             mes_anyo b = fst e
                             /\ grupo (mes_anyo b) l <> []
                             /\ procesar_mes self (mes_anyo b, grupo (mes_anyo b) l) = Ok b).
  { intros [m lm] b Hin Hb. apply Hent in Hin. destruct Hin as [-> Hne].
    pose proof (procesar_mes_mes _ _ _ _ Hb Hne) as Hm. rewrite Hm.
    split; [reflexivity|]. split; [exact Hne|].
    rewrite <- (procesar_mes_ext self0 self _ Htopes). exact Hb. }
  split; [exact Hpos|]. split; [|split].
  - rewrite Hperm.
    replace (map mes_anyo procesadas) with (map fst g); [exact Hnd|].
    clear -Hp Hmes. induction Hp as [|e b r r' He _ IH]; [reflexivity|].
    simpl. f_equal.
    + symmetry. apply (Hmes e b); [now left | exact He].
    + apply IH. intros e' b' Hin. apply Hmes. now right.
  - intros b Hb. apply (Permutation_in _ Hperm) in Hb.
    destruct (Forall2_In_r _ _ _ _ Hp Hb) as (e & He & Hr).
    destruct (Hmes e b He Hr) as (_ & H1 & H2). split; assumption.
  - intros m Hne.
    assert (Hin : In (m, grupo m l) g) by (apply Hent; split; [reflexivity | exact Hne]).
    destruct (Forall2_In_l _ _ _ _ Hp Hin) as (b & Hb & Hr).
    exists b. split.
    + apply (Permutation_in _ (Permutation_sym Hperm)), Hb.
    + apply (Hmes _ _ Hin Hr).
Qed.

Lemma insertar_desc_descendente {A} (x : Z * A) (l : list (Z * A)) :
  StronglySorted (fun a b => fst b <= fst a) l ->
  StronglySorted (fun a b => fst b <= fst a) (insertar_desc x l).
Proof.
  induction l as [|y r IH]; simpl; intros H.
  - constructor; constructor.
  - inversion H as [|? ? Hr Hy]; subst.
    destruct (fst y <=? fst x) eqn:E.
    + apply Z.leb_le in E. constructor; [exact H|].
      constructor; [exact E|].
      eapply Forall_impl; [exact Hy|]. intros z Hz. simpl in Hz. lia.
    + apply Z.leb_gt in E. constructor; [apply IH, Hr|].
      eapply Permutation_Forall.
      * apply Permutation_sym, insertar_desc_perm.
      * constructor; [lia | exact Hy].
Qed.

Lemma sort_reverse_ordenada {A} (l : list (Z * A)) :
  StronglySorted (fun a b => fst b <= fst a) (sort_reverse l).
Proof.
  induction l as [|x r IH]; [constructor|].
  unfold sort_reverse in *. simpl. apply insertar_desc_descendente, IH.
Qed.

Lemma StronglySorted_nth_error {A} (R : A -> A -> Prop) (l : list A) :
  StronglySorted R l ->
  forall (i j : nat) (x y : A),
    (i < j)%nat -> nth_error l i = Some x -> nth_error l j = Some y -> R x y.
Proof.
  induction 1 as [|a r Hr IH Ha]; intros i j x y Hij Hi Hj.
  - destruct i; discriminate.
  - destruct j as [|j]; [lia|]. destruct i as [|i]; simpl in Hi, Hj.
    + injection Hi as <-. apply nth_error_In in Hj.
      rewrite List.Forall_forall in Ha. apply Ha, Hj.
    + apply (IH i j); [lia | assumption | assumption].
Qed.

(** The sort leaves the dates in descending order. *)
Lemma ordenar_por_fecha_ordenada {A} (mes : A -> string) (l l' : list A) :
  ordenar_por_fecha mes l = Ok l' ->
  forall (i j : nat) (x y : A) (di dj : Z),
    (i < j)%nat -> nth_error l' i = Some x -> nth_error l' j = Some y ->
    strptime (mes x) = Ok di -> strptime (mes y) = Ok dj -> dj <= di.
Proof.
  unfold ordenar_por_fecha. intros H. inv_bind H as claves Hc. injection H as <-.
  destruct (mapM_con_clave _ _ _ Hc) as [_ Hkeys].
  assert (Hk : forall kb, In kb (sort_reverse claves) ->
                          strptime (mes (snd kb)) = Ok (fst kb)).
  { intros kb Hin. apply (Permutation_in _ (sort_reverse_perm claves)) in Hin.
    rewrite Forall_forall in Hkeys. apply Hkeys, list_elem_of_In, Hin. }
  intros i j x y di dj Hij Hi Hj Hx Hy.
  rewrite nth_error_map in Hi, Hj.
  destruct (nth_error (sort_reverse claves) i) as [ki|] eqn:Ei; [|discriminate].
  destruct (nth_error (sort_reverse claves) j) as [kj|] eqn:Ej; [|discriminate].
  injection Hi as <-. injection Hj as <-.
  pose proof (StronglySorted_nth_error _ _ (sort_reverse_ordenada claves) _ _ _ _ Hij Ei Ej)
    as Hle.
  rewrite (Hk ki (nth_error_In _ _ Ei)) in Hx. rewrite (Hk kj (nth_error_In _ _ Ej)) in Hy.
  injection Hx as <-. injection Hy as <-. exact Hle.
Qed.

Lemma grupo_no_vacio (m : string) (l : list base_data) :
  grupo m l <> [] <-> In m (map mes_anyo_d l).
Proof.
  rewrite in_map_iff. split.
  - intros Hne. destruct (grupo m l) as [|dato r] eqn:E; [congruence|].
    assert (Hin : In dato (grupo m l)) by (rewrite E; now left).
    apply grupo_In in Hin. exists dato. tauto.
  - intros (dato & Hm & Hin) E.
    assert (Hg : In dato (grupo m l)) by (apply grupo_In; tauto).
    rewrite E in Hg. exact Hg.
Qed.

(** ** The bases of a constructed simulator *)

(** X10: the list of bases that the constructor builds from the records [l]
    has exactly one base for each month-year text of [l] and none for any
    other, and it is in descending order of date.  Every record of an
    accepted list has an amount that is not negative and a month-year that
    is well formed. *)
Theorem X10_one_base_per_month_year (config : ConfigManager) (l : list base_data)
    (fj ra sx : string) (self : SimuladorPeriodos) :
  __init__ config (Bases l) fj ra sx = Ok self ->
  List.NoDup (map mes_anyo (bases self))
  /\ (forall m : string, In m (map mes_anyo (bases self)) <-> In m (map mes_anyo_d l))
  /\ Forall (fun dato => (0 <= base_d dato)%Q
                         /\ exists d, strptime (mes_anyo_d dato) = Ok d) l
  /\ (forall (i j : nat) (x y : BaseCotizacion) (di dj : Z),
        (i < j)%nat ->
        nth_error (bases self) i = Some x -> nth_error (bases self) j = Some y ->
        strptime (mes_anyo x) = Ok di -> strptime (mes_anyo y) = Ok dj ->
        dj <= di).
Proof.
  intros H.
  destruct (__init___procesadas _ _ _ _ _ _ H) as (Hpos & Hnd & Hde & Ha).
  destruct (__init___spec _ _ _ _ _ _ H)
    as (_ & _ & _ & _ & _ & _ & _ & _ & _ & Hparse & _).
  assert (Hmeses : forall m : string,
             In m (map mes_anyo (bases self)) <-> In m (map mes_anyo_d l)).
  { intros m. rewrite <- grupo_no_vacio. split.
    - intros Hin. apply in_map_iff in Hin. destruct Hin as (b & <- & Hb).
      apply Hde, Hb.
    - intros Hne. destruct (Ha m Hne) as (b & Hb & <-). apply in_map, Hb. }
  split; [exact Hnd|]. split; [exact Hmeses|]. split.
  - apply List.Forall_forall. intros dato Hin. split.
    + rewrite List.Forall_forall in Hpos. apply Hpos, Hin.
    + assert (Hm : In (mes_anyo_d dato) (map mes_anyo (bases self)))
        by (apply Hmeses, in_map, Hin).
      apply in_map_iff in Hm. destruct Hm as (b & E & Hb).
      rewrite Forall_forall in Hparse. rewrite <- E.
      apply Hparse, list_elem_of_In, Hb.
  - destruct (__init___bases _ _ _ _ _ _ H) as (l' & g & procesadas & self0 & _ & _ & _ & _ & Ho).
    apply (ordenar_por_fecha_ordenada _ _ _ Ho).
Qed.

Lemma X10_one_base_per_month_year_witness :
  List.NoDup (map mes_anyo (bases simulador_pluriactividad))
  /\ (forall m : string,
        In m (map mes_anyo (bases simulador_pluriactividad))
        <-> In m (map mes_anyo_d bases_pluriactividad)).
Proof.
  destruct (X10_one_base_per_month_year config_ejemplo bases_pluriactividad "06/2025"
              "GENERAL" "MASCULINO" simulador_pluriactividad)
    as (Hnd & Hm & _).
  - vm_compute. reflexivity.
  - split; [exact Hnd | exact Hm].
Defined.

(** Rounding to the nearest integer moves a number by a half at most. *)
Lemma redondeo_par_cerca (q : Q) :
  (Qabs (inject_Z (redondeo_par q) - q) <= 1 # 2)%Q.
Proof.
  unfold redondeo_par. cbv zeta.
  pose proof (Qfloor_le q) as Hlo. pose proof (Qlt_floor q) as Hhi.
  rewrite inject_Z_plus in Hhi.
  change (inject_Z 1) with 1%Q in Hhi.
  apply Qabs_Qle_condition.
  set (f := Qfloor q) in *.
  assert (Hf : (inject_Z (f + 1) == inject_Z f + 1)%Q)
    by (rewrite inject_Z_plus; reflexivity).
  destruct (Qcompare_spec (q - inject_Z f) (1 # 2)) as [E|E|E];
    [destruct (Z.even f)| |]; rewrite ?Hf;
    generalize dependent (inject_Z f); intros g; intros; split; lra.
Qed.

(** [round(x, 2)] moves an amount by half a hundredth at most. *)
Lemma round2_cerca (x : Q) : (Qabs (round2 x - x) <= 1 # 200)%Q.
Proof.
  unfold round2.
  pose proof (redondeo_par_cerca (x * 100)) as H.
  apply Qabs_Qle_condition in H. apply Qabs_Qle_condition.
  set (z := inject_Z (redondeo_par (x * 100))) in *. clearbody z.
  destruct H as [H1 H2]. unfold Qdiv.
  assert (Hq : (z * / 100 - x == (z - x * 100) * (1 # 100))%Q) by field.
  rewrite Hq. split; lra.
Qed.

(** X11: where each base of a constructed simulator comes from.  A base
    without pluriactivity data stands for the only record of its
    month-year: it has the month-year, the employer and the regime of the
    record, and its amount, the amount of the record through
    [round(., 2)], is within a hundredth of it.  A base with pluriactivity
    data stands for the two or more records of its month-year: the data
    hold these records in their order and their employers; the employer of
    the base tells how many they are, and its regime is that of one of
    them that no other exceeds in amount. *)
Theorem X11_single_and_aggregated_months (config : ConfigManager) (l : list base_data)
    (fj ra sx : string) (self : SimuladorPeriodos) (b : BaseCotizacion) :
  __init__ config (Bases l) fj ra sx = Ok self ->
  In b (bases self) ->
  let lm := grupo (mes_anyo b) l in
  match metadatos_pluriactividad b with
  | None =>
      exists dato : base_data,
        lm = [dato]
        /\ mes_anyo b = mes_anyo_d dato
        /\ empresa b = empresa_d dato
        /\ regimen b = regimen_d dato
        /\ (Qabs (base b - base_d dato) <= 1 # 100)%Q
  | Some md =>
      (2 <= length lm)%nat
      /\ es_pluriactividad md = true
      /\ bases_individuales md = lm
      /\ empresas_detalle md = map empresa_d lm
      /\ empresa b
         = String.append "PLURIACTIVIDAD_"
             (String.append (str_nat (length lm)) "_EMPRESAS")
      /\ exists principal : base_data,
           In principal lm
           /\ regimen b = regimen_d principal
           /\ Forall (fun dato => (base_d dato <= base_d principal)%Q) lm
  end.
Proof.
  intros H Hb lm.
  destruct (__init___procesadas _ _ _ _ _ _ H) as (_ & _ & Hde & _).
  destruct (Hde b Hb) as [Hne Hp]. fold lm in Hne, Hp.
  destruct (procesar_mes_spec _ _ _ _ Hp Hne) as [(dato & E & ->) | (Hlen & H2)].
  - unfold base_de_dato, nueva_BaseCotizacion.
    cbn [metadatos_pluriactividad mes_anyo empresa regimen base].
    exists dato. split; [exact E|]. do 3 (split; [reflexivity|]).
    pose proof (round2_cerca (base_d dato)) as Hc.
    apply Qabs_Qle_condition in Hc. apply Qabs_Qle_condition.
    generalize dependent (round2 (base_d dato)). intros y Hc. split; lra.
  - destruct H2 as (a & t & p & md & _ & _ & Hmax & -> & _ & Hreg & Hemp & Hes & Hbi
                    & Hbr & Hed & _).
    destruct (py_max_Q_spec _ _ _ Hmax) as [Hin Hall].
    repeat (split; [assumption|]).
    exists p. repeat split; assumption.
Qed.

(** The month 02/2025 of the sample with pluriactivity, a single record. *)
Lemma X11_single_and_aggregated_months_witness :
  exists dato : base_data,
    grupo "02/2025" bases_pluriactividad = [dato]
    /\ empresa_d dato = "Empresa C"
    /\ (base_d dato == 900)%Q.
Proof.
  destruct (X11_single_and_aggregated_months config_ejemplo bases_pluriactividad "06/2025"
              "GENERAL" "MASCULINO" simulador_pluriactividad
              (base_de_dato {| mes_anyo_d := "02/2025"; base_d := 900;
                               empresa_d := "Empresa C"; regimen_d := "GENERAL" |}))
    as (dato & Hg & _ & He & _ & _).
  - vm_compute. reflexivity.
  - vm_compute. right. left. reflexivity.
  - exists dato. split; [exact Hg|]. split; [symmetry; exact He|].
    vm_compute in Hg. injection Hg as <-. reflexivity.
Defined.

(** X12: the amount of a base with pluriactivity data of a constructed
    simulator.  The cap that the data name is "minimo", "maximo" or
    "ninguno"; with "ninguno" the amount is the rounded sum of the records.
    When the minimum base of the year is not above the maximum base, the
    amount lies between the two, rounded to two decimals. *)
Theorem X12_aggregated_amount_within_caps (config : ConfigManager) (l : list base_data)
    (fj ra sx : string) (self : SimuladorPeriodos) (b : BaseCotizacion) (md : metadatos) :
  __init__ config (Bases l) fj ra sx = Ok self ->
  In b (bases self) ->
  metadatos_pluriactividad b = Some md ->
  exists (año : Z) (t : topes),
    año_de_fecha (mes_anyo b) = Ok año
    /\ _obtener_topes_año self año = Ok t
    /\ (tope_aplicado md = "minimo" \/ tope_aplicado md = "maximo"
        \/ tope_aplicado md = "ninguno")
    /\ (tope_aplicado md = "ninguno" -> (base b == base_bruta md)%Q)
    /\ (tope_aplicado md = "minimo" -> (base b == round2 (base_minima_mensual t))%Q)
    /\ (tope_aplicado md = "maximo" -> (base b == round2 (base_maxima_mensual t))%Q)
    /\ ((base_minima_mensual t <= base_maxima_mensual t)%Q ->
        (round2 (base_minima_mensual t) <= base b <= round2 (base_maxima_mensual t))%Q)
    /\ ((base_minima_mensual t <= base_maxima_mensual t)%Q ->
        dos_decimales (base_minima_mensual t) -> dos_decimales (base_maxima_mensual t) ->
        (base_minima_mensual t <= base b <= base_maxima_mensual t)%Q).
Proof.
  intros H Hb Hmd.
  destruct (__init___procesadas _ _ _ _ _ _ H) as (_ & _ & Hde & _).
  destruct (Hde b Hb) as [Hne Hp].
  destruct (procesar_mes_spec _ _ _ _ Hp Hne) as [(dato & E & ->) | (Hlen & H2)];
    [discriminate|].
  destruct H2 as (a & t & p & md' & Ha & Ht & _ & Hmd' & _ & _ & _ & _ & _ & Hbr & _ & Hcasos).
  rewrite Hmd in Hmd'. injection Hmd' as <-.
  exists a, t. split; [exact Ha|]. split; [exact Ht|].
  cbv zeta in Hcasos. rewrite <- Hbr in Hcasos.
  assert (Hb1 : (base_minima_mensual t <= base_maxima_mensual t)%Q ->
                (round2 (base_minima_mensual t) <= base b
                 <= round2 (base_maxima_mensual t))%Q).
  { intros Hcaps.
    destruct Hcasos as [(Hlt & _ & Hv) | [(Hmin & Hlt & _ & Hv) | ([Hmin Hmax] & _ & Hv)]];
      rewrite Hv.
    - split; [lra | apply round2_mono, Hcaps].
    - split; [apply round2_mono, Hcaps | lra].
    - rewrite Hbr. split; apply round2_mono; assumption. }
  split; [|split; [|split; [|split; [|split; [exact Hb1|]]]]].
  - destruct Hcasos as [(_ & E & _) | [(_ & _ & E & _) | (_ & E & _)]]; auto.
  - intros E.
    destruct Hcasos as [(_ & E' & _) | [(_ & _ & E' & _) | (_ & _ & Hv)]];
      [rewrite E in E'; discriminate | rewrite E in E'; discriminate | exact Hv].
  - intros E.
    destruct Hcasos as [(_ & _ & Hv) | [(_ & _ & E' & _) | (_ & E' & _)]];
      [exact Hv | rewrite E in E'; discriminate | rewrite E in E'; discriminate].
  - intros E.
    destruct Hcasos as [(_ & E' & _) | [(_ & _ & _ & Hv) | (_ & E' & _)]];
      [rewrite E in E'; discriminate | exact Hv | rewrite E in E'; discriminate].
  - intros Hcaps Dmin Dmax. specialize (Hb1 Hcaps).
    rewrite (round2_id _ Dmin), (round2_id _ Dmax) in Hb1. exact Hb1.
Qed.

(** The month 03/2025 of the sample, with 400 and 500 under the caps 1080
    and 4495. *)
Lemma X12_aggregated_amount_within_caps_witness :
  exists (b : BaseCotizacion) (md : metadatos),
    nth_error (bases simulador_pluriactividad) 0 = Some b
    /\ metadatos_pluriactividad b = Some md
    /\ (1080 <= base b <= 4495)%Q.
Proof.
  destruct (nth_error (bases simulador_pluriactividad) 0) as [b|] eqn:Eb;
    [|vm_compute in Eb; discriminate Eb].
  destruct (metadatos_pluriactividad b) as [md|] eqn:Emd;
    [|vm_compute in Eb; injection Eb as <-; discriminate Emd].
  destruct (X12_aggregated_amount_within_caps config_ejemplo bases_pluriactividad
              "06/2025" "GENERAL" "MASCULINO" simulador_pluriactividad b md)
    as (a & t & Ha & Ht & _ & _ & _ & _ & _ & Hcaps).
  - vm_compute. reflexivity.
  - eapply nth_error_In, Eb.
  - exact Emd.
  - exists b, md. split; [reflexivity|]. split; [exact Emd|].
    vm_compute in Eb. injection Eb as <-.
    vm_compute in Ha. injection Ha as <-.
    vm_compute in Ht. injection Ht as <-.
    apply Hcaps.
    + vm_compute. discriminate.
    + exists 108000. reflexivity.
    + exists 449500. reflexivity.
Defined.

(** ** Month-years that [strftime] does not write *)

(** No simulated month has the month-year of a date that is not after the
    latest record. *)
Lemma meses_simulados_posteriores (self : SimuladorPeriodos) (ultima d : Z)
    (b : BaseCotizacion) :
  17 <= ultima -> fecha_jubilacion self < 120000 ->
  12 <= d <= ultima ->
  In b (meses_simulados self ultima) -> mes_anyo b <> strftime d.
Proof.
  intros Hu Hfj Hd Hin E. unfold meses_simulados in Hin.
  apply in_map_iff in Hin. destruct Hin as (k & <- & Hk).
  apply in_seq in Hk. simpl in E.
  apply strftime_inj in E; [lia | |]; apply en_rango_spec; lia.
Qed.

(** X13: the window of computation finds a record only under the
    month-year that [strftime] writes, with two digits for the month.  A
    record of a constructed simulator whose month-year is written otherwise
    never enters the window; and when no record has the written form of its
    month, the window holds a gap base for that month. *)
Theorem X13_month_without_leading_zero (config : ConfigManager) (be : bases_extraidas)
    (fj ra sx : string) (self : SimuladorPeriodos) (usar_parametros_antiguos : bool) :
  __init__ config be fj ra sx = Ok self ->
  let N := if usar_parametros_antiguos then 300
           else bases_incluidas (parametros_año_jubilacion self) in
  let inicio := fecha_jubilacion self - 1 in
  0 <= N ->
  12 <= inicio - N ->
  Forall (fun b => exists d, strptime (mes_anyo b) = Ok d /\ 17 <= d) (bases self) ->
  regimen_acceso self = "AUTONOMO" \/ topes_cotizacion self <> [] ->
  exists ventana : list BaseCotizacion,
    obtener_bases_periodo_computo self usar_parametros_antiguos = Ok ventana
    /\ (forall (b0 : BaseCotizacion) (d : Z),
          In b0 (bases self) -> strptime (mes_anyo b0) = Ok d ->
          mes_anyo b0 <> strftime d ->
          ~ In b0 ventana)
    /\ (forall (b0 : BaseCotizacion) (d : Z) (k : nat),
          In b0 (bases self) -> strptime (mes_anyo b0) = Ok d ->
          (forall b, In b (bases self) -> mes_anyo b <> strftime d) ->
          d = inicio - Z.of_nat k -> Z.of_nat k < N ->
          exists x : BaseCotizacion,
            nth_error ventana k = Some x
            /\ mes_anyo x = strftime d
            /\ empresa x = "LAGUNA"
            /\ regimen x = regimen_acceso self
            /\ metadatos_pluriactividad x = None).
Proof.
  intros Hinit N inicio HN Hlo Hfechas Htopes.
  destruct (__init___spec _ _ _ _ _ _ Hinit)
    as (_ & _ & _ & _ & Hfj & _ & _ & _ & Hne & Hparse & _).
  apply strptime_en_rango, en_rango_spec in Hfj.
  destruct (obtener_bases_periodo_computo_spec self usar_parametros_antiguos)
    as (simuladas & w & Hsim & Hw & Hlen & Hmes);
    [exact Hne | lia | exact HN | exact Hlo | exact Hfechas | exact Htopes |].
  fold N inicio in Hlen, Hmes.
  exists w. split; [exact Hw|]. split.
  - intros b0 d Hb0 Hd Hneq Hin.
    apply In_nth_error in Hin. destruct Hin as [k Hk].
    assert (Hlt : (k < length w)%nat) by (apply nth_error_Some; congruence).
    destruct (Hmes k) as (b & Hb & Hm & _); [lia|].
    rewrite Hk in Hb. injection Hb as <-.
    assert (Hs : strptime (mes_anyo b0) = Ok (inicio - Z.of_nat k)).
    { rewrite Hm. apply strptime_strftime, en_rango_spec. subst inicio. lia. }
    rewrite Hd in Hs. injection Hs as ->. contradiction.
  - intros b0 d k Hb0 Hd Hnone -> Hk.
    destruct (Hmes k Hk) as (x & Hx & Hm & Hreg).
    exists x. split; [exact Hx|]. split; [exact Hm|].
    unfold registro_del_mes in Hreg.
    destruct (construir_bases_dict (bases self ++ simuladas) !! strftime (inicio - Z.of_nat k))
      as [b'|] eqn:El.
    + exfalso.
      pose proof (construir_bases_dict_clave _ _ _ El) as Hclave.
      apply construir_bases_dict_In, in_app_or in El.
      destruct El as [Hin|Hin]; [exact (Hnone b' Hin Hclave)|].
      destruct (existe_ultima_fecha (bases self) Hne Hparse) as (u & Hex & Hmax).
      assert (Hu : 17 <= u).
      { apply Exists_exists in Hex. destruct Hex as (b & Hb & Hdb).
        rewrite Forall_forall in Hfechas.
        destruct (Hfechas b Hb) as (d' & Hd' & Hle).
        rewrite Hdb in Hd'. injection Hd' as <-. exact Hle. }
      assert (Hdu : inicio - Z.of_nat k <= u).
      { rewrite Forall_forall in Hmax.
        destruct (Hmax b0 (proj2 (list_elem_of_In _ _) Hb0)) as (d' & Hd' & Hle).
        rewrite Hd in Hd'. injection Hd' as <-. exact Hle. }
      destruct (Z.le_gt_cases (fecha_jubilacion self) u) as [L|L].
      * rewrite (simular_periodo_futuro_nada self u (conj Hex Hmax) L) in Hsim.
        injection Hsim as <-. exact Hin.
      * rewrite (simular_periodo_futuro_spec self u (conj Hex Hmax) Hu) in Hsim; [|lia].
        injection Hsim as <-.
        apply (meses_simulados_posteriores self u (inicio - Z.of_nat k) b');
          [exact Hu | lia | | exact Hin | exact Hclave].
        apply strptime_en_rango, en_rango_spec in Hd. lia.
    + destruct Hreg as (importe & _ & ->). repeat split.
Qed.

Lemma X13_month_without_leading_zero_witness :
  exists ventana : list BaseCotizacion,
    obtener_bases_periodo_computo simulador_sin_cero false = Ok ventana
    /\ exists x : BaseCotizacion,
         nth_error ventana 1 = Some x
         /\ mes_anyo x = "04/2025"
         /\ empresa x = "LAGUNA".
Proof.
  destruct (X13_month_without_leading_zero config_ejemplo (Bases bases_sin_cero) "06/2025"
              "GENERAL" "MASCULINO" simulador_sin_cero false)
    as (ventana & Hv & _ & Hgap).
  - vm_compute. reflexivity.
  - vm_compute. discriminate.
  - vm_compute. discriminate.
  - repeat constructor; eexists; (split; [reflexivity | vm_compute; discriminate]).
  - right. vm_compute. discriminate.
  - exists ventana. split; [exact Hv|].
    destruct (Hgap (base_de_dato {| mes_anyo_d := "4/2025"; base_d := 1400;
                                    empresa_d := "Empresa A"; regimen_d := "GENERAL" |})
                (12 * 2025 + 3) 1%nat)
      as (x & Hx & Hm & He & _).
    + vm_compute. right. left. reflexivity.
    + vm_compute. reflexivity.
    + intros b Hin. vm_compute in Hin. destruct Hin as [<-|[<-|[]]]; vm_compute; discriminate.
    + vm_compute. reflexivity.
    + vm_compute. reflexivity.
    + exists x. split; [exact Hx|]. split; [exact Hm | exact He].
Defined.

(** ** The endpoint *)

(** The fields of the result that the complete calculation copies from the
    simulator. *)
Lemma procesar_bases_completo_campos (self self' : SimuladorPeriodos)
    (r : resultado_completo) :
  procesar_bases_completo self = Ok (self', r) ->
  (exists e, estadisticas_r r = Some e)
  /\ regimen_acceso_r r = regimen_acceso self
  /\ sexo_r r = sexo self
  /\ fecha_jubilacion_r r = strftime (fecha_jubilacion self)
  /\ parametros_computo_r r = parametros_año_jubilacion self.
Proof.
  intros H. unfold procesar_bases_completo in H.
  inv_bind H as ref Href. destruct ref as [br er].
  inv_bind H as pre Hpre. destruct pre as [bp ep].
  inv_bind H as ele Hele. destruct ele as [[bel eel] cel].
  injection H as <- <-.
  apply elegir_Ok in Hele. destruct Hele as (sr & sp & Her & Hep & Hx).
  cbn. split; [|repeat split].
  destruct (Qle_bool (base_reguladora sp) (base_reguladora sr));
    injection Hx as _ -> _; eauto.
Qed.

Lemma validar_en_lista (v a b : string) :
  en_lista v [a; b] = true -> v = a \/ v = b.
Proof.
  unfold en_lista. simpl.
  destruct (String.eqb_spec v a) as [->|_]; [now left|].
  destruct (String.eqb_spec v b) as [->|_]; [now right|].
  discriminate.
Qed.

(** An answer of success of the endpoint. *)
Lemma simulate_bases_respuesta (config : ConfigManager) (request : SimulateRequest)
    (respuesta : SimulateResponse) :
  simulate_bases config request = inl respuesta ->
  exists (simulador simulador' : SimuladorPeriodos) (resultado : resultado_completo)
         (e : estadisticas) (d : Z),
    bases_extraidas_q request <> []
    /\ __init__ config (Bases (bases_extraidas_q request)) (fecha_jubilacion_q request)
         (regimen_acceso_q request) (sexo_q request) = Ok simulador
    /\ procesar_bases_completo simulador = Ok (simulador', resultado)
    /\ success respuesta = true
    /\ bases_procesadas_s respuesta = bases_procesadas_r resultado
    /\ calculo_elegido_s respuesta = calculo_elegido resultado
    /\ comparativa_calculos_s respuesta = comparativa_calculos resultado
    /\ estadisticas_r resultado = Some e
    /\ nueva_EstadisticasResponse (Some e) = inl (estadisticas_s respuesta)
    /\ parametros_computo_s respuesta = parametros_año_jubilacion simulador
    /\ regimen_acceso_s respuesta = upper (regimen_acceso_q request)
    /\ (regimen_acceso_s respuesta = "GENERAL"
        \/ regimen_acceso_s respuesta = "AUTONOMO")
    /\ sexo_s respuesta = sexo_q request
    /\ strptime (fecha_jubilacion_q request) = Ok d
    /\ fecha_jubilacion_s respuesta = strftime d.
Proof.
  unfold simulate_bases, intento_simulate_bases.
  assert (Hne : bases_extraidas_q request <> [] \/ bases_extraidas_q request = [])
    by (destruct (bases_extraidas_q request); [now right | left; discriminate]).
  destruct Hne as [Hne|El]; [|rewrite El; discriminate].
  destruct (bases_extraidas_q request) as [|x l] eqn:El; [congruence|].
  rewrite <- El. cbv zeta.
  destruct (__init__ config (Bases (bases_extraidas_q request)) (fecha_jubilacion_q request)
              (regimen_acceso_q request) (sexo_q request)) as [simulador|e0] eqn:Einit;
    [|destruct e0; discriminate].
  destruct (procesar_bases_completo simulador) as [[simulador' resultado]|e0] eqn:Eproc;
    [|destruct e0; discriminate].
  destruct (procesar_bases_completo_campos _ _ _ Eproc)
    as ((e & He) & Hreg & Hsx & Hfj & Hpar).
  rewrite He. cbn [nueva_EstadisticasResponse].
  intros [= <-].
  destruct (__init___spec _ _ _ _ _ _ Einit)
    as (Hra & Hgen & _ & _ & Hd & _).
  exists simulador, simulador', resultado, e, (fecha_jubilacion simulador).
  cbn.
  split; [rewrite El; exact Hne|].
  do 9 (split; [first [reflexivity | assumption]|]).
  split; [congruence|]. split; [rewrite Hreg; exact Hgen|].
  split; [reflexivity|]. split; [exact Hd | exact Hfj].
Qed.

(** The response model of the statistics never rejects the statistics of a
    result. *)
Lemma intento_simulate_bases_valido (config : ConfigManager) (request : SimulateRequest) :
  intento_simulate_bases config request <> inr ValidationError.
Proof.
  unfold intento_simulate_bases.
  destruct (bases_extraidas_q request) as [|x l]; [discriminate|].
  destruct (__init__ _ _ _ _ _) as [simulador|e0]; [|discriminate].
  destruct (procesar_bases_completo simulador) as [[simulador' resultado]|e0] eqn:Eproc;
    [|discriminate].
  destruct (procesar_bases_completo_campos _ _ _ Eproc) as ((e & He) & _).
  rewrite He. discriminate.
Qed.

(** X14: the answers of the endpoint [simulate_bases].  A request without
    records is answered with the status 500, not 400: the exception of
    status 400 that the endpoint raises for it is caught by its own last
    handler.  Every failure is answered with the status 400 or 500, and 400
    is the answer exactly when the simulator raised a [ValueError].  An
    answer of success carries the result of the complete calculation on the
    simulator built from the request: the regime in capitals, the sex as
    the request has it, and the retirement date as [strftime] writes it. *)
Theorem X14_endpoint_answers (config : ConfigManager) (request : SimulateRequest) :
  (bases_extraidas_q request = [] ->
   simulate_bases config request
   = inr (HTTPException 500 (ErrorInterno (HTTPException 400 NoSeProporcionaronBases))))
  /\ (forall e : excepcion_endpoint,
        simulate_bases config request = inr e ->
        exists (status_code : Z) (detail : detalle),
          e = HTTPException status_code detail
          /\ (status_code = 400 \/ status_code = 500))
  /\ (forall detail : detalle,
        simulate_bases config request = inr (HTTPException 400 detail)
        <-> exists m : mensaje,
              intento_simulate_bases config request = inr (DelSimulador (ValueError m))
              /\ detail = Str (DelSimulador (ValueError m)))
  /\ (forall respuesta : SimulateResponse,
        simulate_bases config request = inl respuesta ->
        exists (simulador simulador' : SimuladorPeriodos) (resultado : resultado_completo)
               (e : estadisticas) (d : Z),
          bases_extraidas_q request <> []
          /\ __init__ config (Bases (bases_extraidas_q request)) (fecha_jubilacion_q request)
               (regimen_acceso_q request) (sexo_q request) = Ok simulador
          /\ procesar_bases_completo simulador = Ok (simulador', resultado)
          /\ success respuesta = true
          /\ bases_procesadas_s respuesta = bases_procesadas_r resultado
          /\ calculo_elegido_s respuesta = calculo_elegido resultado
          /\ comparativa_calculos_s respuesta = comparativa_calculos resultado
          /\ estadisticas_r resultado = Some e
          /\ nueva_EstadisticasResponse (Some e) = inl (estadisticas_s respuesta)
          /\ parametros_computo_s respuesta = parametros_año_jubilacion simulador
          /\ regimen_acceso_s respuesta = upper (regimen_acceso_q request)
          /\ (regimen_acceso_s respuesta = "GENERAL"
              \/ regimen_acceso_s respuesta = "AUTONOMO")
          /\ sexo_s respuesta = sexo_q request
          /\ strptime (fecha_jubilacion_q request) = Ok d
          /\ fecha_jubilacion_s respuesta = strftime d).
Proof.
  split; [unfold simulate_bases, intento_simulate_bases; intros ->; reflexivity|].
  split; [|split; [|apply simulate_bases_respuesta]].
  - intros e. unfold simulate_bases.
    destruct (intento_simulate_bases config request) as [r|[[m| | | | |]| |sc dt]];
      intros [= <-]; eauto.
  - intros detail. split.
    + intros H. unfold simulate_bases in H.
      destruct (intento_simulate_bases config request) as [r|[[m| | | | |]| |sc dt]] eqn:E;
        try discriminate.
      * injection H as <-. eauto.
      * exfalso. exact (intento_simulate_bases_valido _ _ E).
    + intros (m & Hm & ->). unfold simulate_bases. rewrite Hm. reflexivity.
Qed.

(** A request without records, and the request with the sample records. *)
Lemma X14_endpoint_answers_witness :
  simulate_bases config_ejemplo request_sin_bases
  = inr (HTTPException 500 (ErrorInterno (HTTPException 400 NoSeProporcionaronBases)))
  /\ exists respuesta : SimulateResponse,
       simulate_bases config_ejemplo request_ejemplo = inl respuesta
       /\ fecha_jubilacion_s respuesta = "06/2025"
       /\ sexo_s respuesta = "FEMENINO".
Proof.
  split.
  - apply (X14_endpoint_answers config_ejemplo request_sin_bases). reflexivity.
  - destruct (simulate_bases config_ejemplo request_ejemplo) as [respuesta|e] eqn:E;
      [|vm_compute in E; discriminate E].
    exists respuesta. split; [reflexivity|].
    destruct (X14_endpoint_answers config_ejemplo request_ejemplo) as (_ & _ & _ & H).
    destruct (H respuesta E) as (s & s' & r & e & d & _ & _ & _ & _ & _ & _ & _ & _ & _ & _
                                 & _ & _ & Hsx & Hd & Hfj).
    split; [|exact Hsx].
    vm_compute in Hd. injection Hd as <-. exact Hfj.
Defined.

(** X15: what the validators of the request model let through, for a
    regime and a sex written in ASCII characters.  A regime is accepted
    exactly when in capitals it is GENERAL or AUTONOMO, and a sex exactly
    when in capitals it is MASCULINO or FEMENINO; the request then holds
    the text in capitals, and any other text is refused.  The validators
    accept the accepted values unchanged.  A simulator that the constructor
    builds from a validated request has the regime and the sex of the
    request, so its sex is MASCULINO or FEMENINO; and so has an answer of
    success of the endpoint. *)
Theorem X15_validated_request (config : ConfigManager) (request : SimulateRequest)
    (v_regimen v_sexo : string) :
  es_ascii v_regimen = true ->
  es_ascii v_sexo = true ->
  (validar_regimen v_regimen = Some (regimen_acceso_q request)
   <-> regimen_acceso_q request = upper v_regimen
       /\ (upper v_regimen = "GENERAL" \/ upper v_regimen = "AUTONOMO"))
  /\ (validar_sexo v_sexo = Some (sexo_q request)
      <-> sexo_q request = upper v_sexo
          /\ (upper v_sexo = "MASCULINO" \/ upper v_sexo = "FEMENINO"))
  /\ (validar_regimen v_regimen = None
      <-> upper v_regimen <> "GENERAL" /\ upper v_regimen <> "AUTONOMO")
  /\ (validar_sexo v_sexo = None
      <-> upper v_sexo <> "MASCULINO" /\ upper v_sexo <> "FEMENINO")
  /\ (validar_regimen v_regimen = Some (regimen_acceso_q request) ->
      validar_sexo v_sexo = Some (sexo_q request) ->
      validar_regimen (regimen_acceso_q request) = Some (regimen_acceso_q request)
      /\ validar_sexo (sexo_q request) = Some (sexo_q request)
      /\ (forall simulador : SimuladorPeriodos,
            __init__ config (Bases (bases_extraidas_q request))
              (fecha_jubilacion_q request) (regimen_acceso_q request) (sexo_q request)
            = Ok simulador ->
            regimen_acceso simulador = regimen_acceso_q request
            /\ sexo simulador = sexo_q request
            /\ (sexo simulador = "MASCULINO" \/ sexo simulador = "FEMENINO"))
      /\ (forall respuesta : SimulateResponse,
            simulate_bases config request = inl respuesta ->
            regimen_acceso_s respuesta = regimen_acceso_q request
            /\ (sexo_s respuesta = "MASCULINO" \/ sexo_s respuesta = "FEMENINO"))).
Proof.
  intros _ _.
  assert (Hlista : forall v a b : string,
             en_lista v [a; b] = true <-> v = a \/ v = b).
  { intros v a b. split; [apply validar_en_lista|].
    unfold en_lista. simpl. intros [-> | ->]; rewrite String.eqb_refl;
      [reflexivity | apply orb_true_r]. }
  assert (Hno : forall v a b : string,
             en_lista v [a; b] = false <-> v <> a /\ v <> b).
  { intros v a b. rewrite <- Bool.not_true_iff_false, Hlista. tauto. }
  unfold validar_regimen, validar_sexo.
  split; [|split; [|split; [|split]]].
  - destruct (en_lista (upper v_regimen) ["GENERAL"; "AUTONOMO"]) eqn:E; simpl.
    + apply Hlista in E. split; [intros [= <-]; tauto | intros [-> _]; reflexivity].
    + apply Hno in E. split; [discriminate | intros [_ [H|H]]; tauto].
  - destruct (en_lista (upper v_sexo) ["MASCULINO"; "FEMENINO"]) eqn:E; simpl.
    + apply Hlista in E. split; [intros [= <-]; tauto | intros [-> _]; reflexivity].
    + apply Hno in E. split; [discriminate | intros [_ [H|H]]; tauto].
  - destruct (en_lista (upper v_regimen) ["GENERAL"; "AUTONOMO"]) eqn:E; simpl.
    + apply Hlista in E. split; [discriminate | tauto].
    + apply Hno in E. tauto.
  - destruct (en_lista (upper v_sexo) ["MASCULINO"; "FEMENINO"]) eqn:E; simpl.
    + apply Hlista in E. split; [discriminate | tauto].
    + apply Hno in E. tauto.
  - intros Hr Hs.
    destruct (en_lista (upper v_regimen) ["GENERAL"; "AUTONOMO"]) eqn:Er; [|discriminate].
    destruct (en_lista (upper v_sexo) ["MASCULINO"; "FEMENINO"]) eqn:Es; [|discriminate].
    simpl in Hr, Hs. injection Hr as Hr. injection Hs as Hs.
    rewrite Hr in Er. rewrite Hs in Es.
    apply validar_en_lista in Er, Es.
    assert (Hur : upper (regimen_acceso_q request) = regimen_acceso_q request)
      by (destruct Er as [-> | ->]; reflexivity).
    assert (Hus : upper (sexo_q request) = sexo_q request)
      by (destruct Es as [-> | ->]; reflexivity).
    split; [destruct Er as [-> | ->]; reflexivity|].
    split; [destruct Es as [-> | ->]; reflexivity|].
    split.
    + intros simulador H.
      destruct (__init___spec _ _ _ _ _ _ H) as (Hra & _ & Hsx & _).
      split; [congruence|]. split; [congruence|].
      rewrite Hsx, Hus. exact Es.
    + intros respuesta H.
      destruct (simulate_bases_respuesta config request respuesta H)
        as (s & s' & r & e & d & _ & _ & _ & _ & _ & _ & _ & _ & _ & _ & Hreg & _ & Hsx & _).
      split; [congruence | rewrite Hsx; exact Es].
Qed.

(** The sample request, from a regime and a sex written in small letters. *)
Lemma X15_validated_request_witness :
  validar_regimen "general" = Some (regimen_acceso_q request_ejemplo)
  /\ validar_sexo "Femenino" = Some (sexo_q request_ejemplo)
  /\ validar_sexo "otro" = None.
Proof.
  destruct (X15_validated_request config_ejemplo request_ejemplo "general" "Femenino")
    as (Hr & Hs & _); [reflexivity | reflexivity|].
  destruct (X15_validated_request config_ejemplo request_ejemplo "general" "otro")
    as (_ & _ & _ & Hn & _); [reflexivity | reflexivity|].
  split; [apply Hr; split; [reflexivity | left; reflexivity]|].
  split; [apply Hs; split; [reflexivity | right; reflexivity]|].
  apply Hn. split; discriminate.
Defined.

(** ** The amounts of the gaps compared *)

(** The amount of a gap in closed form. *)
Lemma calcular_base_laguna_valor (self : SimuladorPeriodos) (fecha_laguna : string)
    (fecha : datetime) (m : Q) (n : Z) :
  strptime fecha_laguna = Ok fecha ->
  _obtener_base_minima_año self (year fecha) = Ok m ->
  calcular_base_laguna self fecha_laguna n
  = Ok (if String.eqb (regimen_acceso self) "AUTONOMO" then 0%Q
        else if n <=? 48 then m
        else if String.eqb (sexo self) "FEMENINO"
                || (String.eqb (sexo self) "MASCULINO" && cumple_condiciones_hombre self)
             then if n <=? 60 then m
                  else if n <=? 84 then round2 ((8 # 10) * m)
                  else round2 ((5 # 10) * m)
             else round2 ((5 # 10) * m)).
Proof.
  intros Hf Hm. unfold calcular_base_laguna. rewrite Hf. cbn [bind].
  destruct (String.eqb (regimen_acceso self) "AUTONOMO"); [reflexivity|].
  rewrite Hm. cbn [bind].
  destruct (n <=? 48); [reflexivity|].
  destruct (String.eqb (sexo self) "FEMENINO"
            || (String.eqb (sexo self) "MASCULINO" && cumple_condiciones_hombre self));
    [|reflexivity].
  destruct (n <=? 60); [reflexivity|]. destruct (n <=? 84); reflexivity.
Qed.

Lemma round2_0 : (round2 0 == 0)%Q.
Proof. vm_compute. reflexivity. Qed.

Ltac decidir_ordinales :=
  repeat match goal with
         | H : (_ <=? _) = true |- _ => apply Z.leb_le in H
         | H : (_ <=? _) = false |- _ => apply Z.leb_gt in H
         end.

(** X16: the amounts of the gaps of one month compared, for a minimum base
    [m] of two decimals that is not negative.  The amount lies between 0
    and [m] and never grows with the ordinal of the gap.  A simulator
    whose sex is not FEMENINO and that has no special conditions for men,
    whatever the text of its sex, gets one and the same amount for every
    gap from the 49th on.  A simulator with the sex FEMENINO and the same
    regime and caps never gets less than another one, and from the gap 85
    on it gets that same amount. *)
Theorem X16_gap_amounts_compared (self : SimuladorPeriodos) (fecha_laguna : string)
    (fecha : datetime) (m : Q) (n n' : Z) :
  strptime fecha_laguna = Ok fecha ->
  _obtener_base_minima_año self (year fecha) = Ok m ->
  (0 <= m)%Q ->
  dos_decimales m ->
  exists a a' : Q,
    calcular_base_laguna self fecha_laguna n = Ok a
    /\ calcular_base_laguna self fecha_laguna n' = Ok a'
    /\ (0 <= a <= m)%Q
    /\ (n <= n' -> (a' <= a)%Q)
    /\ (sexo self <> "FEMENINO" -> cumple_condiciones_hombre self = false ->
        48 < n -> 48 < n' -> a' = a)
    /\ forall ella : SimuladorPeriodos,
         sexo ella = "FEMENINO" ->
         regimen_acceso ella = regimen_acceso self ->
         topes_cotizacion ella = topes_cotizacion self ->
         exists b : Q,
           calcular_base_laguna ella fecha_laguna n = Ok b
           /\ (a <= b)%Q
           /\ (sexo self <> "FEMENINO" -> cumple_condiciones_hombre self = false ->
               48 < n -> 84 < n' ->
               calcular_base_laguna ella fecha_laguna n' = Ok a).
Proof.
  intros Hf Hm Hpos Hdec.
  assert (H8 : (round2 ((8 # 10) * m) <= m)%Q).
  { rewrite <- (round2_id m Hdec) at 2. apply round2_mono. lra. }
  assert (H5 : (round2 ((5 # 10) * m) <= round2 ((8 # 10) * m))%Q)
    by (apply round2_mono; lra).
  assert (H0 : (0 <= round2 ((5 # 10) * m))%Q).
  { rewrite <- round2_0. apply round2_mono. lra. }
  rewrite (calcular_base_laguna_valor self _ _ m n Hf Hm).
  rewrite (calcular_base_laguna_valor self _ _ m n' Hf Hm).
  eexists _, _. split; [reflexivity|]. split; [reflexivity|].
  split; [|split; [|split]].
  - destruct (String.eqb (regimen_acceso self) "AUTONOMO"), (n <=? 48), (n <=? 60),
      (n <=? 84),
      (String.eqb (sexo self) "FEMENINO"
       || (String.eqb (sexo self) "MASCULINO" && cumple_condiciones_hombre self));
      split; lra.
  - intros Hle.
    destruct (String.eqb (regimen_acceso self) "AUTONOMO"); [lra|].
    destruct (String.eqb (sexo self) "FEMENINO"
              || (String.eqb (sexo self) "MASCULINO" && cumple_condiciones_hombre self));
      destruct (n <=? 48) eqn:E1, (n <=? 60) eqn:E2, (n <=? 84) eqn:E3,
        (n' <=? 48) eqn:E4, (n' <=? 60) eqn:E5, (n' <=? 84) eqn:E6;
      decidir_ordinales; first [lra | exfalso; lia].
  - intros Hsx Hc Hn Hn'.
    destruct (String.eqb_spec (sexo self) "FEMENINO"); [contradiction|].
    rewrite Hc, andb_false_r. simpl.
    rewrite (proj2 (Z.leb_gt n 48) Hn), (proj2 (Z.leb_gt n' 48) Hn'). reflexivity.
  - intros ella Hsx Hreg Htopes.
    assert (Hm' : _obtener_base_minima_año ella (year fecha) = Ok m).
    { unfold _obtener_base_minima_año in *.
      rewrite (_obtener_topes_año_ext ella self _ Htopes). exact Hm. }
    rewrite (calcular_base_laguna_valor ella _ _ m n Hf Hm').
    rewrite (calcular_base_laguna_valor ella _ _ m n' Hf Hm').
    eexists. split; [reflexivity|].
    rewrite Hsx, Hreg. simpl. split.
    + destruct (String.eqb (regimen_acceso self) "AUTONOMO"); [lra|].
      destruct (String.eqb (sexo self) "FEMENINO"
                || (String.eqb (sexo self) "MASCULINO" && cumple_condiciones_hombre self));
        destruct (n <=? 48), (n <=? 60), (n <=? 84); lra.
    + intros Hs Hc Hn Hn'.
      destruct (String.eqb_spec (sexo self) "FEMENINO"); [contradiction|].
      rewrite Hc, andb_false_r. simpl.
      rewrite (proj2 (Z.leb_gt n 48) Hn).
      rewrite (proj2 (Z.leb_gt n' 48)), (proj2 (Z.leb_gt n' 60)), (proj2 (Z.leb_gt n' 84))
        by lia.
      reflexivity.
Qed.

(** The gaps 50 and 90 of the sample, with the minimum base 1080. *)
Lemma X16_gap_amounts_compared_witness :
  exists a a' : Q,
    calcular_base_laguna simulador_ejemplo "03/2020" 50 = Ok a
    /\ calcular_base_laguna simulador_ejemplo "03/2020" 90 = Ok a'
    /\ (a' <= a)%Q.
Proof.
  destruct (X16_gap_amounts_compared simulador_ejemplo "03/2020" (12 * 2020 + 2) 1080 50 90)
    as (a & a' & Ha & Ha' & _ & Hle & _).
  - reflexivity.
  - reflexivity.
  - vm_compute. discriminate.
  - exists 108000. reflexivity.
  - exists a, a'. split; [exact Ha|]. split; [exact Ha'|]. apply Hle. lia.
Defined.

(** ** Amounts that are not negative *)

Lemma round2_no_negativo (x : Q) : (0 <= x)%Q -> (0 <= round2 x)%Q.
Proof. intros H. rewrite <- round2_0. apply round2_mono, H. Qed.

Lemma py_sum_no_negativo (l : list Q) :
  Forall (fun x => (0 <= x)%Q) l -> (0 <= py_sum l)%Q.
Proof.
  induction 1 as [|x r Hx _ IH].
  - vm_compute. discriminate.
  - rewrite py_sum_cons. lra.
Qed.

Lemma dict_get_In {V} (d : dict V) (k : Z) (v : V) :
  dict_get d k = Some v -> In (k, v) d.
Proof.
  induction d as [|[k' v'] r IH]; simpl; [discriminate|].
  destruct (Z.eqb_spec k k') as [->|_].
  - intros [= ->]. now left.
  - intros H. right. apply IH, H.
Qed.

Lemma _obtener_topes_año_In (self : SimuladorPeriodos) (año : Z) (t : topes) :
  _obtener_topes_año self año = Ok t ->
  exists k : Z, In (k, t) (topes_cotizacion self).
Proof.
  unfold _obtener_topes_año.
  destruct (dict_get (topes_cotizacion self) año) as [t'|] eqn:E.
  - intros [= <-]. exists año. apply dict_get_In, E.
  - intros H. inv_bind H as k Hk. unfold getitem in H.
    destruct (dict_get (topes_cotizacion self) k) as [t'|] eqn:E'; [|discriminate].
    injection H as <-. exists k. apply dict_get_In, E'.
Qed.

Lemma _obtener_topes_año_no_negativos (self : SimuladorPeriodos) (año : Z) (t : topes) :
  topes_no_negativos self ->
  _obtener_topes_año self año = Ok t ->
  (0 <= base_minima_mensual t)%Q /\ (0 <= base_maxima_mensual t)%Q.
Proof.
  intros Hcaps H. destruct (_obtener_topes_año_In _ _ _ H) as [k Hk].
  unfold topes_no_negativos in Hcaps. rewrite List.Forall_forall in Hcaps.
  apply (Hcaps (k, t) Hk).
Qed.

Lemma procesar_mes_no_negativa (self : SimuladorPeriodos) (m : string)
    (lm : list base_data) (b : BaseCotizacion) :
  topes_no_negativos self ->
  procesar_mes self (m, lm) = Ok b ->
  lm <> [] ->
  Forall (fun dato => (0 <= base_d dato)%Q) lm ->
  (0 <= base b)%Q.
Proof.
  intros Hcaps H Hne Hpos.
  destruct (procesar_mes_spec _ _ _ _ H Hne) as [(dato & -> & ->) | (_ & H2)].
  - simpl. apply round2_no_negativo. inversion Hpos; assumption.
  - destruct H2 as (a & t & p & md & _ & Ht & _ & _ & _ & _ & _ & _ & _ & _ & _ & Hcasos).
    destruct (_obtener_topes_año_no_negativos _ _ _ Hcaps Ht) as [Hmin Hmax].
    cbv zeta in Hcasos.
    destruct Hcasos as [(_ & _ & Hv) | [(_ & _ & _ & Hv) | (_ & _ & Hv)]]; rewrite Hv;
      apply round2_no_negativo; try assumption.
    apply py_sum_no_negativo, Forall_map. exact Hpos.
Qed.

Lemma __init___no_negativas (config : ConfigManager) (be : bases_extraidas)
    (fj ra sx : string) (self : SimuladorPeriodos) :
  __init__ config be fj ra sx = Ok self ->
  topes_no_negativos self ->
  Forall (fun b => (0 <= base b)%Q) (bases self).
Proof.
  intros H Hcaps.
  destruct (__init___bases _ _ _ _ _ _ H) as (l & _ & _ & _ & -> & _).
  destruct (__init___procesadas _ _ _ _ _ _ H) as (Hpos & _ & Hde & _).
  apply List.Forall_forall. intros b Hb. destruct (Hde b Hb) as [Hne Hp].
  apply (procesar_mes_no_negativa self _ _ _ Hcaps Hp Hne).
  apply List.Forall_forall. intros dato Hin. apply grupo_In in Hin.
  rewrite List.Forall_forall in Hpos. apply Hpos, Hin.
Qed.

Lemma recoger_recientes_no_negativas (l : list BaseCotizacion) (ultima : datetime) :
  Forall (fun b => (0 <= base b)%Q) l ->
  forall acc r : list Q,
    recoger_recientes l ultima acc = Ok r ->
    Forall (fun x => (0 <= x)%Q) acc ->
    Forall (fun x => (0 <= x)%Q) r.
Proof.
  induction 1 as [|b l' Hb _ IH]; intros acc r H Hacc; simpl in H.
  - injection H as <-. exact Hacc.
  - inv_bind H as d Hd. inv_bind H as lim Hlim.
    destruct (lim <=? d); [|eapply IH; eassumption].
    eapply IH; [exact H|]. apply Forall_app. split; [exact Hacc|].
    constructor; [exact Hb | constructor].
Qed.

Lemma bucle_simulacion_no_negativas (self : SimuladorPeriodos) (promedio : Q) :
  (0 <= promedio)%Q ->
  forall (pasos : nat) (fecha_actual limite : Z) (acc r : list BaseCotizacion),
    bucle_simulacion self promedio pasos fecha_actual limite acc = Ok r ->
    Forall (fun b => (0 <= base b)%Q) acc ->
    Forall (fun b => (0 <= base b)%Q) r.
Proof.
  intros Hp. induction pasos as [|n IH]; intros f lim acc r H Hacc; simpl in H.
  - injection H as <-. exact Hacc.
  - destruct (f <=? lim); [|injection H as <-; exact Hacc].
    inv_bind H as sig Hsig. eapply IH; [exact H|].
    apply Forall_app. split; [exact Hacc|].
    constructor; [|constructor]. simpl. do 2 apply round2_no_negativo. exact Hp.
Qed.

Lemma simular_periodo_futuro_no_negativas (self : SimuladorPeriodos)
    (simuladas : list BaseCotizacion) :
  Forall (fun b => (0 <= base b)%Q) (bases self) ->
  simular_periodo_futuro self = Ok simuladas ->
  Forall (fun b => (0 <= base b)%Q) simuladas.
Proof.
  intros Hpos. unfold simular_periodo_futuro.
  destruct (bases self) as [|b0 r0] eqn:Eb; [intros [= <-]; constructor|].
  rewrite <- Eb in *. intros H.
  inv_bind H as claves Hc. inv_bind H as ultima Hu. inv_bind H as fecha Hf.
  destruct (fecha_jubilacion self <=? fecha); [injection H as <-; constructor|].
  inv_bind H as recientes Hr. inv_bind H as actual Ha. inv_bind H as limite Hl.
  eapply bucle_simulacion_no_negativas; [|exact H | constructor].
  pose proof (recoger_recientes_no_negativas _ fecha Hpos [] recientes Hr
                (List.Forall_nil _)) as Hrec.
  destruct recientes as [|x xs] eqn:Er.
  - destruct (py_max_spec _ _ _ Hu) as [Hin _].
    destruct (mapM_con_clave _ _ _ Hc) as [Hsnd _].
    rewrite List.Forall_forall in Hpos. apply Hpos.
    rewrite <- Hsnd. apply in_map, Hin.
  - rewrite <- Er in *. apply py_sum_no_negativo in Hrec.
    apply Qle_shift_div_l; [|lra].
    rewrite Er. simpl length. unfold Qlt, inject_Z. simpl. lia.
Qed.

Lemma calcular_base_laguna_no_negativa (self : SimuladorPeriodos)
    (fecha_laguna : string) (n : Z) (a : Q) :
  topes_no_negativos self ->
  calcular_base_laguna self fecha_laguna n = Ok a -> (0 <= a)%Q.
Proof.
  intros Hcaps H. unfold calcular_base_laguna in H.
  inv_bind H as fecha Hf.
  destruct (String.eqb (regimen_acceso self) "AUTONOMO"); [injection H as <-; lra|].
  inv_bind H as m Hm. unfold _obtener_base_minima_año in Hm.
  inv_bind Hm as t Ht. injection Hm as <-.
  destruct (_obtener_topes_año_no_negativos _ _ _ Hcaps Ht) as [Hmin _].
  destruct (n <=? 48); [injection H as <-; exact Hmin|].
  destruct (String.eqb (sexo self) "FEMENINO"
            || (String.eqb (sexo self) "MASCULINO" && cumple_condiciones_hombre self)).
  - destruct (n <=? 60); [injection H as <-; exact Hmin|].
    destruct (n <=? 84); injection H as <-; apply round2_no_negativo; lra.
  - injection H as <-. apply round2_no_negativo. lra.
Qed.

Lemma bucle_periodo_no_negativas (self : SimuladorPeriodos) (l : list BaseCotizacion) :
  topes_no_negativos self ->
  Forall (fun b => (0 <= base b)%Q) l ->
  forall (faltan : nat) (fecha_actual contador : Z) (acc r : list BaseCotizacion),
    bucle_periodo self (construir_bases_dict l) faltan fecha_actual contador acc = Ok r ->
    Forall (fun b => (0 <= base b)%Q) acc ->
    Forall (fun b => (0 <= base b)%Q) r.
Proof.
  intros Hcaps Hl. induction faltan as [|n IH]; intros f c acc r H Hacc.
  - injection H as <-. exact Hacc.
  - cbn [bucle_periodo] in H.
    inv_bind H as paso Hpaso. inv_bind H as anterior Hant.
    eapply IH; [exact H|].
    destruct (construir_bases_dict l !! strftime f) as [b0|] eqn:Ed.
    + injection Hpaso as <-. cbn [fst]. apply Forall_app. split; [exact Hacc|].
      constructor; [|constructor].
      rewrite List.Forall_forall in Hl. eapply Hl, construir_bases_dict_In, Ed.
    + inv_bind Hpaso as a Ha. injection Hpaso as <-. cbn [fst].
      apply Forall_app. split; [exact Hacc|].
      constructor; [|constructor]. simpl. apply round2_no_negativo.
      eapply calcular_base_laguna_no_negativa; eassumption.
Qed.

Lemma obtener_bases_periodo_computo_no_negativas (self : SimuladorPeriodos) (usar : bool)
    (ventana : list BaseCotizacion) :
  topes_no_negativos self ->
  Forall (fun b => (0 <= base b)%Q) (bases self) ->
  obtener_bases_periodo_computo self usar = Ok ventana ->
  Forall (fun b => (0 <= base b)%Q) ventana.
Proof.
  intros Hcaps Hpos H. unfold obtener_bases_periodo_computo in H.
  inv_bind H as simuladas Hs. inv_bind H as inicio Hi.
  eapply (bucle_periodo_no_negativas self _ Hcaps); [|exact H | constructor].
  apply Forall_app. split; [exact Hpos|].
  eapply simular_periodo_futuro_no_negativas; eassumption.
Qed.

Lemma revalorizar_bases_no_negativas (self : SimuladorPeriodos)
    (ventana : list BaseCotizacion) (con_periodo : list base_dict) :
  indices_no_negativos self ->
  Forall (fun b => (0 <= base b)%Q) ventana ->
  añadir_periodo self ventana = Ok con_periodo ->
  Forall (fun r => (0 <= base_p r)%Q) (revalorizar_bases self con_periodo).
Proof.
  intros Hind Hv H. unfold añadir_periodo in H. inv_bind H as limite Hl.
  apply mapM_Forall2 in H. unfold revalorizar_bases. apply Forall_map.
  induction H as [|b r l l' Hb _ IH]; [constructor|].
  apply Forall_cons_1 in Hv. destruct Hv as [Hb2 Hv].
  constructor; [|apply IH, Hv].
  inv_bind Hb as d Hd. injection Hb as <-.
  unfold revalorizar_base. cbn [periodo mes_anyo_p base_p].
  destruct (limite <=? d); cbn; [exact Hb2|].
  destruct (indices_revalorizacion self !! mes_anyo b) as [indice|] eqn:Ei; cbn;
    [|exact Hb2].
  apply round2_no_negativo. specialize (Hind _ _ Ei). nra.
Qed.

Lemma suma_filtro_no_negativa (p : string) (l : list base_dict) :
  Forall (fun r => (0 <= base_p r)%Q) l ->
  (0 <= py_sum (map base_p (List.filter (es_periodo p) l)))%Q.
Proof.
  intros H. apply py_sum_no_negativo, Forall_map, List.Forall_forall.
  intros r Hr. apply filter_In in Hr. destruct Hr as [Hr _].
  rewrite List.Forall_forall in H. apply (H r Hr).
Qed.

Lemma _calcular_estadisticas_para_bases_no_negativas (self : SimuladorPeriodos)
    (l : list base_dict) (divisor : Q) (e : estadisticas) :
  Forall (fun r => (0 <= base_p r)%Q) l ->
  _calcular_estadisticas_para_bases self l divisor = Ok (Some e) ->
  (0 <= suma_periodo_revalorizado e)%Q
  /\ (0 <= suma_periodo_no_revalorizado e)%Q
  /\ (0 <= suma_total e)%Q
  /\ ((0 < divisor)%Q -> (0 <= base_reguladora e)%Q).
Proof.
  intros Hl H. unfold _calcular_estadisticas_para_bases in H.
  destruct l as [|r0 l0] eqn:El; [discriminate|]. rewrite <- El in *.
  destruct (Qeq_bool divisor 0); [discriminate|].
  injection H as <-. cbn.
  pose proof (suma_filtro_no_negativa "revalorizado" l Hl) as Ha.
  pose proof (suma_filtro_no_negativa "no_revalorizado" l Hl) as Hb.
  repeat split; try (apply round2_no_negativo; lra).
  intros Hd. apply round2_no_negativo. apply Qle_shift_div_l; [exact Hd | lra].
Qed.

(** Either calculation on amounts that are not negative. *)
Lemma calculo_no_negativo (self : SimuladorPeriodos) (usar : bool)
    (ventana : list BaseCotizacion) (con_periodo ordenadas : list base_dict) :
  topes_no_negativos self ->
  indices_no_negativos self ->
  Forall (fun b => (0 <= base b)%Q) (bases self) ->
  obtener_bases_periodo_computo self usar = Ok ventana ->
  añadir_periodo self ventana = Ok con_periodo ->
  ordenar_por_fecha mes_anyo_p (revalorizar_bases self con_periodo) = Ok ordenadas ->
  Forall (fun r => (0 <= base_p r)%Q) ordenadas.
Proof.
  intros Hcaps Hind Hpos Hv Hc Ho.
  destruct (ordenar_por_fecha_perm _ _ _ Ho) as [Hperm _].
  rewrite Hperm.
  eapply revalorizar_bases_no_negativas; [exact Hind | | exact Hc].
  eapply obtener_bases_periodo_computo_no_negativas; eassumption.
Qed.

(** X17: with a table of caps and a table of indices that hold no negative
    number, nothing that the simulator computes is negative: the amounts of
    the bases of a constructed simulator, and, when the complete
    calculation returns, the amounts of the processed bases of both
    calculations, their sums, the regulatory base of the pre-reform
    calculation and the regulatory base of the chosen calculation, whatever
    the sign of the divisor of the reform. *)
Theorem X17_no_negative_amount (config : ConfigManager) (be : bases_extraidas)
    (fj ra sx : string) (self self' : SimuladorPeriodos) (r : resultado_completo) :
  __init__ config be fj ra sx = Ok self ->
  topes_no_negativos self ->
  indices_no_negativos self ->
  procesar_bases_completo self = Ok (self', r) ->
  Forall (fun b => (0 <= base b)%Q) (bases self)
  /\ Forall (fun x => (0 <= base_p x)%Q) (bases_procesadas_r r)
  /\ (exists e : estadisticas,
        estadisticas_r r = Some e
        /\ (0 <= suma_periodo_revalorizado e)%Q
        /\ (0 <= suma_periodo_no_revalorizado e)%Q
        /\ (0 <= suma_total e)%Q
        /\ (0 <= base_reguladora e)%Q)
  /\ (exists ep : estadisticas,
        estadisticas_c (calculo_prereforma (comparativa_calculos r)) = Some ep
        /\ (0 <= base_reguladora ep)%Q)
  /\ (exists er : estadisticas,
        estadisticas_c (calculo_reforma_rd2_2023 (comparativa_calculos r)) = Some er
        /\ (0 <= suma_total er)%Q).
Proof.
  intros Hinit Hcaps Hind H.
  pose proof (__init___no_negativas _ _ _ _ _ _ Hinit Hcaps) as Hpos.
  split; [exact Hpos|].
  unfold procesar_bases_completo in H.
  inv_bind H as ref Href. destruct ref as [br er].
  inv_bind H as pre Hpre. destruct pre as [bp ep].
  inv_bind H as ele Hele. destruct ele as [[bel eel] cel].
  injection H as <- <-.
  cbn [bases_procesadas_r estadisticas_r comparativa_calculos calculo_prereforma
       calculo_reforma_rd2_2023 estadisticas_c _generar_resultado_completo].
  apply elegir_Ok in Hele. destruct Hele as (sr & sp & Her & Hep & Hx).
  subst er ep.
  unfold _procesar_calculo_reforma in Href.
  inv_bind Href as v1 Hv1. inv_bind Href as c1 Hc1. inv_bind Href as o1 Ho1.
  inv_bind Href as e1 He1. injection Href as <- ->.
  unfold _procesar_calculo_prereforma in Hpre.
  inv_bind Hpre as v2 Hv2. inv_bind Hpre as c2 Hc2. inv_bind Hpre as o2 Ho2.
  inv_bind Hpre as e2 He2. injection Hpre as <- ->.
  pose proof (calculo_no_negativo self false _ _ _ Hcaps Hind Hpos Hv1 Hc1 Ho1) as Hp1.
  pose proof (calculo_no_negativo self true _ _ _ Hcaps Hind Hpos Hv2 Hc2 Ho2) as Hp2.
  destruct (_calcular_estadisticas_para_bases_no_negativas _ _ _ _ Hp1 He1)
    as (Ha1 & Hb1 & Ht1 & _).
  destruct (_calcular_estadisticas_para_bases_no_negativas _ _ _ _ Hp2 He2)
    as (Ha2 & Hb2 & Ht2 & Hr2).
  assert (Hbr2 : (0 <= base_reguladora sp)%Q) by (apply Hr2; reflexivity).
  destruct (Qle_bool (base_reguladora sp) (base_reguladora sr)) eqn:Eq;
    injection Hx as -> -> _.
  - apply Qle_bool_iff in Eq.
    split; [exact Hp1|]. split; [|split; eauto].
    exists sr. repeat split; try assumption. lra.
  - split; [exact Hp2|]. split; [|split; eauto].
    exists sp. repeat split; assumption.
Qed.

Lemma X17_no_negative_amount_witness :
  exists (self' : SimuladorPeriodos) (r : resultado_completo) (e : estadisticas),
    procesar_bases_completo simulador_ejemplo = Ok (self', r)
    /\ estadisticas_r r = Some e
    /\ (0 <= base_reguladora e)%Q.
Proof.
  destruct (procesar_bases_completo simulador_ejemplo) as [[self' r]|err] eqn:E;
    [|vm_compute in E; discriminate E].
  destruct (X17_no_negative_amount config_ejemplo bases_ejemplo "06/2025" "GENERAL"
              "MASCULINO" simulador_ejemplo self' r)
    as (_ & _ & (e & He & _ & _ & _ & Hbr) & _).
  - vm_compute. reflexivity.
  - repeat constructor; vm_compute; discriminate.
  - intros m indice Hm.
    replace (indices_revalorizacion simulador_ejemplo)
      with (cargar_indices_revalorizacion config_ejemplo) in Hm
      by (vm_compute; reflexivity).
    unfold config_ejemplo in Hm. cbn [cargar_indices_revalorizacion] in Hm.
    apply lookup_insert_Some in Hm. destruct Hm as [[_ <-] | [_ Hm]];
      [vm_compute; discriminate|].
    apply lookup_insert_Some in Hm. destruct Hm as [[_ <-] | [_ Hm]];
      [vm_compute; discriminate|].
    rewrite lookup_empty in Hm. discriminate Hm.
  - exact E.
  - exists self', r, e. split; [reflexivity|]. split; [exact He | exact Hbr].
Defined.

(** * Properties of the computed amounts *)

(** The properties below are about the methods of the module [Binary64]:
    the amounts are the floats that the code computes. *)
Section Importes.
Import Binary64.

(** ** The order of the floats *)








(** ** The gap-amount rule *)

(** C1: the amount of a gap.  With the access regime AUTONOMO it is 0.0 for
    every ordinal and sex.  With the access regime GENERAL and [m] the
    minimum monthly base of the year of the gap, it is [m] up to the
    ordinal 48; for a woman, or a man with the special conditions, it is
    [m] for the ordinals 49 to 60, [round(0.8 * m, 2)] for 61 to 84 and
    [round(0.5 * m, 2)] beyond; for a man without the special conditions it
    is [round(0.5 * m, 2)] from the ordinal 49 on.  The product and the
    rounding are those of the floats. *)
Theorem C1_gap_amount_rule (self : SimuladorPeriodos) (fecha_laguna : string)
    (fecha : datetime) (n : Z) :
  strptime fecha_laguna = Ok fecha ->
  (regimen_acceso self = "AUTONOMO" ->
   calcular_base_laguna self fecha_laguna n = Ok cero) /\
  (forall m : spec_float,
     regimen_acceso self = "GENERAL" ->
     _obtener_base_minima_año self (year fecha) = Ok m ->
     let dt41 :=
       sexo self = "FEMENINO"
       \/ (sexo self = "MASCULINO" /\ cumple_condiciones_hombre self = true) in
     (n <= 48 -> calcular_base_laguna self fecha_laguna n = Ok m) /\
     (49 <= n <= 60 -> dt41 -> calcular_base_laguna self fecha_laguna n = Ok m) /\
     (61 <= n <= 84 -> dt41 ->
      calcular_base_laguna self fecha_laguna n
      = Ok (round2 (fmul (decimal 8 10) m))) /\
     (84 < n -> dt41 ->
      calcular_base_laguna self fecha_laguna n
      = Ok (round2 (fmul (decimal 5 10) m))) /\
     (48 < n -> sexo self = "MASCULINO" -> cumple_condiciones_hombre self = false ->
      calcular_base_laguna self fecha_laguna n
      = Ok (round2 (fmul (decimal 5 10) m)))).
Proof.
  intros Hf. split.
  - intros Hr. unfold calcular_base_laguna. rewrite Hf, Hr. reflexivity.
  - intros m Hr Hm dt41.
    assert (Hdt : dt41 ->
              String.eqb (sexo self) "FEMENINO"
              || (String.eqb (sexo self) "MASCULINO" && cumple_condiciones_hombre self)
              = true).
    { intros [-> | [-> ->]]; reflexivity. }
    unfold calcular_base_laguna. rewrite Hf, Hr. cbn [bind].
    change (String.eqb "GENERAL" "AUTONOMO") with false. cbv iota.
    rewrite Hm. cbn [bind].
    split; [|split; [|split; [|split]]].
    + intros H. apply Z.leb_le in H. rewrite H. reflexivity.
    + intros H D. rewrite (Hdt D).
      replace (n <=? 48) with false by (symmetry; apply Z.leb_gt; lia).
      replace (n <=? 60) with true by (symmetry; apply Z.leb_le; lia).
      reflexivity.
    + intros H D. rewrite (Hdt D).
      replace (n <=? 48) with false by (symmetry; apply Z.leb_gt; lia).
      replace (n <=? 60) with false by (symmetry; apply Z.leb_gt; lia).
      replace (n <=? 84) with true by (symmetry; apply Z.leb_le; lia).
      reflexivity.
    + intros H D. rewrite (Hdt D).
      replace (n <=? 48) with false by (symmetry; apply Z.leb_gt; lia).
      replace (n <=? 60) with false by (symmetry; apply Z.leb_gt; lia).
      replace (n <=? 84) with false by (symmetry; apply Z.leb_gt; lia).
      reflexivity.
    + intros H -> ->.
      replace (n <=? 48) with false by (symmetry; apply Z.leb_gt; lia).
      reflexivity.
Qed.

(** The gap 70 of a woman with the minimum base 1080: 864.0. *)
Lemma C1_gap_amount_rule_witness :
  calcular_base_laguna simuladora_ejemplo "06/2024" 70 = Ok (decimal 864 1).
Proof.
  destruct (C1_gap_amount_rule simuladora_ejemplo "06/2024" (12 * 2024 + 5) 70)
    as [_ H]; [reflexivity|].
  destruct (H (decimal 1080 1)) as (_ & _ & H3 & _); [reflexivity | reflexivity|].
  rewrite H3; [vm_compute; reflexivity | lia | left; reflexivity].
Defined.

(** The tiers with the minimum base 1080, and with the minimum base 1000.03,
    where half of it, 500.015, is below the float nearest to it. *)
Lemma tramos_ejemplos :
  calcular_base_laguna simulador_ejemplo "06/2024" 1 = Ok (decimal 1080 1)
  /\ calcular_base_laguna simuladora_ejemplo "06/2024" 49 = Ok (decimal 1080 1)
  /\ calcular_base_laguna simuladora_ejemplo "06/2024" 70 = Ok (decimal 864 1)
  /\ calcular_base_laguna simuladora_ejemplo "06/2024" 100 = Ok (decimal 540 1)
  /\ calcular_base_laguna simulador_ejemplo "06/2024" 49 = Ok (decimal 540 1)
  /\ round2 (fmul (decimal 5 10) (centesimas 100003)) = centesimas 50001.
Proof. repeat split; vm_compute; reflexivity. Qed.

(** ** Aggregation of the bases of a month *)



(** The three cases of the aggregation with the caps 1080 and 4495, and a
    sum that is above the maximum only as a float: 1000.20 + 3069.90 with
    the maximum 4070.10. *)
Lemma agregacion_ejemplos :
  (exists r, _agregar_bases_mes simulador_ejemplo (dos_bases 120000 80000) "03/2025" = Ok r
             /\ base_agregada_final r = decimal 2000 1 /\ aplicado_tope r = "ninguno"
             /\ regimen_principal r = "GENERAL")
  /\ (exists r, _agregar_bases_mes simulador_ejemplo (dos_bases 40000 50000) "03/2025" = Ok r
                /\ base_agregada_final r = decimal 1080 1 /\ aplicado_tope r = "minimo"
                /\ regimen_principal r = "AUTONOMO")
  /\ (exists r, _agregar_bases_mes simulador_ejemplo (dos_bases 250000 250000) "03/2025"
                = Ok r
                /\ base_agregada_final r = decimal 4495 1 /\ aplicado_tope r = "maximo"
                /\ regimen_principal r = "GENERAL")
  /\ flt (centesimas 407010) (fadd (centesimas 100020) (centesimas 306990)) = true.
Proof.
  repeat split; try (eexists; (split; [vm_compute; reflexivity|]); repeat split).
Qed.

(** ** The simulation of the future period *)







(** ** Classification and revaluation *)

Lemma construir_bases_dict_b64 (l : list BaseCotizacion) (k : string)
    (b : BaseCotizacion) :
  construir_bases_dict l !! k = Some b -> mes_anyo b = k.
Proof.
  unfold construir_bases_dict.
  assert (G : forall (d : gmap string BaseCotizacion),
             (forall k b, d !! k = Some b -> mes_anyo b = k) ->
             forall k b,
               fold_left (fun d b => <[mes_anyo b := b]> d) l d !! k = Some b ->
               mes_anyo b = k).
  { induction l as [|x r IH]; intros d Hd k' b' H; simpl in H; [eauto|].
    eapply IH; [|exact H]. intros k0 b0 H0.
    destruct (decide (mes_anyo x = k0)) as [<-|Hne].
    - rewrite lookup_insert_eq in H0. congruence.
    - rewrite lookup_insert_ne in H0 by exact Hne. eauto. }
  apply G. intros k0 b0 H0. rewrite lookup_empty in H0. discriminate.
Qed.

(** The months of the records that the backward walk emits. *)
Lemma bucle_periodo_b64 (self : SimuladorPeriodos) (l : list BaseCotizacion) :
  forall (faltan : nat) (fecha_actual contador : Z) (acc r : list BaseCotizacion),
    12 <= fecha_actual < 120000 ->
    bucle_periodo self (construir_bases_dict l) faltan fecha_actual contador acc = Ok r ->
    exists w : list BaseCotizacion,
      r = acc ++ w
      /\ length w = faltan
      /\ Forall (fun b => exists d, strptime (mes_anyo b) = Ok d /\ d <= fecha_actual) w.
Proof.
  induction faltan as [|n IH]; intros f c acc r Hf H.
  - injection H as <-. exists []. rewrite app_nil_r. repeat split; constructor.
  - cbn [bucle_periodo] in H.
    assert (Hparse : strptime (strftime f) = Ok f)
      by (apply strptime_strftime, en_rango_spec, Hf).
    inv_bind H as paso Hpaso. inv_bind H as anterior Hant.
    apply relativedelta_inv in Hant. destruct Hant as [-> Hr].
    destruct (IH _ _ _ _ Hr H) as (w & -> & Hlen & Hall).
    assert (Hw : Forall (fun b => exists d, strptime (mes_anyo b) = Ok d /\ d <= f) w).
    { eapply Forall_impl; [exact Hall|]. intros b (d & Hd & Hle).
      exists d. split; [exact Hd | lia]. }
    destruct (construir_bases_dict l !! strftime f) as [b0|] eqn:Ed.
    + injection Hpaso as <-. cbn [fst snd] in *.
      exists (b0 :: w). rewrite <- app_assoc. split; [reflexivity|].
      split; [simpl; congruence|]. constructor; [|exact Hw].
      exists f. rewrite (construir_bases_dict_b64 _ _ _ Ed). split; [exact Hparse | lia].
    + inv_bind Hpaso as a Ha. injection Hpaso as <-. cbn [fst snd] in *.
      eexists (_ :: w). rewrite <- app_assoc. split; [reflexivity|].
      split; [simpl; congruence|]. constructor; [|exact Hw].
      exists f. split; [exact Hparse | lia].
Qed.

Lemma obtener_bases_periodo_computo_b64 (self : SimuladorPeriodos) (usar : bool)
    (ventana : list BaseCotizacion) :
  obtener_bases_periodo_computo self usar = Ok ventana ->
  length ventana
  = Z.to_nat (if usar then 300 else bases_incluidas (parametros_año_jubilacion self))
  /\ fecha_jubilacion self <= 120000
  /\ Forall (fun b => exists d, strptime (mes_anyo b) = Ok d /\ d < fecha_jubilacion self)
       ventana.
Proof.
  unfold obtener_bases_periodo_computo. intros H.
  inv_bind H as simuladas Hs. inv_bind H as inicio Hi.
  apply relativedelta_inv in Hi. destruct Hi as [-> Hr].
  apply bucle_periodo_b64 in H; [|exact Hr].
  destruct H as (w & -> & Hlen & Hall). cbn [app].
  split; [exact Hlen|]. split; [lia|].
  eapply Forall_impl; [exact Hall|]. intros b (d & Hd & Hle).
  exists d. split; [exact Hd | lia].
Qed.

(** C6: the classification and the revaluation of the records of a period
    of computation never raise.  A record dated in the 24 months before the
    retirement is "no_revalorizado" and is kept as it is; an older one is
    "revalorizado" and records its original amount: when the table has an
    index for its month, its amount becomes [round(original * index, 2)],
    the product and the rounding being those of the floats, and the index
    is recorded; when the table has none, the amount is unchanged and the
    index recorded is 1.0. *)
Theorem C6_revaluation (self : SimuladorPeriodos) (usar_parametros_antiguos : bool)
    (ventana : list BaseCotizacion) :
  obtener_bases_periodo_computo self usar_parametros_antiguos = Ok ventana ->
  36 <= fecha_jubilacion self ->
  exists con_periodo : list base_dict,
    añadir_periodo self ventana = Ok con_periodo
    /\ Forall2
         (fun (b : BaseCotizacion) (r : base_dict) =>
            exists d : Z,
              strptime (mes_anyo b) = Ok d
              /\ d < fecha_jubilacion self
              /\ mes_anyo_p r = mes_anyo b
              /\ (fecha_jubilacion self - 24 <= d ->
                  periodo r = "no_revalorizado"
                  /\ base_p r = base b
                  /\ base_original r = None
                  /\ indice_revalorizacion r = None)
              /\ (d < fecha_jubilacion self - 24 ->
                  periodo r = "revalorizado"
                  /\ base_original r = Some (base b)
                  /\ match indices_revalorizacion self !! mes_anyo b with
                     | Some indice =>
                         base_p r = round2 (fmul (base b) indice)
                         /\ indice_revalorizacion r = Some indice
                     | None =>
                         base_p r = base b
                         /\ indice_revalorizacion r = Some (decimal 1 1)
                     end))
         ventana (revalorizar_bases self con_periodo).
Proof.
  intros Hv Hret.
  destruct (obtener_bases_periodo_computo_b64 _ _ _ Hv) as (_ & Hhi & Hall).
  unfold añadir_periodo, revalorizar_bases.
  rewrite relativedelta_Ok by lia. cbn [bind].
  replace (fecha_jubilacion self + -24) with (fecha_jubilacion self - 24) by lia.
  clear Hv. induction Hall as [|b l (d & Hd & Hlt) _ IH].
  - exists []. split; [reflexivity | constructor].
  - destruct IH as (con & Hcon & Hrel).
    cbn [mapM]. rewrite Hd. cbn [bind]. rewrite Hcon. cbn [bind].
    eexists. split; [reflexivity|].
    cbn [map]. constructor; [|exact Hrel].
    exists d. split; [exact Hd|]. split; [exact Hlt|].
    unfold revalorizar_base. cbn [periodo mes_anyo_p base_p].
    destruct (fecha_jubilacion self - 24 <=? d) eqn:E.
    + apply Z.leb_le in E. cbn.
      split; [reflexivity|]. split; [intros _; repeat split | intros L; lia].
    + apply Z.leb_gt in E. cbn.
      destruct (indices_revalorizacion self !! mes_anyo b) as [i|]; cbn;
        (split; [reflexivity|]); (split; [intros L; lia | intros _; repeat split]).
Qed.

(** The sample data: the period of computation of the reform calculation. *)
Lemma C6_revaluation_witness :
  exists (ventana : list BaseCotizacion) (con_periodo : list base_dict),
    obtener_bases_periodo_computo simulador_ejemplo false = Ok ventana
    /\ añadir_periodo simulador_ejemplo ventana = Ok con_periodo
    /\ length (revalorizar_bases simulador_ejemplo con_periodo) = length ventana.
Proof.
  destruct (obtener_bases_periodo_computo simulador_ejemplo false) as [ventana|e] eqn:E.
  - destruct (C6_revaluation simulador_ejemplo false ventana E) as (con & Hcon & Hrel).
    + vm_compute. discriminate.
    + exists ventana, con. split; [reflexivity|]. split; [exact Hcon|].
      symmetry. eapply Forall2_length, Hrel.
  - vm_compute in E. discriminate E.
Defined.

(** The gap of 05/2023 of the sample, 1080.0 with the index 1.035, and an
    amount of 1001.0 with the same index, where the exact product 1036.035
    is above the float product. *)
Lemma revalorizacion_ejemplos :
  base_p (revalorizar_base simulador_ejemplo (procesada "05/2023" 108000 "revalorizado"))
  = centesimas 111780
  /\ base_p (revalorizar_base simulador_ejemplo (procesada "05/2023" 100100 "revalorizado"))
     = centesimas 103603
  /\ indice_revalorizacion
       (revalorizar_base simulador_ejemplo (procesada "01/2020" 100100 "revalorizado"))
     = Some (decimal 1 1)
  /\ revalorizar_base simulador_ejemplo (procesada "05/2025" 100100 "no_revalorizado")
     = procesada "05/2025" 100100 "no_revalorizado".
Proof. repeat split; vm_compute; reflexivity. Qed.

(** ** Statistics *)






(** The pre-reform calculation of the sample data: 300 bases, 24 of them
    not revalued, the sums 166941.0, 28803.6 and 195744.6, and the
    regulatory base 559.27. *)
Lemma estadisticas_ejemplo :
  exists (bases_prereforma : list base_dict) (e : estadisticas),
    _procesar_calculo_prereforma simulador_ejemplo = Ok (bases_prereforma, Some e)
    /\ total_bases e = 300%nat
    /\ bases_no_revalorizadas e = 24%nat
    /\ suma_periodo_revalorizado e = centesimas 16694100
    /\ suma_periodo_no_revalorizado e = centesimas 2880360
    /\ suma_total e = centesimas 19574460
    /\ base_reguladora e = centesimas 55927.
Proof.
  eexists _, _. split; [vm_compute; reflexivity|]. repeat split.
Qed.


End Importes.
